(** * FileShare backend: access control, sharing and OTP verification

    A shallow embedding of the Express controllers of the FileShare backend
    (controllers/documents.js, controllers/auth.js, middleware/auth.js,
    models/Document.js and the route validators), with the properties of
    its specification stated and proved over the embedding.

    Conventions of the embedding
    - A MongoDB collection of documents is a finite map from [_id] to the
      remaining fields; the users collection is a list in insertion order
      (it is searched by email as well as by id).
    - An [ObjectId] is its hexadecimal string of 24 digits, so
      [.toString()] is the identity and [===] on ids is string equality.
      An [:id] of a path is any string: [findById] casts it, and throws a
      CastError into the handler's catch when it is not an ObjectId.
    - A string is the sequence of its UTF-16 code units; the embedding
      covers the strings whose code units are below 256.
    - One handler run reads the clock once: every [Date.now()] of the run
      returns [Date_now env].
    - What a handler awaits from the outside world (cloudinary, the id the
      database assigns) is read from an environment record [Env]; a rejected
      promise is [inl message].  The database does not fail, except that
      a create under an [_id] already in use is refused.
    - A handler returns the response it sends, the store it leaves and the
      ordered list of external effects it performed. *)

From Stdlib Require Import ZArith String Ascii List Bool Lia.
From stdpp Require Import base option list strings gmap fin_maps.
Import ListNotations.
Local Open Scope string_scope.
Local Open Scope Z_scope.

(** JavaScript [===] and [!==] on strings. *)
Local Infix "===" := String.eqb (at level 70, no associativity).
Local Notation "a '!==' b" := (negb (String.eqb a b)) (at level 70, no associativity).

(** ** Data model *)

Abbreviation ObjectId := string (only parsing).

(** models/Document.js, one element of [sharedWith].  [user] is always set:
    the only writer is the [push] of [shareDocument], so the truthiness
    guards [share.user && ...] of the controllers are constantly true. *)
Record ShareEntry := {
  user : ObjectId;
  accessLevel : string;
  sharedAt : Z
}.

(** models/Document.js, DocumentSchema (the [_id] is the key of the collection). *)
Record Document := {
  title : string;
  description : string;
  documentType : string;
  fileUrl : string;
  publicId : string;
  owner : ObjectId;
  sharedWith : list ShareEntry;
  createdAt : Z;
  updatedAt : Z
}.

Record Otp := {
  code : string;
  expiry : Z
}.

Module User.
(** Modelled from the spec: models/User.js is not among the sources; the
    fields are those of the spec's Identity ([secretHash] is [password],
    [pendingCode] is [otp]) under the names the controllers use. *)
Record t := {
  _id : ObjectId;
  name : string;
  email : string;
  password : option string;
  isVerified : bool;
  otp : option Otp;
  createdAt : Z
}.
End User.

Record Store := {
  users : list User.t;
  documents : gmap string Document
}.

(** ** Requests, responses, environment *)

Record Request := {
  authorization : option string;   (* req.headers.authorization *)
  params_id : string;              (* req.params.id *)
  params_userId : string;          (* req.params.userId *)
  body_title : option string;
  body_description : option string;
  body_documentType : option string;
  body_email : option string;
  body_accessLevel : option string;
  body_otp : option string;
  body_password : option string;
  file : option string;            (* req.file.path, when multer stored a file *)
  req_user : User.t                (* req.user, attached by protect *)
}.

Inductive Data :=
| DataDocument (id : ObjectId) (d : Document)
| DataEmpty.

(** The JSON body [{success, message?, error?, errors?, token?, user?, data?}]. *)
Record Body := {
  success : bool;
  message : option string;
  error : option string;
  errors : option (list string);
  token : option string;
  body_user : option User.t;
  data : option Data
}.

Record Response := {
  status : Z;
  json : Body
}.

Record UploadResult := {
  secure_url : string;
  public_id : string
}.

Record Env := {
  Date_now : Z;
  cloudinary_uploader_upload : string -> string + UploadResult;
  cloudinary_uploader_destroy : string -> string + unit;
  new_ObjectId : ObjectId
}.

Inductive Effect :=
| CloudinaryUpload (path : string)
| CloudinaryDestroy (publicId : string)
| DocumentCreate (id : ObjectId)
| DocumentUpdate (id : ObjectId)
| DocumentDelete (id : ObjectId)
| UserSave (id : ObjectId)
| FsUnlink (path : string).

Record Outcome := {
  response : Response;
  store : Store;
  effects : list Effect
}.

Definition failure (msg : string) : Body :=
  {| success := false; message := Some msg; error := None; errors := None;
     token := None; body_user := None; data := None |}.

(** [{ success: false, message: 'Server error', error: error.message }] *)
Definition server_error (msg : string) : Body :=
  {| success := false; message := Some "Server error"; error := Some msg;
     errors := None; token := None; body_user := None; data := None |}.

(** [{ success: false, errors: errors.array() }] *)
Definition validation_failure (errs : list string) : Body :=
  {| success := false; message := None; error := None; errors := Some errs;
     token := None; body_user := None; data := None |}.

Definition with_data (msg : option string) (d : Data) : Body :=
  {| success := true; message := msg; error := None; errors := None;
     token := None; body_user := None; data := Some d |}.

Definition reply (st : Store) (fx : list Effect) (code : Z) (b : Body) : Outcome :=
  {| response := {| status := code; json := b |}; store := st; effects := fx |}.

Definition set_documents (st : Store) (ds : gmap string Document) : Store :=
  {| users := users st; documents := ds |}.

Definition set_users (st : Store) (us : list User.t) : Store :=
  {| users := us; documents := documents st |}.

(** ** Looking a document up by its id *)

Definition quote : string := String (ascii_of_nat 34) EmptyString.

(** The message of the CastError mongoose throws for an id that is not an
    ObjectId. *)
Definition cast_error (value model : string) : string :=
  "Cast to ObjectId failed for value " ++ quote ++ value ++ quote ++
  " (type string) at path " ++ quote ++ "_id" ++ quote ++
  " for model " ++ quote ++ model ++ quote.

Definition is_hex (c : ascii) : bool :=
  let n := nat_of_ascii c in
  ((48 <=? n) && (n <=? 57) || (65 <=? n) && (n <=? 70)
   || (97 <=? n) && (n <=? 102))%nat.

(** What mongoose casts to an ObjectId without error: a string of 24
    hexadecimal digits (the bson driver of mongoose 7 and later takes no
    other string). *)
Definition isObjectId (s : string) : bool :=
  (String.length s =? 24)%nat && forallb is_hex (list_ascii_of_string s).

(** What [await Document.findById(id)] gives: the document, [null], or the
    CastError thrown into the catch of the caller. *)
Inductive Found :=
| Threw (msg : string)
| Null
| Doc (d : Document).

(** [Document.findById(id)].  The keys of the collection are the ObjectIds
    the database assigned, so an id that finds a document is one of them;
    an id that finds none is cast: it is [null] when it is an ObjectId and
    a CastError when it is not. *)
Definition Document_findById (st : Store) (id : string) : Found :=
  match documents st !! id with
  | Some d => Doc d
  | None => if isObjectId id then Null else Threw (cast_error id "Document")
  end.

(** ** controllers/documents.js: deleteDocument *)

Definition deleteDocument (env : Env) (st : Store) (req : Request) : Outcome :=
  match Document_findById st (params_id req) with
  | Threw msg => reply st [] 500 (server_error msg)
  | Null => reply st [] 404 (failure "Document not found")
  | Doc document =>
    if owner document !== User._id (req_user req) then
      reply st [] 403 (failure "Not authorized to delete this document")
    else
      match cloudinary_uploader_destroy env (publicId document) with
      | inl msg =>
        (* the rejected promise is thrown by await into the handler's catch *)
        reply st [CloudinaryDestroy (publicId document)] 500 (server_error msg)
      | inr _ =>
        reply (set_documents st (delete (params_id req) (documents st)))
              [CloudinaryDestroy (publicId document); DocumentDelete (params_id req)]
              200 (with_data None DataEmpty)
      end
  end.

(** ** Strings as JavaScript uses them here *)

(** A string is the sequence of its UTF-16 code units, each below 256.
    The white space and line terminators [String.prototype.trim] strips
    are, in that range, the code units 9 to 13, 32 and 160 (NO-BREAK
    SPACE); the others lie above it. *)
Definition is_space (c : ascii) : bool :=
  match nat_of_ascii c with
  | 9%nat | 10%nat | 11%nat | 12%nat | 13%nat | 32%nat | 160%nat => true
  | _ => false
  end.

Fixpoint trimStart (s : string) : string :=
  match s with
  | EmptyString => EmptyString
  | String c s' => if is_space c then trimStart s' else s
  end.

Fixpoint trimEnd (s : string) : string :=
  match s with
  | EmptyString => EmptyString
  | String c s' =>
    match trimEnd s' with
    | EmptyString => if is_space c then EmptyString else String c EmptyString
    | t => String c t
    end
  end.

Definition trim (s : string) : string := trimEnd (trimStart s).

(** [s.split(sep)] for a one-character separator. *)
Fixpoint split (sep : ascii) (s : string) : list string :=
  match s with
  | EmptyString => [EmptyString]
  | String c s' =>
    if Ascii.eqb c sep then EmptyString :: split sep s'
    else match split sep s' with
         | [] => [String c EmptyString]
         | w :: ws => String c w :: ws
         end
  end.

Definition startsWith (s p : string) : bool := String.prefix p s.

Fixpoint join (sep : string) (l : list string) : string :=
  match l with
  | [] => ""
  | [x] => x
  | x :: l' => x ++ sep ++ join sep l'
  end.

(** [array.find(p)], [array.findIndex(p)] ([None] for [-1]), [array.some(p)]. *)
Definition find_ {A} (p : A -> bool) (l : list A) : option A := List.find p l.

Fixpoint findIndex {A} (p : A -> bool) (l : list A) : option nat :=
  match l with
  | [] => None
  | x :: l' => if p x then Some 0%nat else option_map S (findIndex p l')
  end.

(** [array.splice(i, 1)] *)
Definition splice1 {A} (i : nat) (l : list A) : list A := delete i l.

(** ** Route validators (express-validator) *)

(** express-validator turns the field into a string before validating;
    an absent field is the empty string. *)
Definition str (v : option string) : string := default "" v.

Definition check (ok : bool) (msg : string) : list string :=
  if ok then [] else [msg].

Definition notEmpty (v : option string) : bool := negb (str v === "").

Definition isIn (allowed : list string) (v : option string) : bool :=
  existsb (fun a => a === str v) allowed.

Definition isLength (lo hi : nat) (v : option string) : bool :=
  (lo <=? String.length (str v))%nat && (String.length (str v) <=? hi)%nat.

Definition exists_ (v : option string) : bool :=
  match v with Some _ => true | None => false end.

Definition isEmpty {A} (errs : list A) : bool :=
  match errs with [] => true | _ => false end.

(** routes/documents.js: POST / and PUT /:id *)
Definition validate_document_fields (req : Request) : list string :=
  check (notEmpty (body_title req)) "Title is required" ++
  check (notEmpty (body_description req)) "Description is required" ++
  check (notEmpty (body_documentType req)) "Document type is required".

(** routes/documents.js: PUT /:id/share/:userId *)
Definition validate_updateSharing (req : Request) : list string :=
  check (isIn ["view"; "edit"] (body_accessLevel req))
        "Access level must be either view or edit".

(** ** models/Document.js: schema validators and hooks *)

Definition documentTypes : list string :=
  ["Aadhaar"; "PAN Card"; "Passport"; "Driving License"; "Voter ID"; "Other"].

Definition accessLevels : list string := ["view"; "edit"].

Definition enum_message (v path : string) : string :=
  "`" ++ v ++ "` is not a valid enum value for path `" ++ path ++ "`.".

(** Each failing validator contributes [(path, message)]. *)
Definition invalid (ok : bool) (path msg : string) : list (string * string) :=
  if ok then [] else [(path, msg)].

Definition validate_title (t : string) : list (string * string) :=
  if t === "" then [("title", "Please provide a document title")]
  else invalid (String.length t <=? 100)%nat "title"
               "Title cannot be more than 100 characters".

Definition validate_description (d : string) : list (string * string) :=
  if d === "" then [("description", "Please provide a document description")]
  else invalid (String.length d <=? 500)%nat "description"
               "Description cannot be more than 500 characters".

Definition validate_documentType (t : string) : list (string * string) :=
  if t === "" then [("documentType", "Please provide document type")]
  else invalid (existsb (fun a => a === t) documentTypes) "documentType"
               (enum_message t "documentType").

Definition validate_share (s : ShareEntry) : list (string * string) :=
  invalid (existsb (fun a => a === accessLevel s) accessLevels)
          "sharedWith.accessLevel" (enum_message (accessLevel s) "accessLevel").

(** Every validator of the schema, as [document.validate()] runs them
    ([owner] is always present in the record, so its [required] passes). *)
Definition validate_document (d : Document) : list (string * string) :=
  validate_title (title d) ++
  validate_description (description d) ++
  validate_documentType (documentType d) ++
  invalid (negb (fileUrl d === "")) "fileUrl" "Document file URL is required" ++
  invalid (negb (publicId d === "")) "publicId" "Cloudinary public ID is required" ++
  flat_map validate_share (sharedWith d).

(** The message of a mongoose ValidationError. *)
Definition validation_message (prefix : string) (errs : list (string * string)) : string :=
  prefix ++ ": " ++ join ", " (map (fun e => fst e ++ ": " ++ snd e) errs).

(** [DocumentSchema.pre('save')]: [this.updatedAt = Date.now()] *)
Definition pre_save (env : Env) (d : Document) : Document :=
  {| title := title d; description := description d; documentType := documentType d;
     fileUrl := fileUrl d; publicId := publicId d; owner := owner d;
     sharedWith := sharedWith d; createdAt := createdAt d;
     updatedAt := Date_now env |}.

(** [document.save()] of a loaded document: validation, then the pre-save
    hook, then the write.  [inl] is the message of the error it throws. *)
Definition Document_save (env : Env) (st : Store) (id : ObjectId) (d : Document)
  : string + (Document * Store) :=
  match validate_document d with
  | [] =>
    let d' := pre_save env d in
    inr (d', set_documents st (<[id := d']> (documents st)))
  | errs => inl (validation_message "Document validation failed" errs)
  end.

(** [Document.create({title, description, documentType, fileUrl, publicId, owner})]:
    the title setter trims, the defaults fill [sharedWith], [createdAt] and
    [updatedAt], the database assigns the [_id]. *)
Definition Document_create (env : Env) (st : Store)
  (t d ty url pid : string) (own : ObjectId)
  : string + (ObjectId * Document * Store) :=
  let document :=
    {| title := trim t; description := d; documentType := ty; fileUrl := url;
       publicId := pid; owner := own; sharedWith := [];
       createdAt := Date_now env; updatedAt := Date_now env |} in
  match validate_document document with
  | [] =>
    let id := new_ObjectId env in
    match documents st !! id with
    | Some _ => inl "E11000 duplicate key error collection: documents index: _id_"
    | None =>
      let document' := pre_save env document in
      inr (id, document', set_documents st (<[id := document']> (documents st)))
    end
  | errs => inl (validation_message "Document validation failed" errs)
  end.

(** [Document.findByIdAndUpdate(id, {title, description, documentType,
    updatedAt: Date.now()}, {new: true, runValidators: true})]: the update
    validators run on the paths being set; no save hook runs. *)
Definition validate_update (t d ty : string) : list (string * string) :=
  validate_title (trim t) ++ validate_description d ++ validate_documentType ty.

Definition Document_findByIdAndUpdate (env : Env) (st : Store) (id : ObjectId)
  (t d ty : string) : string + (option Document * Store) :=
  match validate_update t d ty with
  | [] =>
    match documents st !! id with
    | None => inr (None, st)
    | Some old =>
      let document :=
        {| title := trim t; description := d; documentType := ty;
           fileUrl := fileUrl old; publicId := publicId old; owner := owner old;
           sharedWith := sharedWith old; createdAt := createdAt old;
           updatedAt := Date_now env |} in
      inr (Some document, set_documents st (<[id := document]> (documents st)))
    end
  | errs => inl (validation_message "Validation failed" errs)
  end.

(** ** controllers/documents.js *)

Definition upload_failure (msg : string) : Body :=
  {| success := false; message := Some "Failed to upload file to cloud storage";
     error := Some msg; errors := None; token := None; body_user := None;
     data := None |}.

Definition uploadDocument (env : Env) (st : Store) (req : Request) : Outcome :=
  let errs := validate_document_fields req in
  if negb (isEmpty errs) then reply st [] 400 (validation_failure errs)
  else
    match file req with
    | None => reply st [] 400 (failure "Please upload a file")
    | Some path =>
      match cloudinary_uploader_upload env path with
      | inl msg => reply st [CloudinaryUpload path] 500 (upload_failure msg)
      | inr result =>
        match Document_create env st (str (body_title req)) (str (body_description req))
                (str (body_documentType req)) (secure_url result) (public_id result)
                (User._id (req_user req)) with
        | inl msg =>
          (* thrown inside the inner try: reported as an upload failure *)
          reply st [CloudinaryUpload path] 500 (upload_failure msg)
        | inr (id, document, st') =>
          reply st' [CloudinaryUpload path; DocumentCreate id; FsUnlink path]
                201 (with_data None (DataDocument id document))
        end
      end
    end.

(** The tail of [updateDocument], reached once the requester is authorized. *)
Definition update_fields (env : Env) (st : Store) (req : Request) : Outcome :=
  match Document_findByIdAndUpdate env st (params_id req)
          (str (body_title req)) (str (body_description req))
          (str (body_documentType req)) with
  | inl msg => reply st [] 500 (server_error msg)
  | inr (None, st') =>
    (* [document._id] of null throws a TypeError *)
    reply st' [] 500 (server_error "Cannot read properties of null (reading '_id')")
  | inr (Some document', st') =>
    reply st' [DocumentUpdate (params_id req)] 200
          (with_data None (DataDocument (params_id req) document'))
  end.

Definition updateDocument (env : Env) (st : Store) (req : Request) : Outcome :=
  let errs := validate_document_fields req in
  if negb (isEmpty errs) then reply st [] 400 (validation_failure errs)
  else
    match Document_findById st (params_id req) with
    | Threw msg => reply st [] 500 (server_error msg)
    | Null => reply st [] 404 (failure "Document not found")
    | Doc document =>
      if owner document !== User._id (req_user req) then
        match find_ (fun share => (user share === User._id (req_user req))
                                  && (accessLevel share === "edit"))
                    (sharedWith document) with
        | None => reply st [] 403 (failure "Not authorized to update this document")
        | Some _ => update_fields env st req
        end
      else update_fields env st req
    end.

Definition set_sharedWith (d : Document) (l : list ShareEntry) : Document :=
  {| title := title d; description := description d; documentType := documentType d;
     fileUrl := fileUrl d; publicId := publicId d; owner := owner d;
     sharedWith := l; createdAt := createdAt d; updatedAt := updatedAt d |}.

Definition set_accessLevel (lvl : string) (s : ShareEntry) : ShareEntry :=
  {| user := user s; accessLevel := lvl; sharedAt := sharedAt s |}.

(** The common tail of the three sharing handlers: [await document.save()]
    and the 200 response, or the catch of the handler. *)
Definition save_and_reply (env : Env) (st : Store) (id : ObjectId)
  (d : Document) (msg : string) : Outcome :=
  match Document_save env st id d with
  | inl err => reply st [] 500 (server_error err)
  | inr (d', st') =>
    reply st' [DocumentUpdate id] 200 (with_data (Some msg) (DataDocument id d'))
  end.

Definition User_project (u : User.t) : User.t :=
  {| User._id := User._id u; User.name := User.name u; User.email := User.email u;
     User.password := None; User.isVerified := User.isVerified u;
     User.otp := User.otp u; User.createdAt := User.createdAt u |}.

(** Modelled from the spec: models/User.js is not among the sources.  The
    queries return the stored identity; the credential hash is left out of
    a query result unless it is asked for with [.select('+password')], as
    login and updatePassword do. *)
Definition User_findOne (st : Store) (mail : string) : option User.t :=
  option_map User_project (List.find (fun u => User.email u === mail) (users st)).

Definition User_findOne_select_password (st : Store) (mail : string) : option User.t :=
  List.find (fun u => User.email u === mail) (users st).

Definition User_findById (st : Store) (id : ObjectId) : option User.t :=
  option_map User_project (List.find (fun u => User._id u === id) (users st)).

Definition removeSharing (env : Env) (st : Store) (req : Request) : Outcome :=
  match Document_findById st (params_id req) with
  | Threw msg => reply st [] 500 (server_error msg)
  | Null => reply st [] 404 (failure "Document not found")
  | Doc document =>
    if owner document !== User._id (req_user req) then
      reply st [] 403 (failure "Not authorized to remove sharing for this document")
    else
      let userId := params_userId req in
      match findIndex (fun share => user share === userId) (sharedWith document) with
      | None => reply st [] 404 (failure "Document not shared with this user")
      | Some shareIndex =>
        save_and_reply env st (params_id req)
          (set_sharedWith document (splice1 shareIndex (sharedWith document)))
          "Sharing removed"
      end
  end.

Definition updateSharing (env : Env) (st : Store) (req : Request) : Outcome :=
  let errs := validate_updateSharing req in
  if negb (isEmpty errs) then reply st [] 400 (validation_failure errs)
  else
    match Document_findById st (params_id req) with
    | Threw msg => reply st [] 500 (server_error msg)
    | Null => reply st [] 404 (failure "Document not found")
    | Doc document =>
      if owner document !== User._id (req_user req) then
        reply st [] 403 (failure "Not authorized to update sharing for this document")
      else
        let accessLevel := str (body_accessLevel req) in
        let userId := params_userId req in
        match findIndex (fun share => user share === userId) (sharedWith document) with
        | None => reply st [] 404 (failure "Document not shared with this user")
        | Some shareIndex =>
          save_and_reply env st (params_id req)
            (set_sharedWith document
               (alter (set_accessLevel accessLevel) shareIndex (sharedWith document)))
            "Sharing permissions updated"
        end
    end.

(** ** Handlers that depend on third-party functions

    [isEmail] is validator.js's predicate behind [check(..).isEmail()];
    [jwt_verify token now] is [jwt.verify(token, JWT_SECRET)], [None] when it
    throws (bad signature, expired), otherwise the [id] of the payload;
    [jwt_sign id now] is [jwt.sign({id}, JWT_SECRET, {expiresIn})];
    [bcrypt_compare entered hash] is [bcrypt.compare]. *)
Section Backend.

Variable isEmail : string -> bool.
Variable jwt_verify : string -> Z -> option ObjectId.
Variable jwt_sign : ObjectId -> Z -> string.
Variable bcrypt_compare : string -> string -> bool.

(** validator.js rejects the empty string an absent field is read as. *)
Definition check_isEmail (v : option string) : bool :=
  match v with
  | Some s => isEmail s
  | None => false
  end.

(** routes/documents.js: POST /:id/share *)
Definition validate_share_request (req : Request) : list string :=
  check (check_isEmail (body_email req)) "Valid email is required" ++
  check (isIn ["view"; "edit"] (body_accessLevel req))
        "Access level must be either view or edit".

(** routes/auth.js: POST /verify-otp; the two validators of the otp chain
    report under the same message. *)
Definition validate_verifyOTP (req : Request) : list string :=
  check (check_isEmail (body_email req)) "Please include a valid email" ++
  check (notEmpty (body_otp req)) "OTP is required" ++
  check (isLength 6 6 (body_otp req)) "OTP is required".

(** routes/auth.js: POST /login *)
Definition validate_login (req : Request) : list string :=
  check (check_isEmail (body_email req)) "Please include a valid email" ++
  check (exists_ (body_password req)) "Password is required".

Definition shareDocument (env : Env) (st : Store) (req : Request) : Outcome :=
  let errs := validate_share_request req in
  if negb (isEmpty errs) then reply st [] 400 (validation_failure errs)
  else
    match Document_findById st (params_id req) with
    | Threw msg => reply st [] 500 (server_error msg)
    | Null => reply st [] 404 (failure "Document not found")
    | Doc document =>
      if owner document !== User._id (req_user req) then
        reply st [] 403 (failure "Not authorized to share this document")
      else
        let email := str (body_email req) in
        let accessLevel := str (body_accessLevel req) in
        match User_findOne st email with
        | None => reply st [] 404 (failure "User not found")
        | Some usr =>
          if User._id usr === User._id (req_user req) then
            reply st [] 400 (failure "Cannot share document with yourself")
          else
            match find_ (fun share => user share === User._id usr)
                        (sharedWith document) with
            | Some _ =>
              reply st [] 400 (failure "Document already shared with this user")
            | None =>
              save_and_reply env st (params_id req)
                (set_sharedWith document
                   (sharedWith document ++
                    [{| user := User._id usr; accessLevel := accessLevel;
                        sharedAt := Date_now env |}]))
                ("Document shared with " ++ User.name usr)
            end
        end
    end.

(** ** controllers/auth.js *)

(** Modelled from the spec: [user.getSignedJwtToken()] of the absent
    models/User.js; the token binds the identity's id and nothing else. *)
Definition getSignedJwtToken (env : Env) (u : User.t) : string :=
  jwt_sign (User._id u) (Date_now env).

(** Modelled from the spec: [user.matchPassword(entered)] of the absent
    models/User.js, the opaque credential check against the stored hash;
    [None] when there is no hash to compare with (bcrypt throws). *)
Definition matchPassword (u : User.t) (entered : string) : option bool :=
  option_map (bcrypt_compare entered) (User.password u).

(** Modelled from the spec: [user.save()] of the absent models/User.js
    writes the identity back under its [_id]; a credential hash that the
    query left out is not written. *)
Definition User_merge (stored u : User.t) : User.t :=
  {| User._id := User._id stored; User.name := User.name u;
     User.email := User.email u;
     User.password := match User.password u with
                      | Some h => Some h
                      | None => User.password stored
                      end;
     User.isVerified := User.isVerified u; User.otp := User.otp u;
     User.createdAt := User.createdAt u |}.

Definition User_save (st : Store) (u : User.t) : Store :=
  set_users st
    (map (fun v => if User._id v === User._id u then User_merge v u else v)
         (users st)).

Definition set_verified (u : User.t) : User.t :=
  {| User._id := User._id u; User.name := User.name u; User.email := User.email u;
     User.password := User.password u; User.isVerified := true;
     User.otp := None; User.createdAt := User.createdAt u |}.

(** [user.password = undefined; user.otp = undefined] *)
Definition remove_sensitive (u : User.t) : User.t :=
  {| User._id := User._id u; User.name := User.name u; User.email := User.email u;
     User.password := None; User.isVerified := User.isVerified u;
     User.otp := None; User.createdAt := User.createdAt u |}.

Definition sendTokenResponse (env : Env) (u : User.t) (statusCode : Z) : Response :=
  let token := getSignedJwtToken env u in
  let u' := remove_sensitive u in
  {| status := statusCode;
     json := {| success := true; message := None; error := None; errors := None;
                token := Some token; body_user := Some u'; data := None |} |}.

Definition verifyOTP (env : Env) (st : Store) (req : Request) : Outcome :=
  let errs := validate_verifyOTP req in
  if negb (isEmpty errs) then reply st [] 400 (validation_failure errs)
  else
    let email := str (body_email req) in
    let otp := str (body_otp req) in
    match User_findOne st email with
    | None => reply st [] 404 (failure "User not found")
    | Some usr =>
      if User.isVerified usr then reply st [] 400 (failure "Email already verified")
      else
        match User.otp usr with
        | None => reply st [] 400 (failure "No OTP generated for this user")
        | Some pending =>
          (* [!user.otp.code]: the empty string is falsy *)
          if code pending === "" then
            reply st [] 400 (failure "No OTP generated for this user")
          else if expiry pending <? Date_now env then
            reply st [] 400 (failure "OTP expired")
          else if code pending !== otp then
            reply st [] 400 (failure "Invalid OTP")
          else
            let usr' := set_verified usr in
            {| response := sendTokenResponse env usr' 200;
               store := User_save st usr';
               effects := [UserSave (User._id usr)] |}
        end
    end.

Definition login (env : Env) (st : Store) (req : Request) : Outcome :=
  let errs := validate_login req in
  if negb (isEmpty errs) then reply st [] 400 (validation_failure errs)
  else
    let email := str (body_email req) in
    let password := str (body_password req) in
    match User_findOne_select_password st email with
    | None => reply st [] 401 (failure "Invalid credentials")
    | Some usr =>
      if negb (User.isVerified usr) then
        reply st [] 401 (failure "Please verify your email before logging in")
      else
        match matchPassword usr password with
        | None => reply st [] 500 (server_error "Illegal arguments: string, undefined")
        | Some false => reply st [] 401 (failure "Invalid credentials")
        | Some true =>
          {| response := sendTokenResponse env usr 200; store := st; effects := [] |}
        end
    end.

(** ** middleware/auth.js: protect *)

(** The token of the Authorization header, [None] for [undefined]. *)
Definition bearer_token (req : Request) : option string :=
  match authorization req with
  | Some header =>
    if startsWith header "Bearer" then nth_error (split " "%char header) 1
    else None
  | None => None
  end.

(** [inl] is the response the middleware sends; [inr u] is [next()] with
    [req.user = u]. *)
Definition protect (env : Env) (st : Store) (req : Request) : Response + User.t :=
  match bearer_token req with
  | None | Some "" =>
    inl {| status := 401; json := failure "Not authorized to access this route" |}
  | Some token =>
    match jwt_verify token (Date_now env) with
    | None =>
      inl {| status := 401; json := failure "Not authorized to access this route" |}
    | Some id =>
      match User_findById st id with
      | None => inl {| status := 401; json := failure "User not found" |}
      | Some usr =>
        if negb (User.isVerified usr) then
          inl {| status := 401;
                 json := failure "Please verify your email to access this route" |}
        else inr usr
      end
    end
  end.

(** ** The document routes as one transition system *)

Inductive Route :=
| POST_documents
| PUT_document
| DELETE_document
| POST_share
| PUT_share
| DELETE_share.

Definition handle (r : Route) : Env -> Store -> Request -> Outcome :=
  match r with
  | POST_documents => uploadDocument
  | PUT_document => updateDocument
  | DELETE_document => deleteDocument
  | POST_share => shareDocument
  | PUT_share => updateSharing
  | DELETE_share => removeSharing
  end.

(** Stores that the service can reach: it starts with no document; every
    document route may run with any request and environment; the
    controllers of the auth and user routes write the users collection
    only, so any change of it is allowed. *)
Inductive reachable : Store -> Prop :=
| reachable_init us : reachable {| users := us; documents := ∅ |}
| reachable_handle r env st req :
    reachable st -> reachable (store (handle r env st req))
| reachable_users st us : reachable st -> reachable (set_users st us).

End Backend.

(** ** A small deployment, used by the examples below *)

Module Sample.

Definition isEmail (s : string) : bool :=
  match split "@"%char s with
  | [local; domain] => negb (local === "") && negb (domain === "")
  | _ => false
  end.

Definition jwt_sign (id : ObjectId) (now : Z) : string := "jwt." ++ id.

Definition jwt_verify (token : string) (now : Z) : option ObjectId :=
  if startsWith token "jwt." then Some (substring 4 (String.length token - 4) token)
  else None.

(** A hash is [$2a$], two characters of salt, then the secret. *)
Definition bcrypt_compare (entered hash : string) : bool :=
  startsWith hash "$2a$" && (substring 6 (String.length hash - 6) hash === entered).

Definition alice : User.t :=
  {| User._id := "a11ce0000000000000000000"; User.name := "Alice"; User.email := "alice@x.com";
     User.password := Some "$2a$07wonderland"; User.isVerified := true;
     User.otp := None; User.createdAt := 10 |}.

Definition bob : User.t :=
  {| User._id := "b0b000000000000000000000"; User.name := "Bob"; User.email := "bob@x.com";
     User.password := Some "$2a$07builder"; User.isVerified := true;
     User.otp := None; User.createdAt := 20 |}.

(** Registered, not yet verified, with a pending code. *)
Definition carol : User.t :=
  {| User._id := "ca4010000000000000000000"; User.name := "Carol"; User.email := "carol@x.com";
     User.password := Some "$2a$07singing"; User.isVerified := false;
     User.otp := Some {| code := "123456"; expiry := 1000 |};
     User.createdAt := 30 |}.

Definition empty_store : Store :=
  {| users := [alice; bob; carol]; documents := ∅ |}.

(** The same users with alice's secret hashed under another salt and a
    later expiry of carol's pending code. *)
Definition rehashed_store : Store :=
  {| users :=
       [ {| User._id := "a11ce0000000000000000000"; User.name := "Alice"; User.email := "alice@x.com";
            User.password := Some "$2a$11wonderland"; User.isVerified := true;
            User.otp := None; User.createdAt := 10 |};
         bob;
         {| User._id := "ca4010000000000000000000"; User.name := "Carol"; User.email := "carol@x.com";
            User.password := Some "$2a$07singing"; User.isVerified := false;
            User.otp := Some {| code := "123456"; expiry := 2000 |};
            User.createdAt := 30 |} ];
     documents := ∅ |}.

Definition env_ok (now : Z) : Env :=
  {| Date_now := now;
     cloudinary_uploader_upload := fun path =>
       inr {| secure_url := "https://res.cloudinary.com/" ++ path;
              public_id := "secure-doc-share/" ++ path |};
     cloudinary_uploader_destroy := fun _ => inr tt;
     new_ObjectId := "d0c100000000000000000000" |}.

(** The same services, the database handing out the next id. *)
Definition env_next (now : Z) : Env :=
  {| Date_now := now;
     cloudinary_uploader_upload := cloudinary_uploader_upload (env_ok now);
     cloudinary_uploader_destroy := cloudinary_uploader_destroy (env_ok now);
     new_ObjectId := "d0c200000000000000000000" |}.

Definition env_cloudinary_down (now : Z) : Env :=
  {| Date_now := now;
     cloudinary_uploader_upload := fun _ => inl "connect ETIMEDOUT";
     cloudinary_uploader_destroy := fun _ => inl "connect ETIMEDOUT";
     new_ObjectId := "d0c200000000000000000000" |}.

Definition request (u : User.t) : Request :=
  {| authorization := Some ("Bearer jwt." ++ User._id u);
     params_id := "d0c100000000000000000000"; params_userId := "b0b000000000000000000000";
     body_title := None; body_description := None; body_documentType := None;
     body_email := None; body_accessLevel := None; body_otp := None;
     body_password := None; file := None; req_user := User_project u |}.

Definition with_fields (r : Request) (t d ty : string) : Request :=
  {| authorization := authorization r; params_id := params_id r;
     params_userId := params_userId r;
     body_title := Some t; body_description := Some d;
     body_documentType := Some ty;
     body_email := body_email r; body_accessLevel := body_accessLevel r;
     body_otp := body_otp r; body_password := body_password r;
     file := file r; req_user := req_user r |}.

Definition with_file (r : Request) (path : string) : Request :=
  {| authorization := authorization r; params_id := params_id r;
     params_userId := params_userId r;
     body_title := body_title r; body_description := body_description r;
     body_documentType := body_documentType r;
     body_email := body_email r; body_accessLevel := body_accessLevel r;
     body_otp := body_otp r; body_password := body_password r;
     file := Some path; req_user := req_user r |}.

Definition with_share (r : Request) (mail lvl : string) : Request :=
  {| authorization := authorization r; params_id := params_id r;
     params_userId := params_userId r;
     body_title := body_title r; body_description := body_description r;
     body_documentType := body_documentType r;
     body_email := Some mail; body_accessLevel := Some lvl;
     body_otp := body_otp r; body_password := body_password r;
     file := file r; req_user := req_user r |}.

Definition with_otp (r : Request) (mail otp : string) : Request :=
  {| authorization := authorization r; params_id := params_id r;
     params_userId := params_userId r;
     body_title := body_title r; body_description := body_description r;
     body_documentType := body_documentType r;
     body_email := Some mail; body_accessLevel := body_accessLevel r;
     body_otp := Some otp; body_password := body_password r;
     file := file r; req_user := req_user r |}.

Definition with_password (r : Request) (mail pw : string) : Request :=
  {| authorization := authorization r; params_id := params_id r;
     params_userId := params_userId r;
     body_title := body_title r; body_description := body_description r;
     body_documentType := body_documentType r;
     body_email := Some mail; body_accessLevel := body_accessLevel r;
     body_otp := body_otp r; body_password := Some pw;
     file := file r; req_user := req_user r |}.

(** alice uploads her passport scan *)
Definition upload_request : Request :=
  with_file (with_fields (request alice) "Passport scan" "pages 1-2" "Passport")
            "uploads/1-2.pdf".

(** A request on a path whose [:id] is not an ObjectId. *)
Definition malformed_request : Request :=
  {| authorization := Some "Bearer jwt.a11ce0000000000000000000";
     params_id := "not-an-id"; params_userId := "b0b000000000000000000000";
     body_title := None; body_description := None; body_documentType := None;
     body_email := None; body_accessLevel := None; body_otp := None;
     body_password := None; file := None; req_user := User_project alice |}.

Definition with_authorization (r : Request) (header : option string) : Request :=
  {| authorization := header; params_id := params_id r;
     params_userId := params_userId r;
     body_title := body_title r; body_description := body_description r;
     body_documentType := body_documentType r;
     body_email := body_email r; body_accessLevel := body_accessLevel r;
     body_otp := body_otp r; body_password := body_password r;
     file := file r; req_user := req_user r |}.

Definition login_request : Request :=
  with_password (request alice) "alice@x.com" "wonderland".

(** carol submits the code she was sent *)
Definition verify_request : Request :=
  with_otp (request carol) "carol@x.com" "123456".

Definition after_upload : Store :=
  store (uploadDocument (env_ok 100) empty_store upload_request).

(** ... and shares it with bob *)
Definition share_request (lvl : string) : Request :=
  with_share (request alice) "bob@x.com" lvl.

Definition after_share (lvl : string) : Store :=
  store (shareDocument isEmail (env_ok 200) after_upload (share_request lvl)).

Definition passport : Document :=
  {| title := "Passport scan"; description := "pages 1-2";
     documentType := "Passport";
     fileUrl := "https://res.cloudinary.com/uploads/1-2.pdf";
     publicId := "secure-doc-share/uploads/1-2.pdf";
     owner := "a11ce0000000000000000000"; sharedWith := []; createdAt := 100; updatedAt := 100 |}.

(** The passport scan once bob holds a share at [lvl], granted at 200. *)
Definition shared_passport (lvl : string) : Document :=
  {| title := "Passport scan"; description := "pages 1-2";
     documentType := "Passport";
     fileUrl := "https://res.cloudinary.com/uploads/1-2.pdf";
     publicId := "secure-doc-share/uploads/1-2.pdf";
     owner := "a11ce0000000000000000000";
     sharedWith := [{| user := "b0b000000000000000000000"; accessLevel := lvl; sharedAt := 200 |}];
     createdAt := 100; updatedAt := 200 |}.

End Sample.

(** The routes that mutate an existing document: its fields (PUT /:id) or
    its share list (grant, modify, revoke). *)
Definition mutates (r : Route) : bool :=
  match r with
  | PUT_document | POST_share | PUT_share | DELETE_share => true
  | POST_documents | DELETE_document => false
  end.

(** A response body with the signed token left out. *)
Definition without_token (b : Body) : Body :=
  {| success := success b; message := message b; error := error b;
     errors := errors b; token := None; body_user := body_user b; data := data b |}.

(** Two users collections that differ at most in credential hashes and
    pending codes. *)
Definition same_but_credentials (us1 us2 : list User.t) : Prop :=
  map remove_sensitive us1 = map remove_sensitive us2.

(** ** The OTP check in the words of the specification *)

Inductive OtpError := NotFound | AlreadyVerified | NoPendingCode | Expired | Mismatch.

(** The pending code of an identity.  The handler tests [user.otp.code] for
    truthiness, so a stored empty value counts as no pending code. *)
Definition pendingCode (u : User.t) : option Otp :=
  match User.otp u with
  | Some pending => if code pending === "" then None else Some pending
  | None => None
  end.

(** verify(email, submittedCode), on the identity found for the email: the
    failure conditions in the order the specification lists them. *)
Definition verify (now : Z) (identity : option User.t) (submitted : string)
  : OtpError + User.t :=
  match identity with
  | None => inl NotFound
  | Some u =>
    if User.isVerified u then inl AlreadyVerified
    else
      match pendingCode u with
      | None => inl NoPendingCode
      | Some pending =>
        if now >? expiry pending then inl Expired
        else if negb (code pending === submitted) then inl Mismatch
        else inr (set_verified u)
      end
  end.

(** The HTTP rendering of each failure (404 for NotFound, 400 otherwise). *)
Definition otp_error_response (e : OtpError) : Response :=
  match e with
  | NotFound => {| status := 404; json := failure "User not found" |}
  | AlreadyVerified => {| status := 400; json := failure "Email already verified" |}
  | NoPendingCode => {| status := 400; json := failure "No OTP generated for this user" |}
  | Expired => {| status := 400; json := failure "OTP expired" |}
  | Mismatch => {| status := 400; json := failure "Invalid OTP" |}
  end.

(** ** Invariants of a document's share list *)

Definition shared_users (d : Document) : list ObjectId := map user (sharedWith d).

(** The owner holds no share entry. *)
Definition owner_not_shared (d : Document) : Prop := ~ In (owner d) (shared_users d).

(** At most one share entry per user. *)
Definition unique_shares (d : Document) : Prop := List.NoDup (shared_users d).

Definition well_shared (d : Document) : Prop := owner_not_shared d /\ unique_shares d.

Definition store_well_shared (st : Store) : Prop :=
  forall id d, documents st !! id = Some d -> well_shared d.

(** The requester holds a share entry at level edit. *)
Definition holds_edit (uid : ObjectId) (d : Document) : Prop :=
  exists share, In share (sharedWith d) /\ user share = uid /\ accessLevel share = "edit".

(** The share entries a document holds for one user. *)
Definition shares_of (u : ObjectId) (d : Document) : list ShareEntry :=
  List.filter (fun share => user share === u) (sharedWith d).

(** One step of a run of the server: a document route served with its
    environment and request, or a write of the users collection, which is
    all the controllers of the auth and user routes write. *)
Inductive Step :=
| Serve (r : Route) (env : Env) (req : Request)
| SetUsers (us : list User.t).

(** Every stored document passes the validators of its schema. *)
Definition store_valid (st : Store) : Prop :=
  forall id d, documents st !! id = Some d -> validate_document d = [].

Fixpoint run (isEmail : string -> bool) (st : Store) (steps : list Step) : Store :=
  match steps with
  | [] => st
  | Serve r env req :: steps' => run isEmail (store (handle isEmail r env st req)) steps'
  | SetUsers us :: steps' => run isEmail (set_users st us) steps'
  end.

(** The one [_id] a document route may write: the id the database assigns
    for the upload, the [:id] of the path for the others. *)
Definition written_id (r : Route) (env : Env) (req : Request) : ObjectId :=
  match r with
  | POST_documents => new_ObjectId env
  | _ => params_id req
  end.


(** * The remaining handlers *)

(** ** controllers/documents.js: reading *)

(** What [.populate(path, 'name email')] puts in place of a user id. *)
Record UserSummary := {
  summary_id : ObjectId;
  summary_name : string;
  summary_email : string
}.

Definition summarize (u : User.t) : UserSummary :=
  {| summary_id := User._id u; summary_name := User.name u;
     summary_email := User.email u |}.

(** The populated reference: [None] is the [null] mongoose leaves when no
    user has the id. *)
Definition populate (st : Store) (id : ObjectId) : option UserSummary :=
  option_map summarize (List.find (fun u => User._id u === id) (users st)).

(** [document.toObject()] of a populated document with the [isOwner] flag
    added: the stored fields, the populated owner, the populated user of
    each share entry in order, and the flag. *)
Record DocumentView := {
  view_id : ObjectId;
  view_document : Document;
  view_owner : option UserSummary;
  view_sharedWith : list (option UserSummary);
  view_isOwner : bool
}.

Definition view (st : Store) (id : ObjectId) (d : Document) (isOwner : bool)
  : DocumentView :=
  {| view_id := id; view_document := d; view_owner := populate st (owner d);
     view_sharedWith := map (fun share => populate st (user share)) (sharedWith d);
     view_isOwner := isOwner |}.

(** One element of the array getSharedUsers sends. *)
Record SharedUser := {
  shared_user : UserSummary;
  shared_accessLevel : string;
  shared_sharedAt : Z
}.

(** The bodies of the reading handlers. *)
Inductive Json :=
| JFailure (b : Body)
| JDocument (v : DocumentView)
| JDocuments (count : nat) (vs : list DocumentView)
| JSharedUsers (count : nat) (l : list SharedUser)
| JUser (u : User.t).

Record Answer := {
  answer_status : Z;
  answer_json : Json
}.

Definition null_id_error : string := "Cannot read properties of null (reading '_id')".

Definition getDocument (st : Store) (req : Request) : Answer :=
  match Document_findById st (params_id req) with
  | Threw msg =>
    {| answer_status := 500; answer_json := JFailure (server_error msg) |}
  | Null =>
    {| answer_status := 404; answer_json := JFailure (failure "Document not found") |}
  | Doc document =>
    match populate st (owner document) with
    | None =>
      (* [document.owner._id] of a null owner throws *)
      {| answer_status := 500; answer_json := JFailure (server_error null_id_error) |}
    | Some own =>
      let isOwner := summary_id own === User._id (req_user req) in
      let isShared :=
        existsb (fun share =>
                   match populate st (user share) with
                   | Some su => summary_id su === User._id (req_user req)
                   | None => false
                   end) (sharedWith document) in
      if negb isOwner && negb isShared then
        {| answer_status := 403;
           answer_json := JFailure (failure "Not authorized to access this document") |}
      else
        {| answer_status := 200;
           answer_json := JDocument (view st (params_id req) document isOwner) |}
    end
  end.

(** [Document.find(filter)]: the matching documents.  The array comes in
    the order of the collection; the embedding fixes the enumeration of
    the map. *)
Definition Document_find (p : Document -> bool) (st : Store)
  : list (ObjectId * Document) :=
  List.filter (fun kd => p (snd kd)) (map_to_list (documents st)).

Definition getMyDocuments (st : Store) (req : Request) : Answer :=
  let documents :=
    Document_find (fun d => owner d === User._id (req_user req)) st in
  {| answer_status := 200;
     answer_json :=
       JDocuments (length documents)
                  (map (fun kd => view st (fst kd) (snd kd) true) documents) |}.

Definition getSharedDocuments (st : Store) (req : Request) : Answer :=
  let documents :=
    Document_find (fun d => existsb (fun share => user share === User._id (req_user req))
                                    (sharedWith d)) st in
  {| answer_status := 200;
     answer_json :=
       JDocuments (length documents)
                  (map (fun kd => view st (fst kd) (snd kd) false) documents) |}.

(** The loop of getSharedUsers: the entries whose user still exists. *)
Fixpoint sharedUsers (st : Store) (l : list ShareEntry) : list SharedUser :=
  match l with
  | [] => []
  | share :: l' =>
    match populate st (user share) with
    | Some su =>
      {| shared_user := su; shared_accessLevel := accessLevel share;
         shared_sharedAt := sharedAt share |} :: sharedUsers st l'
    | None => sharedUsers st l'
    end
  end.

Definition getSharedUsers (st : Store) (req : Request) : Answer :=
  match Document_findById st (params_id req) with
  | Threw msg =>
    {| answer_status := 500; answer_json := JFailure (server_error msg) |}
  | Null =>
    {| answer_status := 404; answer_json := JFailure (failure "Document not found") |}
  | Doc document =>
    match populate st (owner document) with
    | None =>
      {| answer_status := 500; answer_json := JFailure (server_error null_id_error) |}
    | Some own =>
      let isOwner := summary_id own === User._id (req_user req) in
      let isShared :=
        existsb (fun share => user share === User._id (req_user req))
                (sharedWith document) in
      if negb isOwner && negb isShared then
        {| answer_status := 403;
           answer_json := JFailure (failure "Not authorized to view this document") |}
      else
        let sharedUsers := sharedUsers st (sharedWith document) in
        {| answer_status := 200;
           answer_json := JSharedUsers (length sharedUsers) sharedUsers |}
    end
  end.

(** ** middleware/auth.js: checkOwnership *)




(** ** middleware/fileUpload.js: handleFileUploadError *)

Inductive UploadError :=
| MulterError (code msg : string)
| OtherError (msg : string).

(** The error handler after [upload.single('document')]: express calls it
    when multer passed an error on; [None] is no response (the chain goes
    on). *)
Definition handleFileUploadError (err : option UploadError) : option Response :=
  match err with
  | None => None
  | Some (MulterError code msg) =>
    if code === "LIMIT_FILE_SIZE" then
      Some {| status := 400; json := failure "File too large. Maximum size is 10MB" |}
    else if code === "LIMIT_UNEXPECTED_FILE" then
      Some {| status := 400; json := failure "Unexpected field name in upload" |}
    else Some {| status := 400; json := failure ("Upload error: " ++ msg) |}
  | Some (OtherError msg) => Some {| status := 400; json := failure msg |}
  end.

Section Remaining.

Variable isEmail : string -> bool.
Variable jwt_verify : string -> Z -> option ObjectId.
Variable jwt_sign : ObjectId -> Z -> string.
Variable bcrypt_compare : string -> string -> bool.
Variable bcrypt_hash : string -> string.

(** ** routes/documents.js: the router *)

Definition attach_user (req : Request) (u : User.t) : Request :=
  {| authorization := authorization req; params_id := params_id req;
     params_userId := params_userId req;
     body_title := body_title req; body_description := body_description req;
     body_documentType := body_documentType req;
     body_email := body_email req; body_accessLevel := body_accessLevel req;
     body_otp := body_otp req; body_password := body_password req;
     file := file req; req_user := u |}.

(** [router.use(protect)], then the chain of the route: for the upload,
    multer (whose error, if any, is [upload_err]) and its error handler
    come before the validators and the controller. *)
Definition documents_router (r : Route) (upload_err : option UploadError)
  (env : Env) (st : Store) (req : Request) : Outcome :=
  match protect jwt_verify env st req with
  | inl res => {| response := res; store := st; effects := [] |}
  | inr usr =>
    let req' := attach_user req usr in
    match r, handleFileUploadError upload_err with
    | POST_documents, Some res => {| response := res; store := st; effects := [] |}
    | _, _ => handle isEmail r env st req'
    end
  end.

(** GET /:id behind protect. *)
Definition documents_router_get (env : Env) (st : Store) (req : Request) : Answer :=
  match protect jwt_verify env st req with
  | inl res => {| answer_status := status res; answer_json := JFailure (json res) |}
  | inr usr => getDocument st (attach_user req usr)
  end.

(** ** controllers/auth.js: register, resendOTP, getMe *)

(** What the auth controllers await from outside: the digits generateOTP
    draws, OTP_EXPIRE_MINUTES in milliseconds, whether the mail went out
    ([sendOTPEmail(email, name, otp)] resolves to a boolean), and the id the
    database assigns to a new user. *)
Record AuthEnv := {
  random_otp : string;
  otp_expire_ms : Z;
  sendOTPEmail : string -> string -> string -> bool;
  new_user_id : ObjectId
}.

(** Modelled from the spec: [user.generateOTP()] of the absent
    models/User.js sets a fresh pending code that expires a fixed time from
    now, overwriting any earlier one, and returns the code. *)
Definition generateOTP (env : Env) (aenv : AuthEnv) (u : User.t) : string * User.t :=
  (random_otp aenv,
   {| User._id := User._id u; User.name := User.name u; User.email := User.email u;
      User.password := User.password u; User.isVerified := User.isVerified u;
      User.otp := Some {| code := random_otp aenv;
                          expiry := Date_now env + otp_expire_ms aenv |};
      User.createdAt := User.createdAt u |}).

(** Modelled from the spec: [User.create({name, email, password})] of the
    absent models/User.js stores a new, unverified identity without pending
    code; its pre-save hook stores the bcrypt hash of the password (the
    hook test-password-update.js exercises). *)
Definition User_create (env : Env) (aenv : AuthEnv) (st : Store)
  (name email password : string) : string + (User.t * Store) :=
  match List.find (fun u => User._id u === new_user_id aenv) (users st) with
  | Some _ => inl "E11000 duplicate key error collection: users index: _id_"
  | None =>
    let u := {| User._id := new_user_id aenv; User.name := name; User.email := email;
                User.password := Some (bcrypt_hash password);
                User.isVerified := false; User.otp := None;
                User.createdAt := Date_now env |} in
    inr (u, set_users st (users st ++ [u]))
  end.

(** routes/auth.js: POST /register *)
Definition validate_register (name : option string) (req : Request) : list string :=
  check (notEmpty name) "Name is required" ++
  check (check_isEmail isEmail (body_email req)) "Please include a valid email" ++
  check (6 <=? String.length (str (body_password req)))%nat
        "Password must be at least 6 characters".

(** routes/auth.js: POST /resend-otp *)
Definition validate_resendOTP (req : Request) : list string :=
  check (check_isEmail isEmail (body_email req)) "Please include a valid email".

Definition succeeded (msg : string) : Body :=
  {| success := true; message := Some msg; error := None; errors := None;
     token := None; body_user := None; data := None |}.

(** [name] is [req.body.name]. *)
Definition register (env : Env) (aenv : AuthEnv) (st : Store)
  (name : option string) (req : Request) : Response * Store :=
  let errs := validate_register name req in
  if negb (isEmpty errs) then ({| status := 400; json := validation_failure errs |}, st)
  else
    let email := str (body_email req) in
    match User_findOne st email with
    | Some _ => ({| status := 400; json := failure "Email already registered" |}, st)
    | None =>
      match User_create env aenv st (str name) email (str (body_password req)) with
      | inl msg => ({| status := 500; json := server_error msg |}, st)
      | inr (usr, st1) =>
        let (otp, usr') := generateOTP env aenv usr in
        let st2 := User_save st1 usr' in
        if negb (sendOTPEmail aenv email (str name) otp) then
          ({| status := 500; json := failure "Failed to send verification email" |}, st2)
        else
          ({| status := 201;
              json := succeeded "Registration successful. Please verify your email with the OTP sent to your email address." |},
           st2)
      end
    end.

Definition resendOTP (env : Env) (aenv : AuthEnv) (st : Store) (req : Request)
  : Response * Store :=
  let errs := validate_resendOTP req in
  if negb (isEmpty errs) then ({| status := 400; json := validation_failure errs |}, st)
  else
    let email := str (body_email req) in
    match User_findOne st email with
    | None => ({| status := 404; json := failure "User not found" |}, st)
    | Some usr =>
      if User.isVerified usr then
        ({| status := 400; json := failure "Email already verified" |}, st)
      else
        let (otp, usr') := generateOTP env aenv usr in
        let st' := User_save st usr' in
        if negb (sendOTPEmail aenv email (User.name usr') otp) then
          ({| status := 500; json := failure "Failed to send verification email" |}, st')
        else
          ({| status := 200; json := succeeded "OTP has been sent to your email address" |},
           st')
    end.

Definition getMe (st : Store) (req : Request) : Answer :=
  match User_findById st (User._id (req_user req)) with
  | None =>
    (* [user._id] of null throws *)
    {| answer_status := 500; answer_json := JFailure (server_error null_id_error) |}
  | Some usr => {| answer_status := 200; answer_json := JUser usr |}
  end.

(** GET /me behind protect. *)
Definition auth_router_me (env : Env) (st : Store) (req : Request) : Answer :=
  match protect jwt_verify env st req with
  | inl res => {| answer_status := status res; answer_json := JFailure (json res) |}
  | inr usr => getMe st (attach_user req usr)
  end.

(** ** controllers/users.js: updatePassword *)

(** routes/users.js: PUT /password *)
Definition validate_updatePassword (currentPassword newPassword : option string)
  : list string :=
  check (notEmpty currentPassword) "Current password is required" ++
  check (6 <=? String.length (str newPassword))%nat
        "New password must be at least 6 characters".

Definition password_update_error (msg : string) : Body :=
  {| success := false; message := Some "Server error during password update";
     error := Some msg; errors := None; token := None; body_user := None;
     data := None |}.

Definition set_password (u : User.t) (hash : string) : User.t :=
  {| User._id := User._id u; User.name := User.name u; User.email := User.email u;
     User.password := Some hash; User.isVerified := User.isVerified u;
     User.otp := User.otp u; User.createdAt := User.createdAt u |}.

(** [currentPassword] and [newPassword] are the fields of [req.body].  The
    save stores the hash of the new password (the pre-save hook of the
    absent models/User.js, as for [User_create]). *)
Definition updatePassword (st : Store) (currentPassword newPassword : option string)
  (req : Request) : Response * Store :=
  match validate_updatePassword currentPassword newPassword with
  | msg :: _ => ({| status := 400; json := failure msg |}, st)
  | [] =>
    match List.find (fun u => User._id u === User._id (req_user req)) (users st) with
    | None => ({| status := 404; json := failure "User not found" |}, st)
    | Some usr =>
      match matchPassword bcrypt_compare usr (str currentPassword) with
      | None =>
        ({| status := 500;
            json := password_update_error "Illegal arguments: string, undefined" |}, st)
      | Some false =>
        ({| status := 401; json := failure "Current password is incorrect" |}, st)
      | Some true =>
        if bcrypt_compare (str newPassword) (default "" (User.password usr)) then
          ({| status := 400;
              json := failure "New password must be different from current password" |},
           st)
        else
          ({| status := 200; json := succeeded "Password updated successfully" |},
           User_save st (set_password usr (bcrypt_hash (str newPassword))))
      end
    end
  end.

End Remaining.

(** No space in a token (a JWT is three base64url parts joined by dots). *)
Fixpoint no_space (s : string) : bool :=
  match s with
  | EmptyString => true
  | String c s' => negb (Ascii.eqb c " "%char) && no_space s'
  end.

Definition with_authorization (req : Request) (header : option string) : Request :=
  {| authorization := header; params_id := params_id req;
     params_userId := params_userId req;
     body_title := body_title req; body_description := body_description req;
     body_documentType := body_documentType req;
     body_email := body_email req; body_accessLevel := body_accessLevel req;
     body_otp := body_otp req; body_password := body_password req;
     file := file req; req_user := req_user req |}.

(** The identity register stores. *)
Definition registered (bcrypt_hash : string -> string) (env : Env) (aenv : AuthEnv)
  (name : option string) (req : Request) : User.t :=
  {| User._id := new_user_id aenv; User.name := str name;
     User.email := str (body_email req);
     User.password := Some (bcrypt_hash (str (body_password req)));
     User.isVerified := false;
     User.otp := Some {| code := random_otp aenv;
                         expiry := Date_now env + otp_expire_ms aenv |};
     User.createdAt := Date_now env |}.

(** Whether some stored user has the id. *)
Definition is_stored (st : Store) (id : ObjectId) : bool :=
  match populate st id with
  | Some _ => true
  | None => false
  end.

(** The share entry behind an element of getSharedUsers' array. *)
Definition entry_of (e : SharedUser) : ShareEntry :=
  {| user := summary_id (shared_user e); accessLevel := shared_accessLevel e;
     sharedAt := shared_sharedAt e |}.

(** ** More of the small deployment *)

Module SampleAuth.

Definition bcrypt_hash (secret : string) : string := "$2a$07" ++ secret.

Definition aenv (mail_ok : bool) : AuthEnv :=
  {| random_otp := "654321"; otp_expire_ms := 600000;
     sendOTPEmail := fun _ _ _ => mail_ok; new_user_id := "da7e00000000000000000000" |}.

(** dave registers *)
Definition register_request : Request :=
  Sample.with_password (Sample.request Sample.carol) "dave@x.com" "hunter22".

Definition dave_verifies (otp : string) : Request :=
  Sample.with_otp register_request "dave@x.com" otp.

Definition after_register (mail_ok : bool) : Store :=
  snd (register Sample.isEmail bcrypt_hash (Sample.env_ok 1000) (aenv mail_ok)
         Sample.empty_store (Some "Dave") register_request).

End SampleAuth.

(** * Properties *)

(** ** The sample deployment *)

Example sample_upload :
  documents Sample.after_upload !! "d0c100000000000000000000" = Some Sample.passport.
Proof. vm_compute. reflexivity. Qed.

Example sample_share :
  option_map sharedWith (documents (Sample.after_share "view") !! "d0c100000000000000000000")
  = Some [{| user := "b0b000000000000000000000"; accessLevel := "view"; sharedAt := 200 |}].
Proof. vm_compute. reflexivity. Qed.

(** ** Strings and arrays *)

Example trim_both_ends : trim "  Passport scan	 " = "Passport scan".
Proof. reflexivity. Qed.

Example trim_blank : trim "   " = "".
Proof. reflexivity. Qed.

Example trim_no_break_space :
  trim (String (ascii_of_nat 160) "Passport" ++ String (ascii_of_nat 160) "") = "Passport" /\
  trim (String (ascii_of_nat 160) "") = "".
Proof. split; reflexivity. Qed.

(** A title of one NO-BREAK SPACE passes the route validator, is emptied
    by the setter of the schema and refused by [required]: the owner's
    update answers 500 and stores nothing. *)
Example updateDocument_blank_title :
  let req := Sample.with_fields (Sample.request Sample.alice)
               (String (ascii_of_nat 160) "") "all pages" "Passport" in
  let out := updateDocument (Sample.env_ok 300) Sample.after_upload req in
  validate_document_fields req = [] /\
  status (response out) = 500 /\
  error (json (response out))
  = Some "Validation failed: title: Please provide a document title" /\
  store out = Sample.after_upload.
Proof. vm_compute. repeat split; reflexivity. Qed.

Example isObjectId_samples :
  isObjectId "d0c100000000000000000000" = true /\
  isObjectId "not-an-id" = false /\
  isObjectId "d0c10000000000000000000g" = false.
Proof. vm_compute. repeat split; reflexivity. Qed.

Example deleteDocument_malformed_id :
  response (deleteDocument (Sample.env_ok 300) Sample.after_upload Sample.malformed_request)
  = {| status := 500;
       json := server_error (cast_error "not-an-id" "Document") |}.
Proof. reflexivity. Qed.

Example split_header : split " " "Bearer abc.def" = ["Bearer"; "abc.def"].
Proof. reflexivity. Qed.

Example bearer_token_of_header :
  bearer_token (Sample.request Sample.alice) = Some "jwt.a11ce0000000000000000000".
Proof. reflexivity. Qed.

Example bearer_token_other_scheme :
  bearer_token (Sample.with_authorization (Sample.request Sample.alice)
                                          (Some "Basic YTpi")) = None.
Proof. reflexivity. Qed.

Example findIndex_second :
  findIndex (fun n => Nat.eqb n 7) [3; 7; 7]%nat = Some 1%nat.
Proof. reflexivity. Qed.

Example title_too_long :
  validate_update (String.concat "" (repeat "x" 101)) "d" "Passport"
  = [("title", "Title cannot be more than 100 characters")].
Proof. reflexivity. Qed.

Example documentType_not_listed :
  validate_update "t" "d" "Visa"
  = [("documentType", "`Visa` is not a valid enum value for path `documentType`.")].
Proof. reflexivity. Qed.

Lemma neqb_true (a b : string) : (a !== b) = true <-> a <> b.
Proof.
  rewrite negb_true_iff. apply String.eqb_neq.
Qed.

Lemma neqb_false (a b : string) : (a !== b) = false <-> a = b.
Proof.
  rewrite negb_false_iff. apply String.eqb_eq.
Qed.

Lemma isEmpty_nil {A} (l : list A) : isEmpty l = true <-> l = [].
Proof.
  destruct l; simpl; split; congruence.
Qed.

Lemma passed {A} (l : list A) : l = [] -> negb (isEmpty l) = false.
Proof.
  intros ->. reflexivity.
Qed.

(** ** deleteDocument *)

(** C1 (as the code has it): deleteDocument answers 403 and changes nothing
    unless the requester is the owner, so a 200 implies ownership, whatever
    the share list holds.  For the owner the cloudinary destroy comes
    first: when it is rejected the handler answers 500 and the registry
    record stays; when it resolves the record is deleted and the answer
    is 200. *)
Theorem deleteDocument_owner_gate_and_release
  (env : Env) (st : Store) (req : Request) (d : Document) :
  documents st !! params_id req = Some d ->
  let out := deleteDocument env st req in
  (owner d <> User._id (req_user req) ->
     status (response out) = 403 /\ store out = st /\ effects out = []) /\
  (owner d = User._id (req_user req) ->
     match cloudinary_uploader_destroy env (publicId d) with
     | inl msg =>
       response out = {| status := 500; json := server_error msg |} /\
       store out = st /\
       effects out = [CloudinaryDestroy (publicId d)]
     | inr _ =>
       response out = {| status := 200; json := with_data None DataEmpty |} /\
       documents (store out) = delete (params_id req) (documents st) /\
       documents (store out) !! params_id req = None /\
       users (store out) = users st /\
       effects out = [CloudinaryDestroy (publicId d); DocumentDelete (params_id req)]
     end) /\
  (status (response out) = 200 -> owner d = User._id (req_user req)).
Proof.
  intros Hd out. subst out. unfold deleteDocument, Document_findById. rewrite Hd.
  destruct (owner d !== User._id (req_user req)) eqn:Hown.
  - apply neqb_true in Hown. split; [|split].
    + intros _. simpl. auto.
    + intros Heq. contradiction.
    + simpl. discriminate.
  - apply neqb_false in Hown. split; [|split].
    + intros Hne. contradiction.
    + intros _. destruct (cloudinary_uploader_destroy env (publicId d)); simpl.
      * auto.
      * repeat split. apply lookup_delete_eq.
    + intros _. exact Hown.
Qed.

Lemma deleteDocument_owner_gate_and_release_witness :
  let req := Sample.request Sample.alice in
  let out := deleteDocument (Sample.env_ok 300) Sample.after_upload req in
  status (response out) = 200 /\ documents (store out) !! "d0c100000000000000000000" = None.
Proof.
  intros req out.
  pose proof (deleteDocument_owner_gate_and_release (Sample.env_ok 300)
                Sample.after_upload req Sample.passport) as H.
  destruct H as (_ & Hown & _); [vm_compute; reflexivity|].
  specialize (Hown eq_refl). simpl in Hown.
  destruct Hown as (Hr & _ & Hnone & _).
  split; [subst out; rewrite Hr; reflexivity | exact Hnone].
Defined.

(** C1, counterexample: alice owns document d0c100000000000000000000 and asks to delete it
    while cloudinary rejects the destroy.  The specification promises a 200
    and a deleted record; the handler answers 500 and the record is still
    there. *)
Lemma deleteDocument_destroy_rejected_counterexample :
  let req := Sample.request Sample.alice in
  let env := Sample.env_cloudinary_down 300 in
  let out := deleteDocument env Sample.after_upload req in
  documents Sample.after_upload !! params_id req = Some Sample.passport /\
  owner Sample.passport = User._id (req_user req) /\
  cloudinary_uploader_destroy env (publicId Sample.passport) = inl "connect ETIMEDOUT" /\
  status (response out) = 500 /\
  status (response out) <> 200 /\
  documents (store out) !! params_id req = Some Sample.passport.
Proof.
  vm_compute. repeat split; congruence.
Qed.

(** ** Share lists *)

Lemma find_user_None (u : ObjectId) (l : list ShareEntry) :
  find_ (fun share => user share === u) l = None <-> ~ In u (map user l).
Proof.
  unfold find_. induction l as [|s l IH]; simpl.
  - tauto.
  - destruct (user s === u) eqn:E.
    + apply String.eqb_eq in E. split; [discriminate | tauto].
    + apply String.eqb_neq in E. rewrite IH. tauto.
Qed.

Lemma find_user_Some (u : ObjectId) (l : list ShareEntry) :
  In u (map user l) -> exists s, find_ (fun share => user share === u) l = Some s.
Proof.
  intros Hin. destruct (find_ _ l) eqn:E; [eauto|].
  apply find_user_None in E. contradiction.
Qed.

Lemma findIndex_Some {A} (p : A -> bool) (l : list A) (i : nat) :
  findIndex p l = Some i -> exists x, l !! i = Some x /\ p x = true.
Proof.
  revert i. induction l as [|x l IH]; simpl; intros i H; [discriminate|].
  destruct (p x) eqn:E.
  - injection H as <-. eauto.
  - destruct (findIndex p l) as [j|]; simpl in H; [|discriminate].
    injection H as <-. destruct (IH j eq_refl) as (y & Hy & Hp). eauto.
Qed.

Lemma findIndex_None {A} (p : A -> bool) (l : list A) :
  findIndex p l = None <-> forall x, In x l -> p x = false.
Proof.
  induction l as [|x l IH]; simpl.
  - split; [intros _ y [] | reflexivity].
  - destruct (p x) eqn:E.
    + split; [discriminate|]. intros H. rewrite (H x) in E; [discriminate | auto].
    + destruct (findIndex p l); simpl.
      * split; [discriminate|]. intros H.
        assert (Hn : Some n = None) by (apply IH; auto).
        discriminate.
      * split; [|reflexivity]. intros _ y [<-|Hy]; [exact E|].
        apply IH; auto.
Qed.

Lemma map_user_alter (lvl : string) (i : nat) (l : list ShareEntry) :
  map user (alter (set_accessLevel lvl) i l) = map user l.
Proof.
  revert i. induction l as [|s l IH]; intros [|i]; simpl; try reflexivity.
  f_equal. apply IH.
Qed.

Lemma In_map_user_splice1 (u : ObjectId) (i : nat) (l : list ShareEntry) :
  In u (map user (splice1 i l)) -> In u (map user l).
Proof.
  unfold splice1. revert i. induction l as [|s l IH]; intros [|i]; simpl; auto.
  intros [H|H]; [auto|]. right. eapply IH, H.
Qed.

Lemma NoDup_map_user_splice1 (i : nat) (l : list ShareEntry) :
  List.NoDup (map user l) -> List.NoDup (map user (splice1 i l)).
Proof.
  revert i. induction l as [|s l IH]; intros [|i]; simpl; auto.
  - intros H. inversion H; assumption.
  - intros H. inversion H as [|? ? Hnotin Hnd]; subst. constructor.
    + intros Hin. apply Hnotin. eapply In_map_user_splice1, Hin.
    + apply IH, Hnd.
Qed.

Lemma NoDup_map_user_push (e : ShareEntry) (l : list ShareEntry) :
  ~ In (user e) (map user l) -> List.NoDup (map user l) ->
  List.NoDup (map user (l ++ [e])).
Proof.
  induction l as [|s l IH]; simpl; intros Hnotin Hnd.
  - constructor; [tauto | constructor].
  - inversion Hnd as [|? ? Hs Hl]; subst. constructor.
    + rewrite map_app, in_app_iff. simpl. intros [H|[H|[]]]; [tauto|].
      apply Hnotin. auto.
    + apply IH; tauto.
Qed.

(** ** The save of the sharing handlers *)

Lemma pre_save_owner env d : owner (pre_save env d) = owner d.
Proof. reflexivity. Qed.

Lemma pre_save_sharedWith env d : sharedWith (pre_save env d) = sharedWith d.
Proof. reflexivity. Qed.

(** What [save_and_reply] leaves: either nothing changed (the save threw) or
    the document under [id] is the saved one. *)
Lemma save_and_reply_store env st id d msg :
  store (save_and_reply env st id d msg) = st \/
  (status (response (save_and_reply env st id d msg)) = 200 /\
   store (save_and_reply env st id d msg)
   = set_documents st (<[id := pre_save env d]> (documents st))).
Proof.
  unfold save_and_reply, Document_save.
  destruct (validate_document d); simpl; auto.
Qed.

Lemma save_and_reply_200 env st id d msg :
  status (response (save_and_reply env st id d msg)) = 200 ->
  store (save_and_reply env st id d msg)
  = set_documents st (<[id := pre_save env d]> (documents st)).
Proof.
  unfold save_and_reply, Document_save.
  destruct (validate_document d); simpl; [reflexivity | discriminate].
Qed.

Lemma store_well_shared_insert st id d :
  store_well_shared st -> well_shared d ->
  store_well_shared (set_documents st (<[id := d]> (documents st))).
Proof.
  intros Hst Hd id' d'. simpl. rewrite lookup_insert.
  case_decide; [intros [= <-]; exact Hd | apply Hst].
Qed.

Lemma well_shared_pre_save env d : well_shared d -> well_shared (pre_save env d).
Proof. intros H. exact H. Qed.

Lemma save_and_reply_well_shared env st id d msg :
  store_well_shared st -> well_shared d ->
  store_well_shared (store (save_and_reply env st id d msg)).
Proof.
  intros Hst Hd.
  destruct (save_and_reply_store env st id d msg) as [-> | [_ ->]]; [exact Hst|].
  apply store_well_shared_insert; [exact Hst|].
  apply well_shared_pre_save, Hd.
Qed.

(** ** Every document route keeps the share lists well formed *)

Ltac case_scrutinee :=
  match goal with
  | |- context [match ?x with _ => _ end] =>
    lazymatch x with
    | context [match _ with _ => _ end] => fail
    | _ => destruct x eqn:?; cbn beta iota
    end
  end.

Lemma well_shared_created env t d ty url pid own :
  well_shared
    {| title := t; description := d; documentType := ty; fileUrl := url;
       publicId := pid; owner := own; sharedWith := [];
       createdAt := Date_now env; updatedAt := Date_now env |}.
Proof.
  split; [intros [] | constructor].
Qed.

Lemma uploadDocument_well_shared env st req :
  store_well_shared st -> store_well_shared (store (uploadDocument env st req)).
Proof.
  intros Hst. unfold uploadDocument, Document_create.
  repeat case_scrutinee; simpl; try exact Hst.
  apply store_well_shared_insert; [exact Hst|].
  apply well_shared_pre_save, well_shared_created.
Qed.

Lemma update_fields_well_shared env st req :
  store_well_shared st -> store_well_shared (store (update_fields env st req)).
Proof.
  intros Hst. unfold update_fields, Document_findByIdAndUpdate.
  repeat case_scrutinee; simpl; try exact Hst.
  apply store_well_shared_insert; [exact Hst|].
  match goal with H : documents st !! _ = Some _ |- _ => apply Hst in H; exact H end.
Qed.

Lemma updateDocument_well_shared env st req :
  store_well_shared st -> store_well_shared (store (updateDocument env st req)).
Proof.
  intros Hst. unfold updateDocument, Document_findById.
  repeat case_scrutinee; simpl; try exact Hst; apply update_fields_well_shared, Hst.
Qed.

Lemma deleteDocument_well_shared env st req :
  store_well_shared st -> store_well_shared (store (deleteDocument env st req)).
Proof.
  intros Hst. unfold deleteDocument, Document_findById.
  repeat case_scrutinee; simpl; try exact Hst.
  intros id' d'. simpl. rewrite lookup_delete. case_decide; [discriminate | apply Hst].
Qed.

Lemma removeSharing_well_shared env st req :
  store_well_shared st -> store_well_shared (store (removeSharing env st req)).
Proof.
  intros Hst. unfold removeSharing, Document_findById.
  repeat case_scrutinee; simpl; try exact Hst.
  apply save_and_reply_well_shared; [exact Hst|].
  match goal with H : documents st !! _ = Some _ |- _ => apply Hst in H as [Ho Hu] end.
  split.
  - intros Hin. apply Ho. eapply In_map_user_splice1, Hin.
  - apply NoDup_map_user_splice1, Hu.
Qed.

Lemma updateSharing_well_shared env st req :
  store_well_shared st -> store_well_shared (store (updateSharing env st req)).
Proof.
  intros Hst. unfold updateSharing, Document_findById.
  repeat case_scrutinee; simpl; try exact Hst.
  apply save_and_reply_well_shared; [exact Hst|].
  match goal with H : documents st !! _ = Some _ |- _ => apply Hst in H as [Ho Hu] end.
  unfold well_shared, owner_not_shared, unique_shares, shared_users. simpl.
  rewrite map_user_alter. auto.
Qed.

Section DocumentRoutes.

Variable isEmail : string -> bool.

Lemma shareDocument_well_shared env st req :
  store_well_shared st -> store_well_shared (store (shareDocument isEmail env st req)).
Proof.
  intros Hst. unfold shareDocument, Document_findById.
  repeat case_scrutinee; simpl; try exact Hst.
  apply save_and_reply_well_shared; [exact Hst|].
  match goal with H : documents st !! _ = Some _ |- _ => apply Hst in H as [Ho Hu] end.
  match goal with H : find_ _ _ = None |- _ => apply find_user_None in H; rename H into Hnew end.
  match goal with H : (_ !== _) = false |- _ => apply neqb_false in H; rename H into Hown end.
  match goal with H : (_ === _) = false |- _ => apply String.eqb_neq in H; rename H into Hself end.
  unfold well_shared, owner_not_shared, unique_shares, shared_users. simpl. split.
  - rewrite map_app, in_app_iff. simpl. intros [H|[H|[]]]; [auto|]. congruence.
  - apply NoDup_map_user_push; auto.
Qed.

Lemma handle_well_shared r env st req :
  store_well_shared st -> store_well_shared (store (handle isEmail r env st req)).
Proof.
  destruct r; simpl.
  - apply uploadDocument_well_shared.
  - apply updateDocument_well_shared.
  - apply deleteDocument_well_shared.
  - apply shareDocument_well_shared.
  - apply updateSharing_well_shared.
  - apply removeSharing_well_shared.
Qed.

Lemma reachable_well_shared st : reachable isEmail st -> store_well_shared st.
Proof.
  induction 1 as [us | r env st req _ IH | st us _ IH].
  - intros id d. simpl. rewrite lookup_empty. discriminate.
  - apply handle_well_shared, IH.
  - exact IH.
Qed.

End DocumentRoutes.

(** ** shareDocument *)

Lemma shares_of_absent (u : ObjectId) (l : list ShareEntry) :
  ~ In u (map user l) -> List.filter (fun share => user share === u) l = [].
Proof.
  induction l as [|s l IH]; simpl; intros H; [reflexivity|].
  destruct (user s === u) eqn:E.
  - apply String.eqb_eq in E. tauto.
  - apply IH. tauto.
Qed.

Lemma shares_of_pushed (e : ShareEntry) (l : list ShareEntry) :
  ~ In (user e) (map user l) ->
  List.filter (fun share => user share === user e) (l ++ [e]) = [e].
Proof.
  intros H. rewrite List.filter_app, shares_of_absent by exact H.
  simpl. rewrite String.eqb_refl. reflexivity.
Qed.

(** The request is rejected as a repeated grant whenever the target already
    holds an entry and is not the requester. *)
Lemma shareDocument_repeated isEmail env st req d u :
  validate_share_request isEmail req = [] ->
  documents st !! params_id req = Some d ->
  owner d = User._id (req_user req) ->
  User_findOne st (str (body_email req)) = Some u ->
  User._id u <> User._id (req_user req) ->
  In (User._id u) (shared_users d) ->
  shareDocument isEmail env st req
  = reply st [] 400 (failure "Document already shared with this user").
Proof.
  intros Hval Hd Hown Hu Hself Hin. unfold shareDocument, Document_findById.
  rewrite (passed _ Hval), Hd.
  apply neqb_false in Hown. rewrite Hown, Hu.
  apply String.eqb_neq in Hself. rewrite Hself.
  destruct (find_user_Some _ _ Hin) as [s ->]. reflexivity.
Qed.

(** What a successful grant did. *)
Lemma shareDocument_200 isEmail env st req :
  status (response (shareDocument isEmail env st req)) = 200 ->
  exists d u,
    validate_share_request isEmail req = [] /\
    documents st !! params_id req = Some d /\
    owner d = User._id (req_user req) /\
    User_findOne st (str (body_email req)) = Some u /\
    User._id u <> User._id (req_user req) /\
    ~ In (User._id u) (shared_users d) /\
    store (shareDocument isEmail env st req)
    = set_documents st
        (<[params_id req :=
             pre_save env
               (set_sharedWith d
                  (sharedWith d ++
                   [{| user := User._id u; accessLevel := str (body_accessLevel req);
                       sharedAt := Date_now env |}]))]> (documents st)).
Proof.
  unfold shareDocument, Document_findById.
  destruct (isEmpty (validate_share_request isEmail req)) eqn:Hval; simpl;
    [|discriminate].
  apply isEmpty_nil in Hval.
  destruct (documents st !! params_id req) as [d|] eqn:Hd;
    [|destruct (isObjectId _); discriminate].
  destruct (owner d !== User._id (req_user req)) eqn:Hown; [discriminate|].
  destruct (User_findOne st (str (body_email req))) as [u|] eqn:Hu; [|discriminate].
  destruct (User._id u === User._id (req_user req)) eqn:Hself; [discriminate|].
  destruct (find_ _ (sharedWith d)) eqn:Hfind; [discriminate|].
  intros H200. exists d, u.
  apply neqb_false in Hown. apply String.eqb_neq in Hself.
  apply find_user_None in Hfind.
  repeat split; auto.
  apply save_and_reply_200, H200.
Qed.

(** C2: in every reachable store, a grant by the owner to a user who already
    holds an entry is answered 400 "Document already shared with this user"
    and changes nothing, whatever the level asked for; after a successful
    grant at view, a second grant by the same owner to the same email is
    rejected in that way and the user's only entry is still the view one;
    and no reachable document holds two entries for one user. *)
Theorem shareDocument_already_shared (isEmail : string -> bool) :
  (forall env st req d u,
     reachable isEmail st ->
     validate_share_request isEmail req = [] ->
     documents st !! params_id req = Some d ->
     owner d = User._id (req_user req) ->
     User_findOne st (str (body_email req)) = Some u ->
     In (User._id u) (shared_users d) ->
     let out := shareDocument isEmail env st req in
     response out
     = {| status := 400; json := failure "Document already shared with this user" |} /\
     store out = st /\
     documents (store out) !! params_id req = Some d) /\
  (forall env1 env2 st req1 req2 u,
     let out1 := shareDocument isEmail env1 st req1 in
     status (response out1) = 200 ->
     body_accessLevel req1 = Some "view" ->
     User_findOne st (str (body_email req1)) = Some u ->
     params_id req2 = params_id req1 ->
     body_email req2 = body_email req1 ->
     req_user req2 = req_user req1 ->
     validate_share_request isEmail req2 = [] ->
     let out2 := shareDocument isEmail env2 (store out1) req2 in
     response out2
     = {| status := 400; json := failure "Document already shared with this user" |} /\
     store out2 = store out1 /\
     exists d', documents (store out2) !! params_id req1 = Some d' /\
       shares_of (User._id u) d'
       = [{| user := User._id u; accessLevel := "view"; sharedAt := Date_now env1 |}]) /\
  (forall st id d,
     reachable isEmail st -> documents st !! id = Some d -> unique_shares d).
Proof.
  split; [|split].
  - intros env st req d u Hreach Hval Hd Hown Hu Hin out. subst out.
    assert (Hself : User._id u <> User._id (req_user req)).
    { intros Heq. apply (reachable_well_shared _ _ Hreach _ _ Hd).
      rewrite Hown, <- Heq. exact Hin. }
    rewrite (shareDocument_repeated isEmail env st req d u) by assumption.
    simpl. auto.
  - intros env1 env2 st req1 req2 u out1 H200 Hview Hu Hid Hmail Huser Hval out2.
    subst out1 out2.
    destruct (shareDocument_200 _ _ _ _ H200)
      as (d & u' & _ & Hd & Hown & Hu' & Hself & Hnew & Hst).
    rewrite Hu in Hu'. injection Hu' as <-.
    rewrite Hst, Hview in *. simpl str in *.
    set (e := {| user := User._id u; accessLevel := "view"; sharedAt := Date_now env1 |}) in *.
    set (d1 := pre_save env1 (set_sharedWith d (sharedWith d ++ [e]))) in *.
    set (st1 := set_documents st (<[params_id req1 := d1]> (documents st))) in *.
    assert (Hd1 : documents st1 !! params_id req2 = Some d1).
    { rewrite Hid. apply lookup_insert_eq. }
    rewrite (shareDocument_repeated isEmail env2 st1 req2 d1 u); simpl; auto.
    + repeat split. exists d1. split.
      * subst st1. simpl. apply lookup_insert_eq.
      * unfold shares_of. subst d1. simpl. apply (shares_of_pushed e). exact Hnew.
    + rewrite Huser. exact Hown.
    + rewrite Hmail. exact Hu.
    + rewrite Huser. exact Hself.
    + unfold shared_users. subst d1. simpl. rewrite map_app, in_app_iff.
      right. simpl. auto.
  - intros st id d Hreach Hd. apply (reachable_well_shared _ _ Hreach _ _ Hd).
Qed.

Lemma sample_after_upload_reachable : reachable Sample.isEmail Sample.after_upload.
Proof.
  apply (reachable_handle Sample.isEmail POST_documents).
  apply reachable_init.
Qed.

Lemma sample_after_share_reachable lvl :
  reachable Sample.isEmail (Sample.after_share lvl).
Proof.
  apply (reachable_handle Sample.isEmail POST_share).
  apply sample_after_upload_reachable.
Qed.

Lemma shareDocument_already_shared_witness :
  let st := Sample.after_share "view" in
  let out := shareDocument Sample.isEmail (Sample.env_ok 300) st
               (Sample.share_request "edit") in
  (status (response out) = 400 /\ store out = st) /\
  (exists d', documents (store out) !! "d0c100000000000000000000" = Some d' /\
     shares_of "b0b000000000000000000000" d' = [{| user := "b0b000000000000000000000"; accessLevel := "view"; sharedAt := 200 |}]) /\
  unique_shares (Sample.shared_passport "view").
Proof.
  intros st out.
  destruct (shareDocument_already_shared Sample.isEmail) as (Ha & Hb & Hc).
  split; [|split].
  - destruct (Ha (Sample.env_ok 300) st (Sample.share_request "edit")
                (Sample.shared_passport "view") (User_project Sample.bob))
      as (Hr & Hs & _).
    + apply sample_after_share_reachable.
    + vm_compute. reflexivity.
    + vm_compute. reflexivity.
    + vm_compute. reflexivity.
    + vm_compute. reflexivity.
    + simpl. left. reflexivity.
    + subst out. rewrite Hr. split; [reflexivity | exact Hs].
  - destruct (Hb (Sample.env_ok 200) (Sample.env_ok 300) Sample.after_upload
                (Sample.share_request "view") (Sample.share_request "edit")
                (User_project Sample.bob))
      as (_ & _ & Hd').
    + vm_compute. reflexivity.
    + vm_compute. reflexivity.
    + vm_compute. reflexivity.
    + reflexivity.
    + reflexivity.
    + reflexivity.
    + vm_compute. reflexivity.
    + exact Hd'.
  - apply (Hc st "d0c100000000000000000000").
    + apply sample_after_share_reachable.
    + vm_compute. reflexivity.
Defined.

(** ** Who may do what *)

Lemma update_fields_valid env st req d :
  documents st !! params_id req = Some d ->
  validate_update (str (body_title req)) (str (body_description req))
                  (str (body_documentType req)) = [] ->
  let d' := {| title := trim (str (body_title req));
               description := str (body_description req);
               documentType := str (body_documentType req);
               fileUrl := fileUrl d; publicId := publicId d; owner := owner d;
               sharedWith := sharedWith d; createdAt := createdAt d;
               updatedAt := Date_now env |} in
  update_fields env st req
  = reply (set_documents st (<[params_id req := d']> (documents st)))
          [DocumentUpdate (params_id req)] 200
          (with_data None (DataDocument (params_id req) d')).
Proof.
  intros Hd Hok. unfold update_fields, Document_findByIdAndUpdate.
  rewrite Hok, Hd. reflexivity.
Qed.

(** C3: on an existing document a requester who is not the owner gets 403
    from shareDocument (grant), updateSharing (modify) and removeSharing
    (revoke), with nothing changed, whatever the share list holds for that
    requester, an edit entry included; yet updateDocument by a requester
    holding an edit entry answers 200 and stores the new fields (for
    requests that pass the route validators and, for the update, the
    schema validators of the three fields). *)
Theorem sharing_owner_only_update_for_editors
  (isEmail : string -> bool) (env : Env) (st : Store) (req : Request) (d : Document) :
  documents st !! params_id req = Some d ->
  owner d <> User._id (req_user req) ->
  (validate_share_request isEmail req = [] ->
   shareDocument isEmail env st req
   = reply st [] 403 (failure "Not authorized to share this document")) /\
  (validate_updateSharing req = [] ->
   updateSharing env st req
   = reply st [] 403 (failure "Not authorized to update sharing for this document")) /\
  removeSharing env st req
  = reply st [] 403 (failure "Not authorized to remove sharing for this document") /\
  (holds_edit (User._id (req_user req)) d ->
   validate_document_fields req = [] ->
   validate_update (str (body_title req)) (str (body_description req))
                   (str (body_documentType req)) = [] ->
   let out := updateDocument env st req in
   status (response out) = 200 /\
   success (json (response out)) = true /\
   exists d', documents (store out) !! params_id req = Some d' /\
     title d' = trim (str (body_title req)) /\
     description d' = str (body_description req) /\
     documentType d' = str (body_documentType req) /\
     sharedWith d' = sharedWith d).
Proof.
  intros Hd Hown. apply neqb_true in Hown.
  split; [|split; [|split]].
  - intros Hval. unfold shareDocument, Document_findById. rewrite (passed _ Hval), Hd, Hown. reflexivity.
  - intros Hval. unfold updateSharing, Document_findById. rewrite (passed _ Hval), Hd, Hown. reflexivity.
  - unfold removeSharing, Document_findById. rewrite Hd, Hown. reflexivity.
  - intros (share & Hin & Huser & Hlvl) Hval Hschema out. subst out.
    unfold updateDocument, Document_findById. rewrite (passed _ Hval), Hd, Hown.
    destruct (find_ _ (sharedWith d)) eqn:Hfind.
    + rewrite (update_fields_valid env st req d Hd Hschema). simpl.
      repeat split. eexists. split; [apply lookup_insert_eq|]. simpl. auto.
    + unfold find_ in Hfind. apply (find_none _ _ Hfind) in Hin.
      rewrite Huser, Hlvl, !String.eqb_refl in Hin. discriminate.
Qed.

Lemma sharing_owner_only_update_for_editors_witness :
  let st := Sample.after_share "edit" in
  let req := Sample.with_fields
               (Sample.with_share (Sample.request Sample.bob) "carol@x.com" "edit")
               "Passport (renewed)" "all pages" "Passport" in
  status (response (shareDocument Sample.isEmail (Sample.env_ok 300) st req)) = 403 /\
  status (response (updateSharing (Sample.env_ok 300) st req)) = 403 /\
  status (response (removeSharing (Sample.env_ok 300) st req)) = 403 /\
  status (response (updateDocument (Sample.env_ok 300) st req)) = 200.
Proof.
  intros st req.
  destruct (sharing_owner_only_update_for_editors Sample.isEmail (Sample.env_ok 300)
              st req (Sample.shared_passport "edit"))
    as (Hgrant & Hmodify & Hrevoke & Hupdate).
  - vm_compute. reflexivity.
  - vm_compute. discriminate.
  - rewrite Hgrant, Hmodify, Hrevoke by (vm_compute; reflexivity).
    split; [reflexivity|]. split; [reflexivity|]. split; [reflexivity|].
    apply Hupdate.
    + exists {| user := "b0b000000000000000000000"; accessLevel := "edit"; sharedAt := 200 |}.
      simpl. auto.
    + vm_compute. reflexivity.
    + vm_compute. reflexivity.
Defined.

(** ** verifyOTP *)

Lemma find_email_saved (e : string) (u : User.t) (l : list User.t) (v : User.t) :
  List.find (fun x => User.email x === e) l = Some v ->
  User._id u = User._id v ->
  User.email u = e ->
  exists w,
    List.find (fun x => User.email x === e)
      (map (fun x => if User._id x === User._id u then User_merge x u else x) l)
    = Some w /\
    User.isVerified w = User.isVerified u /\ User.otp w = User.otp u.
Proof.
  intros Hfind Hid Hmail. induction l as [|x l IH]; simpl in *; [discriminate|].
  destruct (User._id x === User._id u) eqn:Hx.
  - simpl. rewrite Hmail, String.eqb_refl. eexists. split; [reflexivity|]. auto.
  - destruct (User.email x === e) eqn:Hxe.
    + injection Hfind as ->. rewrite Hid, String.eqb_refl in Hx. discriminate.
    + apply IH, Hfind.
Qed.

Lemma User_findOne_project st e u :
  User_findOne st e = Some u ->
  exists v, List.find (fun x => User.email x === e) (users st) = Some v /\
            u = User_project v /\ User.email v = e.
Proof.
  unfold User_findOne. destruct (List.find _ (users st)) as [v|] eqn:Hfind; [|discriminate].
  intros [= <-]. exists v. repeat split.
  apply find_some in Hfind as [_ H]. apply String.eqb_eq, H.
Qed.

(** After the save of a verified identity the same email finds it verified
    and without a pending code. *)
Lemma User_findOne_saved st e u :
  User_findOne st e = Some u ->
  exists w, User_findOne (User_save st (set_verified u)) e = Some w /\
            User.isVerified w = true /\ User.otp w = None.
Proof.
  intros Hu. destruct (User_findOne_project _ _ _ Hu) as (v & Hfind & -> & Hmail).
  destruct (find_email_saved e (set_verified (User_project v)) (users st) v Hfind)
    as (w & Hw & Hver & Hotp); [reflexivity | exact Hmail |].
  exists (User_project w). unfold User_findOne, User_save, set_users. cbn [users].
  rewrite Hw. simpl. auto.
Qed.

(** C4: for a request that passes the route validators, verifyOTP is the
    specification's [verify] on the identity found for the email: 404
    "User not found" if there is none; else 400 "Email already verified";
    else 400 "No OTP generated for this user" if no code is pending; else
    400 "OTP expired" if now is past the expiry; else 400 "Invalid OTP" if
    the codes differ, all without any change of the store; and only
    otherwise 200 with the token, the identity being saved verified and
    without its pending code. *)
Theorem verifyOTP_precedence
  (isEmail : string -> bool) (jwt_sign : ObjectId -> Z -> string)
  (env : Env) (st : Store) (req : Request) :
  validate_verifyOTP isEmail req = [] ->
  let email := str (body_email req) in
  let out := verifyOTP isEmail jwt_sign env st req in
  match verify (Date_now env) (User_findOne st email) (str (body_otp req)) with
  | inl e =>
    response out = otp_error_response e /\ store out = st /\ effects out = []
  | inr u' =>
    response out = sendTokenResponse jwt_sign env u' 200 /\
    User.isVerified u' = true /\ User.otp u' = None /\
    store out = User_save st u' /\
    exists w, User_findOne (store out) email = Some w /\
              User.isVerified w = true /\ User.otp w = None
  end.
Proof.
  intros Hval email out. subst email out. unfold verifyOTP, verify, pendingCode.
  rewrite (passed _ Hval).
  destruct (User_findOne st (str (body_email req))) as [u|] eqn:Hu; [|simpl; auto].
  destruct (User.isVerified u); [simpl; auto|].
  destruct (User.otp u) as [pending|]; [|simpl; auto].
  destruct (code pending === ""); [simpl; auto|].
  rewrite Z.gtb_ltb.
  destruct (expiry pending <? Date_now env); [simpl; auto|].
  destruct (code pending === str (body_otp req)); simpl; [|auto].
  repeat split. apply User_findOne_saved, Hu.
Qed.

Lemma verifyOTP_precedence_witness :
  let out := verifyOTP Sample.isEmail Sample.jwt_sign (Sample.env_ok 500)
               Sample.empty_store Sample.verify_request in
  status (response out) = 200 /\
  exists w, User_findOne (store out) "carol@x.com" = Some w /\
            User.isVerified w = true /\ User.otp w = None.
Proof.
  intros out.
  pose proof (verifyOTP_precedence Sample.isEmail Sample.jwt_sign (Sample.env_ok 500)
                Sample.empty_store Sample.verify_request) as H.
  cbv zeta in H. specialize (H ltac:(vm_compute; reflexivity)).
  change (verify _ _ _) with
    (@inr OtpError _ (set_verified (User_project Sample.carol))) in H.
  cbv iota beta in H.
  destruct H as (Hr & _ & _ & _ & Hw).
  subst out. rewrite Hr. split; [reflexivity | exact Hw].
Defined.

(** The accepting path of verifyOTP. *)
Lemma verifyOTP_accepts isEmail jwt_sign env st req u pending :
  validate_verifyOTP isEmail req = [] ->
  User_findOne st (str (body_email req)) = Some u ->
  User.isVerified u = false ->
  pendingCode u = Some pending ->
  code pending = str (body_otp req) ->
  Date_now env <= expiry pending ->
  verifyOTP isEmail jwt_sign env st req
  = {| response := sendTokenResponse jwt_sign env (set_verified u) 200;
       store := User_save st (set_verified u);
       effects := [UserSave (User._id u)] |}.
Proof.
  intros Hval Hu Hver Hpending Hcode Hnow. unfold verifyOTP.
  rewrite (passed _ Hval), Hu, Hver. unfold pendingCode in Hpending.
  destruct (User.otp u) as [o|]; [|discriminate].
  destruct (code o === ""); [discriminate|]. injection Hpending as ->.
  apply Z.ltb_ge in Hnow. rewrite Hnow, Hcode, String.eqb_refl. reflexivity.
Qed.

(** The already-verified guard of verifyOTP. *)
Lemma verifyOTP_rejects_verified isEmail jwt_sign env st req u :
  validate_verifyOTP isEmail req = [] ->
  User_findOne st (str (body_email req)) = Some u ->
  User.isVerified u = true ->
  verifyOTP isEmail jwt_sign env st req
  = reply st [] 400 (failure "Email already verified").
Proof.
  intros Hval Hu Hver. unfold verifyOTP.
  rewrite (passed _ Hval), Hu, Hver. reflexivity.
Qed.

(** C5 (as the code has it): for an unverified identity with a pending
    code, verifyOTP with that code, not after its expiry, answers 200; the
    same request repeated on the resulting store, at any time, answers 400
    "Email already verified" and changes nothing: the already-verified
    guard comes before the pending-code check (the code was cleared as
    well). *)
Theorem verifyOTP_once_then_already_verified
  (isEmail : string -> bool) (jwt_sign : ObjectId -> Z -> string)
  (env env' : Env) (st : Store) (req : Request) (u : User.t) (pending : Otp) :
  validate_verifyOTP isEmail req = [] ->
  User_findOne st (str (body_email req)) = Some u ->
  User.isVerified u = false ->
  pendingCode u = Some pending ->
  code pending = str (body_otp req) ->
  Date_now env <= expiry pending ->
  let first := verifyOTP isEmail jwt_sign env st req in
  let second := verifyOTP isEmail jwt_sign env' (store first) req in
  status (response first) = 200 /\
  success (json (response first)) = true /\
  response second = otp_error_response AlreadyVerified /\
  store second = store first.
Proof.
  intros Hval Hu Hver Hpending Hcode Hnow first second.
  destruct (User_findOne_saved _ _ _ Hu) as (w & Hw & Hwver & _).
  subst second first.
  rewrite (verifyOTP_accepts isEmail jwt_sign env st req u pending) by assumption.
  cbn [store response].
  rewrite (verifyOTP_rejects_verified isEmail jwt_sign env' _ req w Hval Hw Hwver).
  simpl. auto.
Qed.

Lemma verifyOTP_once_then_already_verified_witness :
  let first := verifyOTP Sample.isEmail Sample.jwt_sign (Sample.env_ok 500)
                 Sample.empty_store Sample.verify_request in
  let second := verifyOTP Sample.isEmail Sample.jwt_sign (Sample.env_ok 600)
                  (store first) Sample.verify_request in
  status (response first) = 200 /\
  success (json (response first)) = true /\
  response second = otp_error_response AlreadyVerified /\
  store second = store first.
Proof.
  apply (verifyOTP_once_then_already_verified Sample.isEmail Sample.jwt_sign
           (Sample.env_ok 500) (Sample.env_ok 600) Sample.empty_store
           Sample.verify_request (User_project Sample.carol)
           {| code := "123456"; expiry := 1000 |}).
  - vm_compute. reflexivity.
  - vm_compute. reflexivity.
  - reflexivity.
  - reflexivity.
  - reflexivity.
  - simpl. lia.
Defined.

(** C5, counterexample: carol is unverified with the pending code 123456
    that expires at 1000.  Her verify at 500 succeeds; the same verify
    repeated at 501 is answered "Email already verified", not "No OTP
    generated for this user" as the specification has it. *)
Lemma verifyOTP_repeat_counterexample :
  let first := verifyOTP Sample.isEmail Sample.jwt_sign (Sample.env_ok 500)
                 Sample.empty_store Sample.verify_request in
  let second := verifyOTP Sample.isEmail Sample.jwt_sign (Sample.env_ok 501)
                  (store first) Sample.verify_request in
  User_findOne Sample.empty_store "carol@x.com" = Some (User_project Sample.carol) /\
  pendingCode Sample.carol = Some {| code := "123456"; expiry := 1000 |} /\
  body_otp Sample.verify_request = Some "123456" /\
  status (response first) = 200 /\
  response second = otp_error_response AlreadyVerified /\
  response second <> otp_error_response NoPendingCode.
Proof.
  vm_compute. repeat split; congruence.
Qed.

(** ** uploadDocument *)

(** C6: uploadDocument creates a registry record only after cloudinary
    accepted the upload: a create among its effects is preceded by the
    upload; when the upload is rejected the answer is 500 "Failed to upload
    file to cloud storage", the store is unchanged and no create happened;
    and whenever the answer is not the 201 the store is unchanged. *)
Theorem uploadDocument_atomic (env : Env) (st : Store) (req : Request) :
  let out := uploadDocument env st req in
  (forall id, In (DocumentCreate id) (effects out) ->
     exists path result,
       file req = Some path /\
       cloudinary_uploader_upload env path = inr result /\
       effects out = [CloudinaryUpload path; DocumentCreate id; FsUnlink path]) /\
  (forall path msg,
     validate_document_fields req = [] ->
     file req = Some path ->
     cloudinary_uploader_upload env path = inl msg ->
     response out = {| status := 500; json := upload_failure msg |} /\
     store out = st /\
     effects out = [CloudinaryUpload path]) /\
  (status (response out) <> 201 -> store out = st).
Proof.
  intros out. subst out. unfold uploadDocument. split; [|split].
  - intros id. repeat case_scrutinee; simpl; intros Hin;
      repeat (destruct Hin as [Hin|Hin]; try discriminate); try contradiction.
    injection Hin as <-. eauto.
  - intros path msg Hval Hfile Hup. rewrite (passed _ Hval), Hfile, Hup.
    simpl. auto.
  - repeat case_scrutinee; simpl; intros H; try reflexivity. contradiction.
Qed.

Lemma uploadDocument_atomic_witness :
  let out := uploadDocument (Sample.env_cloudinary_down 100) Sample.empty_store
               Sample.upload_request in
  status (response out) = 500 /\ store out = Sample.empty_store /\
  documents (store out) = ∅.
Proof.
  intros out.
  destruct (uploadDocument_atomic (Sample.env_cloudinary_down 100) Sample.empty_store
              Sample.upload_request) as (_ & Hfail & Hatomic).
  destruct (Hfail "uploads/1-2.pdf" "connect ETIMEDOUT") as (Hr & Hs & _).
  - vm_compute. reflexivity.
  - reflexivity.
  - reflexivity.
  - subst out. rewrite Hr, Hatomic.
    + repeat split.
    + rewrite Hr. simpl. discriminate.
Defined.

(** ** protect *)

Lemma bearer_token_absent (req : Request) :
  authorization req = None -> bearer_token req = None.
Proof.
  unfold bearer_token. intros ->. reflexivity.
Qed.

(** C7: protect answers 401 "Not authorized to access this route" when no
    bearer token is presented and when jwt.verify rejects the token, 401
    "User not found" when the id of the token finds no identity, 401
    "Please verify your email to access this route" when the identity
    found is not verified; in every other case it passes on with the
    identity as the users collection holds it now.  Every response it
    sends itself is a 401. *)
Theorem protect_outcomes
  (jwt_verify : string -> Z -> option ObjectId) (env : Env) (st : Store) (req : Request) :
  let out := protect jwt_verify env st req in
  let unauthorized msg := inl {| status := 401; json := failure msg |} in
  (authorization req = None -> out = unauthorized "Not authorized to access this route") /\
  (bearer_token req = None \/ bearer_token req = Some "" ->
   out = unauthorized "Not authorized to access this route") /\
  (forall token,
     bearer_token req = Some token -> token <> "" ->
     jwt_verify token (Date_now env) = None ->
     out = unauthorized "Not authorized to access this route") /\
  (forall token id,
     bearer_token req = Some token -> token <> "" ->
     jwt_verify token (Date_now env) = Some id ->
     User_findById st id = None ->
     out = unauthorized "User not found") /\
  (forall token id u,
     bearer_token req = Some token -> token <> "" ->
     jwt_verify token (Date_now env) = Some id ->
     User_findById st id = Some u ->
     User.isVerified u = false ->
     out = unauthorized "Please verify your email to access this route") /\
  (forall token id u,
     bearer_token req = Some token -> token <> "" ->
     jwt_verify token (Date_now env) = Some id ->
     User_findById st id = Some u ->
     User.isVerified u = true ->
     out = inr u /\
     exists stored, In stored (users st) /\ User._id stored = id /\
                    u = User_project stored) /\
  (forall r, out = inl r -> status r = 401 /\ success (json r) = false).
Proof.
  intros out unauthorized. subst out unauthorized. unfold protect.
  split; [|split; [|split; [|split; [|split; [|split]]]]].
  - intros H. rewrite (bearer_token_absent _ H). reflexivity.
  - intros [-> | ->]; reflexivity.
  - intros token -> Hne Hjwt. destruct token; [contradiction|].
    rewrite Hjwt. reflexivity.
  - intros token id -> Hne Hjwt Hu. destruct token; [contradiction|].
    rewrite Hjwt, Hu. reflexivity.
  - intros token id u -> Hne Hjwt Hu Hver. destruct token; [contradiction|].
    rewrite Hjwt, Hu, Hver. reflexivity.
  - intros token id u -> Hne Hjwt Hu Hver. destruct token; [contradiction|].
    pose proof Hu as Hu'. rewrite Hjwt, Hu, Hver. split; [reflexivity|].
    unfold User_findById in Hu'.
    destruct (List.find _ (users st)) as [stored|] eqn:Hfind; [|discriminate].
    injection Hu' as <-. apply find_some in Hfind as [Hin Hid].
    apply String.eqb_eq in Hid. eauto.
  - intros r. destruct (bearer_token req) as [[|c token]|].
    + intros [= <-]. auto.
    + destruct (jwt_verify _ _); [|intros [= <-]; auto].
      destruct (User_findById st _) as [u|]; [|intros [= <-]; auto].
      destruct (User.isVerified u); simpl; [discriminate | intros [= <-]; auto].
    + intros [= <-]. auto.
Qed.

Lemma protect_outcomes_witness :
  let protect' := protect Sample.jwt_verify (Sample.env_ok 700) Sample.empty_store in
  let unauthorized msg := inl {| status := 401; json := failure msg |} in
  protect' (Sample.with_authorization (Sample.request Sample.alice) None)
  = unauthorized "Not authorized to access this route" /\
  protect' (Sample.with_authorization (Sample.request Sample.alice) (Some "Bearer "))
  = unauthorized "Not authorized to access this route" /\
  protect' (Sample.with_authorization (Sample.request Sample.alice) (Some "Bearer forged"))
  = unauthorized "Not authorized to access this route" /\
  protect' (Sample.with_authorization (Sample.request Sample.alice) (Some "Bearer jwt.de1e7ed00000000000000000"))
  = unauthorized "User not found" /\
  protect' (Sample.request Sample.carol)
  = unauthorized "Please verify your email to access this route" /\
  protect' (Sample.request Sample.alice) = inr (User_project Sample.alice).
Proof.
  intros protect' unauthorized. subst protect'.
  pose proof (protect_outcomes Sample.jwt_verify (Sample.env_ok 700) Sample.empty_store)
    as H. cbv zeta in H.
  repeat apply conj.
  - apply (proj1 (H _)). reflexivity.
  - apply (proj1 (proj2 (H _))). right. reflexivity.
  - apply (proj1 (proj2 (proj2 (H _))) "forged");
      [reflexivity | discriminate | reflexivity].
  - apply (proj1 (proj2 (proj2 (proj2 (H _)))) "jwt.de1e7ed00000000000000000" "de1e7ed00000000000000000");
      [reflexivity | discriminate | reflexivity | reflexivity].
  - apply (proj1 (proj2 (proj2 (proj2 (proj2 (H _))))) "jwt.ca4010000000000000000000" "ca4010000000000000000000"
             (User_project Sample.carol));
      [reflexivity | discriminate | reflexivity | reflexivity | reflexivity].
  - apply (proj1 (proj2 (proj2 (proj2 (proj2 (proj2 (H _)))))) "jwt.a11ce0000000000000000000" "a11ce0000000000000000000"
             (User_project Sample.alice));
      [reflexivity | discriminate | reflexivity | reflexivity | reflexivity].
Defined.

(** ** updatedAt *)

Lemma save_and_reply_refreshes env st id d msg :
  status (response (save_and_reply env st id d msg)) = 200 ->
  exists d', documents (store (save_and_reply env st id d msg)) !! id = Some d' /\
             updatedAt d' = Date_now env /\
             createdAt d' = createdAt d /\ owner d' = owner d.
Proof.
  intros H. rewrite (save_and_reply_200 _ _ _ _ _ H). simpl.
  eexists. split; [apply lookup_insert_eq|]. simpl. auto.
Qed.

Lemma update_fields_refreshes env st req d :
  documents st !! params_id req = Some d ->
  status (response (update_fields env st req)) = 200 ->
  exists d', documents (store (update_fields env st req)) !! params_id req = Some d' /\
             updatedAt d' = Date_now env /\
             createdAt d' = createdAt d /\ owner d' = owner d.
Proof.
  intros Hd. unfold update_fields, Document_findByIdAndUpdate. rewrite Hd.
  destruct (validate_update _ _ _); simpl; [|discriminate].
  intros _. eexists. split; [apply lookup_insert_eq|]. simpl. auto.
Qed.

(** C8: when a route that mutates a document (its fields, or its share list
    by grant, modify or revoke) answers 200, the stored document has
    updatedAt equal to the clock of the run, and the createdAt and owner it
    had before. *)
Theorem mutation_refreshes_updatedAt
  (isEmail : string -> bool) (r : Route) (env : Env) (st : Store) (req : Request)
  (d : Document) :
  mutates r = true ->
  documents st !! params_id req = Some d ->
  let out := handle isEmail r env st req in
  status (response out) = 200 ->
  exists d', documents (store out) !! params_id req = Some d' /\
             updatedAt d' = Date_now env /\
             createdAt d' = createdAt d /\ owner d' = owner d.
Proof.
  intros Hr Hd out. subst out. destruct r; try discriminate Hr; simpl handle.
  - unfold updateDocument, Document_findById. rewrite Hd.
    repeat case_scrutinee; simpl; try discriminate;
      apply update_fields_refreshes, Hd.
  - unfold shareDocument, Document_findById. rewrite Hd.
    repeat case_scrutinee; simpl; try discriminate.
    intros H. apply save_and_reply_refreshes in H. exact H.
  - unfold updateSharing, Document_findById. rewrite Hd.
    repeat case_scrutinee; simpl; try discriminate.
    intros H. apply save_and_reply_refreshes in H. exact H.
  - unfold removeSharing, Document_findById. rewrite Hd.
    repeat case_scrutinee; simpl; try discriminate.
    intros H. apply save_and_reply_refreshes in H. exact H.
Qed.

Lemma mutation_refreshes_updatedAt_witness :
  let out := handle Sample.isEmail PUT_share (Sample.env_ok 300)
               (Sample.after_share "view")
               (Sample.with_share (Sample.request Sample.alice) "bob@x.com" "edit") in
  exists d', documents (store out) !! "d0c100000000000000000000" = Some d' /\
             updatedAt d' = 300 /\ createdAt d' = 100 /\ owner d' = "a11ce0000000000000000000".
Proof.
  apply (mutation_refreshes_updatedAt Sample.isEmail PUT_share (Sample.env_ok 300)
           (Sample.after_share "view")
           (Sample.with_share (Sample.request Sample.alice) "bob@x.com" "edit")
           (Sample.shared_passport "view")).
  - reflexivity.
  - vm_compute. reflexivity.
  - vm_compute. reflexivity.
Defined.

(** ** The owner is never a share target *)

Lemma save_and_reply_lookup env st id d msg d' :
  documents (store (save_and_reply env st id d msg)) !! id = Some d' ->
  documents st !! id = Some d' \/ d' = pre_save env d.
Proof.
  destruct (save_and_reply_store env st id d msg) as [-> | [_ ->]]; [auto|].
  simpl. rewrite lookup_insert_eq. intros [= <-]. auto.
Qed.

Lemma updateSharing_adds_nobody env st req d d' :
  documents st !! params_id req = Some d ->
  documents (store (updateSharing env st req)) !! params_id req = Some d' ->
  shared_users d' = shared_users d.
Proof.
  intros Hd. unfold updateSharing, Document_findById. rewrite Hd.
  repeat case_scrutinee; simpl; try (rewrite Hd; intros [= <-]; reflexivity).
  intros H. apply save_and_reply_lookup in H as [H | ->].
  - rewrite Hd in H. injection H as <-. reflexivity.
  - unfold shared_users. simpl. apply map_user_alter.
Qed.

Lemma removeSharing_adds_nobody env st req d d' :
  documents st !! params_id req = Some d ->
  documents (store (removeSharing env st req)) !! params_id req = Some d' ->
  forall u, In u (shared_users d') -> In u (shared_users d).
Proof.
  intros Hd. unfold removeSharing, Document_findById. rewrite Hd.
  repeat case_scrutinee; simpl; try (rewrite Hd; intros [= <-]; auto).
  intros H. apply save_and_reply_lookup in H as [H | ->].
  - rewrite Hd in H. injection H as <-. auto.
  - unfold shared_users. simpl. intros u. apply In_map_user_splice1.
Qed.

Lemma uploadDocument_created env st req :
  status (response (uploadDocument env st req)) = 201 ->
  exists id d,
    data (json (response (uploadDocument env st req))) = Some (DataDocument id d) /\
    documents st !! id = None /\
    documents (store (uploadDocument env st req)) !! id = Some d /\
    owner d = User._id (req_user req) /\
    sharedWith d = [].
Proof.
  unfold uploadDocument, Document_create.
  repeat case_scrutinee; simpl; try discriminate.
  intros _. eexists _, _. split; [reflexivity|]. split; [eassumption|].
  split; [apply lookup_insert_eq|]. simpl. auto.
Qed.

(** C9: in every reachable store no document lists its owner in sharedWith.
    A document is created with an empty list; shareDocument answers 400
    "Cannot share document with yourself", changing nothing, when the email
    is the requesting owner's; updateSharing and removeSharing leave no
    user in the list who was not there before. *)
Theorem owner_never_shared (isEmail : string -> bool) :
  (forall st id d,
     reachable isEmail st -> documents st !! id = Some d ->
     ~ In (owner d) (shared_users d)) /\
  (forall env st req,
     status (response (uploadDocument env st req)) = 201 ->
     exists id d,
       documents st !! id = None /\
       documents (store (uploadDocument env st req)) !! id = Some d /\
       sharedWith d = []) /\
  (forall env st req d u,
     validate_share_request isEmail req = [] ->
     documents st !! params_id req = Some d ->
     owner d = User._id (req_user req) ->
     User_findOne st (str (body_email req)) = Some u ->
     User._id u = owner d ->
     shareDocument isEmail env st req
     = reply st [] 400 (failure "Cannot share document with yourself")) /\
  (forall env st req d d',
     documents st !! params_id req = Some d ->
     (documents (store (updateSharing env st req)) !! params_id req = Some d' ->
      shared_users d' = shared_users d) /\
     (documents (store (removeSharing env st req)) !! params_id req = Some d' ->
      forall u, In u (shared_users d') -> In u (shared_users d))).
Proof.
  split; [|split; [|split]].
  - intros st id d Hreach Hd. apply (reachable_well_shared _ _ Hreach _ _ Hd).
  - intros env st req H. destruct (uploadDocument_created _ _ _ H)
      as (id & d & _ & Hnew & Hd & _ & Hnil). eauto.
  - intros env st req d u Hval Hd Hown Hu Hself. unfold shareDocument, Document_findById.
    rewrite (passed _ Hval), Hd.
    assert (Hown' := Hown). apply neqb_false in Hown'. rewrite Hown', Hu.
    rewrite Hself, Hown, String.eqb_refl. reflexivity.
  - intros env st req d d' Hd. split.
    + apply updateSharing_adds_nobody, Hd.
    + apply removeSharing_adds_nobody, Hd.
Qed.

Lemma owner_never_shared_witness :
  ~ In "a11ce0000000000000000000" (shared_users (Sample.shared_passport "view")) /\
  status (response (shareDocument Sample.isEmail (Sample.env_ok 300)
                      (Sample.after_share "view")
                      (Sample.with_share (Sample.request Sample.alice)
                                         "alice@x.com" "edit"))) = 400 /\
  (exists id d,
     documents Sample.empty_store !! id = None /\
     documents Sample.after_upload !! id = Some d /\ sharedWith d = []) /\
  (forall d',
     documents (store (removeSharing (Sample.env_ok 300) (Sample.after_share "view")
                         (Sample.request Sample.alice))) !! "d0c100000000000000000000" = Some d' ->
     forall u, In u (shared_users d') -> In u ["b0b000000000000000000000"]).
Proof.
  destruct (owner_never_shared Sample.isEmail) as (Hinv & Hnew & Hself & Hsame).
  split; [|split; [|split]].
  - apply (Hinv (Sample.after_share "view") "d0c100000000000000000000" (Sample.shared_passport "view")).
    + apply sample_after_share_reachable.
    + vm_compute. reflexivity.
  - rewrite (Hself (Sample.env_ok 300) (Sample.after_share "view")
               (Sample.with_share (Sample.request Sample.alice) "alice@x.com" "edit")
               (Sample.shared_passport "view") (User_project Sample.alice)).
    + reflexivity.
    + vm_compute. reflexivity.
    + vm_compute. reflexivity.
    + reflexivity.
    + vm_compute. reflexivity.
    + reflexivity.
  - apply (Hnew (Sample.env_ok 100) Sample.empty_store Sample.upload_request).
    vm_compute. reflexivity.
  - intros d'.
    apply (Hsame (Sample.env_ok 300) (Sample.after_share "view")
             (Sample.request Sample.alice) (Sample.shared_passport "view") d').
    vm_compute. reflexivity.
Defined.

(** ** What the token responses show *)

Lemma find_email_same_but_credentials (e : string) (l1 l2 : list User.t) :
  same_but_credentials l1 l2 ->
  match List.find (fun u => User.email u === e) l1,
        List.find (fun u => User.email u === e) l2 with
  | Some u1, Some u2 => remove_sensitive u1 = remove_sensitive u2
  | None, None => True
  | _, _ => False
  end.
Proof.
  unfold same_but_credentials. revert l2.
  induction l1 as [|x1 l1 IH]; intros [|x2 l2]; simpl; try discriminate; [trivial|].
  intros H. assert (Hx : remove_sensitive x1 = remove_sensitive x2) by congruence.
  assert (Hl : map remove_sensitive l1 = map remove_sensitive l2) by congruence.
  assert (Hmail : User.email x1 = User.email x2)
    by exact (f_equal User.email Hx).
  rewrite Hmail. destruct (User.email x2 === e); [exact Hx | apply IH, Hl].
Qed.

Lemma remove_sensitive_set_verified (u1 u2 : User.t) :
  remove_sensitive u1 = remove_sensitive u2 ->
  remove_sensitive (set_verified (User_project u1))
  = remove_sensitive (set_verified (User_project u2)).
Proof.
  destruct u1, u2. unfold remove_sensitive, set_verified, User_project. simpl.
  intros [= -> -> -> -> ->]. reflexivity.
Qed.

Lemma without_token_sendTokenResponse jwt_sign env u statusCode :
  without_token (json (sendTokenResponse jwt_sign env u statusCode))
  = {| success := true; message := None; error := None; errors := None;
       token := None; body_user := Some (remove_sensitive u); data := None |}.
Proof. reflexivity. Qed.

Lemma login_200 isEmail jwt_sign bcrypt_compare env st req :
  status (response (login isEmail jwt_sign bcrypt_compare env st req)) = 200 ->
  exists u,
    List.find (fun u => User.email u === str (body_email req)) (users st) = Some u /\
    response (login isEmail jwt_sign bcrypt_compare env st req)
    = sendTokenResponse jwt_sign env u 200.
Proof.
  unfold login, User_findOne_select_password.
  repeat case_scrutinee; simpl; try discriminate. eauto.
Qed.

Lemma verifyOTP_200 isEmail jwt_sign env st req :
  status (response (verifyOTP isEmail jwt_sign env st req)) = 200 ->
  exists u,
    List.find (fun u => User.email u === str (body_email req)) (users st) = Some u /\
    response (verifyOTP isEmail jwt_sign env st req)
    = sendTokenResponse jwt_sign env (set_verified (User_project u)) 200.
Proof.
  unfold verifyOTP, User_findOne.
  destruct (negb (isEmpty (validate_verifyOTP isEmail req))); [discriminate|].
  destruct (List.find _ (users st)) as [u|]; simpl; [|discriminate].
  repeat case_scrutinee; simpl; try discriminate. eauto.
Qed.

(** C10: the body sendTokenResponse sends carries the user without password
    hash and without pending code; so when login, or verifyOTP, answers 200
    on two stores whose users differ at most in password hashes and pending
    codes, the two bodies are equal once the token is left out. *)
Theorem token_responses_hide_credentials
  (isEmail : string -> bool) (jwt_sign : ObjectId -> Z -> string)
  (bcrypt_compare : string -> string -> bool)
  (env1 env2 : Env) (st1 st2 : Store) (req : Request) :
  same_but_credentials (users st1) (users st2) ->
  let login1 := response (login isEmail jwt_sign bcrypt_compare env1 st1 req) in
  let login2 := response (login isEmail jwt_sign bcrypt_compare env2 st2 req) in
  let verify1 := response (verifyOTP isEmail jwt_sign env1 st1 req) in
  let verify2 := response (verifyOTP isEmail jwt_sign env2 st2 req) in
  (forall u statusCode,
     exists u', body_user (json (sendTokenResponse jwt_sign env1 u statusCode)) = Some u' /\
                User.password u' = None /\ User.otp u' = None) /\
  (status login1 = 200 ->
   exists u', body_user (json login1) = Some u' /\
              User.password u' = None /\ User.otp u' = None) /\
  (status verify1 = 200 ->
   exists u', body_user (json verify1) = Some u' /\
              User.password u' = None /\ User.otp u' = None) /\
  (status login1 = 200 -> status login2 = 200 ->
   without_token (json login1) = without_token (json login2)) /\
  (status verify1 = 200 -> status verify2 = 200 ->
   without_token (json verify1) = without_token (json verify2)).
Proof.
  intros Hsame login1 login2 verify1 verify2.
  pose proof (find_email_same_but_credentials (str (body_email req)) _ _ Hsame) as Hfind.
  subst login1 login2 verify1 verify2.
  split; [|split; [|split; [|split]]].
  - intros u statusCode. eexists. split; [reflexivity|]. auto.
  - intros H. destruct (login_200 _ _ _ _ _ _ H) as (u & _ & ->).
    eexists. split; [reflexivity|]. auto.
  - intros H. destruct (verifyOTP_200 _ _ _ _ _ H) as (u & _ & ->).
    eexists. split; [reflexivity|]. auto.
  - intros H1 H2.
    destruct (login_200 _ _ _ _ _ _ H1) as (u1 & Hu1 & ->).
    destruct (login_200 _ _ _ _ _ _ H2) as (u2 & Hu2 & ->).
    rewrite Hu1, Hu2 in Hfind.
    rewrite !without_token_sendTokenResponse, Hfind. reflexivity.
  - intros H1 H2.
    destruct (verifyOTP_200 _ _ _ _ _ H1) as (u1 & Hu1 & ->).
    destruct (verifyOTP_200 _ _ _ _ _ H2) as (u2 & Hu2 & ->).
    rewrite Hu1, Hu2 in Hfind.
    rewrite !without_token_sendTokenResponse.
    rewrite (remove_sensitive_set_verified _ _ Hfind). reflexivity.
Qed.

Lemma token_responses_hide_credentials_witness :
  let login' := login Sample.isEmail Sample.jwt_sign Sample.bcrypt_compare in
  let verify' := verifyOTP Sample.isEmail Sample.jwt_sign in
  without_token (json (response (login' (Sample.env_ok 500) Sample.empty_store
                                        Sample.login_request)))
  = without_token (json (response (login' (Sample.env_ok 900) Sample.rehashed_store
                                          Sample.login_request))) /\
  without_token (json (response (verify' (Sample.env_ok 500) Sample.empty_store
                                         Sample.verify_request)))
  = without_token (json (response (verify' (Sample.env_ok 900) Sample.rehashed_store
                                           Sample.verify_request))).
Proof.
  intros login' verify'. split.
  - apply (token_responses_hide_credentials Sample.isEmail Sample.jwt_sign
             Sample.bcrypt_compare (Sample.env_ok 500) (Sample.env_ok 900)
             Sample.empty_store Sample.rehashed_store Sample.login_request);
      vm_compute; reflexivity.
  - apply (token_responses_hide_credentials Sample.isEmail Sample.jwt_sign
             Sample.bcrypt_compare (Sample.env_ok 500) (Sample.env_ok 900)
             Sample.empty_store Sample.rehashed_store Sample.verify_request);
      vm_compute; reflexivity.
Defined.

(** * Further properties of the document routes *)

(** ** Stored documents stay valid *)

#[local] Arguments String.eqb : simpl never.
#[local] Arguments existsb : simpl never.

Lemma check_nil (ok : bool) (msg : string) : check ok msg = [] <-> ok = true.
Proof. destruct ok; simpl; split; congruence. Qed.

Lemma invalid_nil (ok : bool) (path msg : string) :
  invalid ok path msg = [] <-> ok = true.
Proof. destruct ok; simpl; split; congruence. Qed.

Lemma validate_document_nil (d : Document) :
  validate_document d = [] <->
  validate_title (title d) = [] /\
  validate_description (description d) = [] /\
  validate_documentType (documentType d) = [] /\
  (fileUrl d === "") = false /\
  (publicId d === "") = false /\
  flat_map validate_share (sharedWith d) = [].
Proof.
  unfold validate_document. split.
  - intros H.
    apply app_eq_nil in H as [Ht H]. apply app_eq_nil in H as [Hd H].
    apply app_eq_nil in H as [Hty H]. apply app_eq_nil in H as [Hu H].
    apply app_eq_nil in H as [Hp Hs].
    apply invalid_nil, negb_true_iff in Hu. apply invalid_nil, negb_true_iff in Hp.
    repeat split; assumption.
  - intros (-> & -> & -> & -> & -> & ->). reflexivity.
Qed.

Lemma validate_update_nil (t d ty : string) :
  validate_update t d ty = [] <->
  validate_title (trim t) = [] /\ validate_description d = [] /\
  validate_documentType ty = [].
Proof.
  unfold validate_update. split.
  - intros H. apply app_eq_nil in H as [Ht H]. apply app_eq_nil in H as [Hd Hty].
    auto.
  - intros (-> & -> & ->). reflexivity.
Qed.

Lemma validate_shares_alter (lvl : string) (i : nat) (l : list ShareEntry) :
  existsb (fun a => a === lvl) accessLevels = true ->
  flat_map validate_share l = [] ->
  flat_map validate_share (alter (set_accessLevel lvl) i l) = [].
Proof.
  intros Hlvl. revert i. induction l as [|s l IH]; intros [|i]; simpl; auto.
  - intros H. apply app_eq_nil in H as [_ H]. rewrite H.
    unfold validate_share. simpl accessLevel. rewrite Hlvl. reflexivity.
  - intros H. apply app_eq_nil in H as [Hs H]. rewrite Hs. simpl. apply IH, H.
Qed.

Lemma validate_shares_splice1 (i : nat) (l : list ShareEntry) :
  flat_map validate_share l = [] -> flat_map validate_share (splice1 i l) = [].
Proof.
  unfold splice1. revert i. induction l as [|s l IH]; intros [|i]; simpl; auto.
  - intros H. apply app_eq_nil in H as [_ H]. exact H.
  - intros H. apply app_eq_nil in H as [Hs H]. rewrite Hs. simpl. apply IH, H.
Qed.


Lemma isIn_accessLevels (v : option string) :
  isIn ["view"; "edit"] v = true ->
  existsb (fun a => a === str v) accessLevels = true.
Proof. intros H. exact H. Qed.

(** A valid document is saved: the handler answers 200. *)
Lemma save_and_reply_valid env st id d msg :
  validate_document d = [] ->
  save_and_reply env st id d msg
  = reply (set_documents st (<[id := pre_save env d]> (documents st)))
          [DocumentUpdate id] 200
          (with_data (Some msg) (DataDocument id (pre_save env d))).
Proof.
  intros H. unfold save_and_reply, Document_save. rewrite H. reflexivity.
Qed.

Lemma store_valid_insert st id d :
  store_valid st -> validate_document d = [] ->
  store_valid (set_documents st (<[id := d]> (documents st))).
Proof.
  intros Hst Hd id' d'. simpl. rewrite lookup_insert.
  case_decide; [intros [= <-]; exact Hd | apply Hst].
Qed.

Lemma save_and_reply_store_valid env st id d msg :
  store_valid st -> store_valid (store (save_and_reply env st id d msg)).
Proof.
  intros Hst. unfold save_and_reply, Document_save.
  destruct (validate_document d) eqn:Hd; simpl; [|exact Hst].
  apply store_valid_insert; [exact Hst | exact Hd].
Qed.

Lemma handle_store_valid isEmail r env st req :
  store_valid st -> store_valid (store (handle isEmail r env st req)).
Proof.
  intros Hst. destruct r; simpl.
  - unfold uploadDocument, Document_create.
    repeat case_scrutinee; simpl; try exact Hst.
    apply store_valid_insert; [exact Hst | assumption].
  - unfold updateDocument, update_fields, Document_findByIdAndUpdate, Document_findById.
    repeat case_scrutinee; simpl; try exact Hst;
      (apply store_valid_insert; [exact Hst|]);
      match goal with
      | Hold : documents st !! _ = Some ?old, Hu : validate_update _ _ _ = [] |- _ =>
        apply Hst, validate_document_nil in Hold;
        apply validate_update_nil in Hu;
        apply validate_document_nil; simpl; tauto
      end.
  - unfold deleteDocument, Document_findById. repeat case_scrutinee; simpl; try exact Hst.
    intros id' d'. simpl. rewrite lookup_delete.
    case_decide; [discriminate | apply Hst].
  - unfold shareDocument, Document_findById. repeat case_scrutinee; simpl; try exact Hst.
    apply save_and_reply_store_valid, Hst.
  - unfold updateSharing, Document_findById. repeat case_scrutinee; simpl; try exact Hst.
    apply save_and_reply_store_valid, Hst.
  - unfold removeSharing, Document_findById. repeat case_scrutinee; simpl; try exact Hst.
    apply save_and_reply_store_valid, Hst.
Qed.

Lemma reachable_store_valid isEmail st : reachable isEmail st -> store_valid st.
Proof.
  induction 1 as [us | r env st req _ IH | st us _ IH].
  - intros id d. simpl. rewrite lookup_empty. discriminate.
  - apply handle_store_valid, IH.
  - exact IH.
Qed.

Lemma existsb_eqb_In (v : string) (l : list string) :
  existsb (fun a => a === v) l = true <-> In v l.
Proof.
  rewrite existsb_exists. split.
  - intros (a & Ha & E). apply String.eqb_eq in E. subst. exact Ha.
  - intros H. exists v. split; [exact H | apply String.eqb_refl].
Qed.

(** X1: whatever requests were served, every stored document passes its
    schema: the title is not empty and at most 100 characters, the
    description is not empty and at most 500, the type is one of the six
    listed, and every share entry is at level view or edit. *)
Theorem reachable_documents_valid
  (isEmail : string -> bool) (st : Store) (id : ObjectId) (d : Document) :
  reachable isEmail st ->
  documents st !! id = Some d ->
  validate_document d = [] /\
  title d <> "" /\ (String.length (title d) <= 100)%nat /\
  description d <> "" /\ (String.length (description d) <= 500)%nat /\
  In (documentType d) documentTypes /\
  forall share, In share (sharedWith d) ->
    accessLevel share = "view" \/ accessLevel share = "edit".
Proof.
  intros Hreach Hd.
  pose proof (reachable_store_valid _ _ Hreach _ _ Hd) as Hvalid.
  split; [exact Hvalid|].
  apply validate_document_nil in Hvalid as (Ht & Hde & Hty & _ & _ & Hs).
  unfold validate_title in Ht. unfold validate_description in Hde.
  unfold validate_documentType in Hty.
  destruct (title d === "") eqn:Et; [discriminate|].
  destruct (description d === "") eqn:Ed; [discriminate|].
  destruct (documentType d === "") eqn:Ety; [discriminate|].
  apply invalid_nil in Ht, Hde, Hty.
  apply String.eqb_neq in Et, Ed.
  apply Nat.leb_le in Ht, Hde. apply existsb_eqb_In in Hty.
  repeat split; auto.
  intros share Hin.
  assert (Hshare : validate_share share = []).
  { clear -Hs Hin. induction (sharedWith d) as [|s l IH]; [destruct Hin|].
    simpl in Hs. apply app_eq_nil in Hs as [Hs1 Hs2].
    destruct Hin as [<-|Hin]; auto. }
  unfold validate_share in Hshare. apply invalid_nil, existsb_eqb_In in Hshare.
  simpl in Hshare. intuition.
Qed.

Lemma reachable_documents_valid_witness :
  validate_document (Sample.shared_passport "view") = [] /\
  In (documentType (Sample.shared_passport "view")) documentTypes.
Proof.
  destruct (reachable_documents_valid Sample.isEmail (Sample.after_share "view")
              "d0c100000000000000000000" (Sample.shared_passport "view")) as (H & _ & _ & _ & _ & Hty & _).
  - apply sample_after_share_reachable.
  - vm_compute. reflexivity.
  - split; [exact H | exact Hty].
Defined.

(** ** Each route writes one document at most *)

Lemma save_and_reply_frame env st id d msg :
  users (store (save_and_reply env st id d msg)) = users st /\
  forall id', id' <> id ->
    documents (store (save_and_reply env st id d msg)) !! id' = documents st !! id'.
Proof.
  destruct (save_and_reply_store env st id d msg) as [-> | [_ ->]]; [auto|].
  simpl. split; [reflexivity|]. intros id' Hne. apply lookup_insert_ne. congruence.
Qed.

Lemma handle_writes_one_document_aux
  (isEmail : string -> bool) (r : Route) (env : Env) (st : Store) (req : Request) :
  users (store (handle isEmail r env st req)) = users st /\
  forall id, id <> written_id r env req ->
    documents (store (handle isEmail r env st req)) !! id = documents st !! id.
Proof.
  destruct r; simpl handle; simpl written_id.
  - unfold uploadDocument, Document_create.
    repeat case_scrutinee; simpl; split; auto.
    intros id Hne. apply lookup_insert_ne. congruence.
  - unfold updateDocument, update_fields, Document_findByIdAndUpdate, Document_findById.
    repeat case_scrutinee; simpl; split; auto;
      intros id Hne; apply lookup_insert_ne; congruence.
  - unfold deleteDocument, Document_findById. repeat case_scrutinee; simpl; split; auto.
    intros id Hne. apply lookup_delete_ne. congruence.
  - unfold shareDocument, Document_findById. repeat case_scrutinee; simpl; try (split; auto; fail).
    apply save_and_reply_frame.
  - unfold updateSharing, Document_findById. repeat case_scrutinee; simpl; try (split; auto; fail).
    apply save_and_reply_frame.
  - unfold removeSharing, Document_findById. repeat case_scrutinee; simpl; try (split; auto; fail).
    apply save_and_reply_frame.
Qed.




(** ** A missing document *)

Lemma missing_document_unchanged
  (isEmail : string -> bool) (r : Route) (env : Env) (st : Store) (req : Request) :
  r <> POST_documents ->
  documents st !! params_id req = None ->
  store (handle isEmail r env st req) = st /\
  effects (handle isEmail r env st req) = [] /\
  ((exists errs, errs <> [] /\
      response (handle isEmail r env st req)
      = {| status := 400; json := validation_failure errs |}) \/
   (isObjectId (params_id req) = true /\
    response (handle isEmail r env st req)
    = {| status := 404; json := failure "Document not found" |}) \/
   (isObjectId (params_id req) = false /\
    response (handle isEmail r env st req)
    = {| status := 500;
         json := server_error (cast_error (params_id req) "Document") |})).
Proof.
  intros Hr Hnone.
  assert (Hfind : Document_findById st (params_id req)
                  = if isObjectId (params_id req) then Null
                    else Threw (cast_error (params_id req) "Document")).
  { unfold Document_findById. rewrite Hnone. reflexivity. }
  destruct r; try contradiction; simpl handle.
  - unfold updateDocument. rewrite Hfind.
    destruct (validate_document_fields req) eqn:E; simpl.
    + destruct (isObjectId (params_id req)); simpl;
        (split; [reflexivity|]; split; [reflexivity|]);
        [right; left | right; right]; split; reflexivity.
    + repeat split. left. eexists. split; [|reflexivity]. discriminate.
  - unfold deleteDocument. rewrite Hfind.
    destruct (isObjectId (params_id req)); simpl;
      (split; [reflexivity|]; split; [reflexivity|]);
      [right; left | right; right]; split; reflexivity.
  - unfold shareDocument. rewrite Hfind.
    destruct (validate_share_request isEmail req) eqn:E; simpl.
    + destruct (isObjectId (params_id req)); simpl;
        (split; [reflexivity|]; split; [reflexivity|]);
        [right; left | right; right]; split; reflexivity.
    + repeat split. left. eexists. split; [|reflexivity]. discriminate.
  - unfold updateSharing. rewrite Hfind.
    destruct (validate_updateSharing req) eqn:E; simpl.
    + destruct (isObjectId (params_id req)); simpl;
        (split; [reflexivity|]; split; [reflexivity|]);
        [right; left | right; right]; split; reflexivity.
    + repeat split. left. eexists. split; [|reflexivity]. discriminate.
  - unfold removeSharing. rewrite Hfind.
    destruct (isObjectId (params_id req)); simpl;
      (split; [reflexivity|]; split; [reflexivity|]);
      [right; left | right; right]; split; reflexivity.
Qed.



(** ** After a delete *)

Lemma run_keeps_missing
  (isEmail : string -> bool) (id : ObjectId) (steps : list Step) (st : Store) :
  documents st !! id = None ->
  (forall env req, In (Serve POST_documents env req) steps -> new_ObjectId env <> id) ->
  documents (run isEmail st steps) !! id = None.
Proof.
  revert st. induction steps as [|[r env req | us] steps IH]; intros st Hnone Hfresh;
    [exact Hnone| |]; cbn [run]; apply IH;
    try (intros env' req' Hin; apply (Hfresh env' req'); right; exact Hin);
    [|exact Hnone].
  destruct (handle_writes_one_document_aux isEmail r env st req) as [_ Hframe].
  destruct (String.eqb_spec id (written_id r env req)) as [Heq | Hne];
    [|rewrite (Hframe id Hne); exact Hnone].
  destruct r;
    try (cbn [written_id] in Heq; subst id;
         match goal with
         | |- documents (store (handle _ ?r _ _ _)) !! _ = None =>
           destruct (missing_document_unchanged isEmail r env st req) as (Hst & _);
           [discriminate | exact Hnone | rewrite Hst; exact Hnone]
         end).
  exfalso. cbn [written_id] in Heq. apply (Hfresh env req); [left; reflexivity | auto].
Qed.

(** X4: a deleted document stays gone.  Once deleteDocument answered 200
    on an ObjectId, the id finds no document after any run of the document
    routes and writes of the users collection in which no upload is handed
    that id again (the database does not reuse one).  A request on it, by
    anyone, then changes nothing on the five writing routes with an [:id]
    and is answered 404 (or 400 by their validators); getDocument and
    getSharedUsers answer 404, and no list of documents holds it. *)
Theorem deleted_document_stays_gone
  (isEmail : string -> bool) (env env' : Env) (st : Store) (req req' : Request)
  (steps : list Step) (r : Route) :
  status (response (deleteDocument env st req)) = 200 ->
  isObjectId (params_id req) = true ->
  (forall env0 req0, In (Serve POST_documents env0 req0) steps ->
                     new_ObjectId env0 <> params_id req) ->
  r <> POST_documents ->
  params_id req' = params_id req ->
  let st' := run isEmail (store (deleteDocument env st req)) steps in
  let out := handle isEmail r env' st' req' in
  documents st' !! params_id req = None /\
  store out = st' /\
  (status (response out) = 404 \/ status (response out) = 400) /\
  answer_status (getDocument st' req') = 404 /\
  answer_status (getSharedUsers st' req') = 404 /\
  (forall p d, ~ In (params_id req, d) (Document_find p st')).
Proof.
  intros H200 Hobj Hfresh Hr Hid st' out.
  assert (Hgone : documents st' !! params_id req = None).
  { subst st'. apply run_keeps_missing; [|exact Hfresh].
    revert H200. unfold deleteDocument, Document_findById.
    repeat case_scrutinee; simpl; try discriminate.
    intros _. apply lookup_delete_eq. }
  split; [exact Hgone|].
  assert (Hlist : forall p d, ~ In (params_id req, d) (Document_find p st')).
  { intros p d Hin. unfold Document_find in Hin.
    apply filter_In in Hin as [Hin _].
    apply list_elem_of_In, elem_of_map_to_list in Hin. congruence. }
  rewrite <- Hid in Hgone, Hobj.
  unfold getDocument, getSharedUsers, Document_findById. rewrite Hgone, Hobj.
  destruct (missing_document_unchanged isEmail r env' st' req' Hr Hgone)
    as (Hst & _ & [(errs & _ & H) | [[_ H] | [Hbad _]]]).
  - subst out. rewrite H. auto 10.
  - subst out. rewrite H. auto 10.
  - rewrite Hobj in Hbad. discriminate.
Qed.

Lemma deleted_document_stays_gone_witness :
  let steps :=
    [ Serve POST_documents (Sample.env_next 350) Sample.upload_request;
      SetUsers [Sample.alice; Sample.bob];
      Serve PUT_share (Sample.env_ok 360)
            (Sample.with_share (Sample.request Sample.alice) "bob@x.com" "view") ] in
  let st' := run Sample.isEmail
               (store (deleteDocument (Sample.env_ok 300) (Sample.after_share "edit")
                         (Sample.request Sample.alice))) steps in
  let out := handle Sample.isEmail DELETE_share (Sample.env_ok 400) st'
               (Sample.request Sample.bob) in
  documents st' !! "d0c100000000000000000000" = None /\ store out = st' /\
  (status (response out) = 404 \/ status (response out) = 400) /\
  answer_status (getDocument st' (Sample.request Sample.bob)) = 404 /\
  answer_status (getSharedUsers st' (Sample.request Sample.bob)) = 404 /\
  (forall p d, ~ In ("d0c100000000000000000000", d) (Document_find p st')).
Proof.
  intros steps.
  apply (deleted_document_stays_gone Sample.isEmail (Sample.env_ok 300)
           (Sample.env_ok 400) (Sample.after_share "edit")
           (Sample.request Sample.alice) (Sample.request Sample.bob) steps DELETE_share).
  - vm_compute. reflexivity.
  - reflexivity.
  - intros env0 req0 [H | [H | [H | []]]]; try discriminate H.
    injection H as <- _. discriminate.
  - discriminate.
  - reflexivity.
Defined.

(** ** Changing and removing a share *)

Lemma findIndex_user_None (u : ObjectId) (l : list ShareEntry) :
  findIndex (fun share => user share === u) l = None <-> ~ In u (map user l).
Proof.
  rewrite findIndex_None. split.
  - intros H Hin. apply in_map_iff in Hin as (s & Hs & Hin).
    apply H in Hin. rewrite Hs, String.eqb_refl in Hin. discriminate.
  - intros H s Hin. apply String.eqb_neq. intros Hs. apply H.
    apply in_map_iff. eauto.
Qed.

(** With one entry per user, changing the first match changes every match. *)
Lemma alter_first_match (lvl : string) (u : ObjectId) (l : list ShareEntry) (i : nat) :
  findIndex (fun share => user share === u) l = Some i ->
  List.NoDup (map user l) ->
  alter (set_accessLevel lvl) i l
  = map (fun s => if user s === u then set_accessLevel lvl s else s) l.
Proof.
  revert i. induction l as [|x l IH]; intros i; cbn [findIndex]; [discriminate|].
  intros Hi Hnd. inversion Hnd as [|? ? Hx Hl]; subst.
  destruct (user x === u) eqn:E.
  - injection Hi as <-. cbn [map]. rewrite E. simpl. f_equal.
    apply String.eqb_eq in E. subst u.
    symmetry. rewrite <- (map_id l) at 2. apply map_ext_in.
    intros s Hs. destruct (user s === user x) eqn:E'; [|reflexivity].
    apply String.eqb_eq in E'. exfalso. apply Hx. rewrite <- E'.
    apply in_map, Hs.
  - destruct (findIndex _ l) as [j|] eqn:Hj; simpl in Hi; [|discriminate].
    injection Hi as <-. cbn [map]. rewrite E. simpl. f_equal. apply IH; auto.
Qed.

(** With one entry per user, removing the first match removes every match. *)
Lemma splice1_first_match (u : ObjectId) (l : list ShareEntry) (i : nat) :
  findIndex (fun share => user share === u) l = Some i ->
  List.NoDup (map user l) ->
  splice1 i l = List.filter (fun s => negb (user s === u)) l.
Proof.
  unfold splice1. revert i.
  induction l as [|x l IH]; intros i; cbn [findIndex]; [discriminate|].
  intros Hi Hnd. inversion Hnd as [|? ? Hx Hl]; subst.
  destruct (user x === u) eqn:E.
  - injection Hi as <-. cbn [List.filter]. rewrite E. simpl.
    apply String.eqb_eq in E. subst u.
    symmetry. apply forallb_filter_id. apply forallb_forall.
    intros s Hs. apply negb_true_iff, String.eqb_neq. intros E'.
    apply Hx. rewrite <- E'. apply in_map, Hs.
  - destruct (findIndex _ l) as [j|] eqn:Hj; simpl in Hi; [|discriminate].
    injection Hi as <-. cbn [List.filter]. rewrite E. simpl. f_equal. apply IH; auto.
Qed.

Lemma findIndex_user_Some (u : ObjectId) (l : list ShareEntry) :
  In u (map user l) -> exists i, findIndex (fun share => user share === u) l = Some i.
Proof.
  intros Hin. destruct (findIndex _ l) eqn:E; [eauto|].
  apply findIndex_user_None in E. contradiction.
Qed.

(** X5: the owner's modify (updateSharing) and revoke (removeSharing) of a
    user who holds no entry are answered 404 "Document not shared with this
    user" and change nothing. *)
Theorem unshared_target_404 (env : Env) (st : Store) (req : Request) (d : Document) :
  documents st !! params_id req = Some d ->
  owner d = User._id (req_user req) ->
  ~ In (params_userId req) (shared_users d) ->
  removeSharing env st req
  = reply st [] 404 (failure "Document not shared with this user") /\
  (validate_updateSharing req = [] ->
   updateSharing env st req
   = reply st [] 404 (failure "Document not shared with this user")).
Proof.
  intros Hd Hown Hnot. apply neqb_false in Hown. apply findIndex_user_None in Hnot.
  split.
  - unfold removeSharing, Document_findById. rewrite Hd, Hown, Hnot. reflexivity.
  - intros Hval. unfold updateSharing, Document_findById. rewrite (passed _ Hval), Hd, Hown, Hnot.
    reflexivity.
Qed.

Lemma unshared_target_404_witness :
  status (response (removeSharing (Sample.env_ok 300) Sample.after_upload
                      (Sample.request Sample.alice))) = 404.
Proof.
  destruct (unshared_target_404 (Sample.env_ok 300) Sample.after_upload
              (Sample.request Sample.alice) Sample.passport) as [H _].
  - vm_compute. reflexivity.
  - reflexivity.
  - simpl. tauto.
  - rewrite H. reflexivity.
Defined.

Lemma set_sharedWith_valid (d : Document) (l : list ShareEntry) :
  validate_document d = [] ->
  flat_map validate_share l = [] ->
  validate_document (set_sharedWith d l) = [].
Proof.
  intros Hd Hl. apply validate_document_nil in Hd as (? & ? & ? & ? & ? & _).
  apply validate_document_nil. cbn [set_sharedWith title description documentType
    fileUrl publicId sharedWith]. repeat split; assumption.
Qed.


Lemma validate_updateSharing_level req :
  validate_updateSharing req = [] ->
  existsb (fun a => a === str (body_accessLevel req)) accessLevels = true.
Proof.
  unfold validate_updateSharing. intros H. apply check_nil in H. exact H.
Qed.




(** ** Who may update the fields *)

Lemma find_edit_None (uid : ObjectId) (l : list ShareEntry) :
  find_ (fun share => (user share === uid) && (accessLevel share === "edit")) l = None
  <-> forall share, In share l -> user share = uid -> accessLevel share <> "edit".
Proof.
  unfold find_. split.
  - intros H share Hin Hu Hl. apply (find_none _ _ H) in Hin.
    rewrite Hu, Hl, !String.eqb_refl in Hin. discriminate.
  - intros H. destruct (List.find _ l) as [share|] eqn:E; [|reflexivity].
    apply find_some in E as [Hin E]. apply andb_true_iff in E as [Eu El].
    apply String.eqb_eq in Eu, El. exfalso. exact (H share Hin Eu El).
Qed.

Lemma updateDocument_403 env st req d :
  validate_document_fields req = [] ->
  documents st !! params_id req = Some d ->
  owner d <> User._id (req_user req) ->
  (forall share, In share (sharedWith d) ->
     user share = User._id (req_user req) -> accessLevel share <> "edit") ->
  updateDocument env st req
  = reply st [] 403 (failure "Not authorized to update this document").
Proof.
  intros Hval Hd Hown Hnone. unfold updateDocument, Document_findById.
  apply neqb_true in Hown. apply find_edit_None in Hnone.
  rewrite (passed _ Hval), Hd, Hown, Hnone. reflexivity.
Qed.

Lemma updateDocument_200 env st req d :
  validate_document_fields req = [] ->
  validate_update (str (body_title req)) (str (body_description req))
                  (str (body_documentType req)) = [] ->
  documents st !! params_id req = Some d ->
  owner d = User._id (req_user req) \/ holds_edit (User._id (req_user req)) d ->
  status (response (updateDocument env st req)) = 200.
Proof.
  intros Hval Hschema Hd Hmay. unfold updateDocument, Document_findById.
  rewrite (passed _ Hval), Hd.
  destruct (owner d !== User._id (req_user req)) eqn:Hown.
  - destruct Hmay as [Heq | (share & Hin & Hu & Hl)].
    + apply neqb_true in Hown. contradiction.
    + destruct (find_ _ (sharedWith d)) eqn:Hfind.
      * rewrite (update_fields_valid env st req d Hd Hschema). reflexivity.
      * exfalso. eapply find_edit_None; eauto.
  - rewrite (update_fields_valid env st req d Hd Hschema). reflexivity.
Qed.

(** X7: for a request whose three fields pass the route and the schema
    validators, updateDocument on an existing document answers 200 exactly
    when the requester is the owner or holds an entry at level edit, and
    403 otherwise: a view entry, like no entry, gives no right to update. *)
Theorem updateDocument_authorization
  (env : Env) (st : Store) (req : Request) (d : Document) :
  validate_document_fields req = [] ->
  validate_update (str (body_title req)) (str (body_description req))
                  (str (body_documentType req)) = [] ->
  documents st !! params_id req = Some d ->
  let out := updateDocument env st req in
  (owner d = User._id (req_user req) \/ holds_edit (User._id (req_user req)) d ->
   status (response out) = 200) /\
  (~ (owner d = User._id (req_user req) \/ holds_edit (User._id (req_user req)) d) ->
   out = reply st [] 403 (failure "Not authorized to update this document")) /\
  (status (response out) = 200 \/ status (response out) = 403).
Proof.
  intros Hval Hschema Hd out. subst out.
  assert (Hno : ~ (owner d = User._id (req_user req) \/
                   holds_edit (User._id (req_user req)) d) ->
                updateDocument env st req
                = reply st [] 403 (failure "Not authorized to update this document")).
  { intros Hnot. apply (updateDocument_403 env st req d Hval Hd).
    - intros Heq. apply Hnot. left. exact Heq.
    - intros share Hin Hu Hl. apply Hnot. right. exists share. auto. }
  split; [|split].
  - apply updateDocument_200; assumption.
  - exact Hno.
  - destruct (String.eqb_spec (owner d) (User._id (req_user req))) as [Heq|Hne].
    + left. apply (updateDocument_200 env st req d); auto.
    + destruct (find_ (fun share => (user share === User._id (req_user req))
                                    && (accessLevel share === "edit"))
                      (sharedWith d)) as [share|] eqn:Hfind.
      * left. apply (updateDocument_200 env st req d); auto. right.
        unfold find_ in Hfind. apply find_some in Hfind as [Hin E].
        apply andb_true_iff in E as [Eu El]. apply String.eqb_eq in Eu, El.
        exists share. auto.
      * right. rewrite Hno; [reflexivity|].
        intros [Heq | (share & Hin & Hu & Hl)]; [contradiction|].
        eapply find_edit_None; eauto.
Qed.

Lemma updateDocument_authorization_witness :
  let req := Sample.with_fields (Sample.request Sample.bob)
               "Passport (renewed)" "all pages" "Passport" in
  status (response (updateDocument (Sample.env_ok 300) (Sample.after_share "edit") req))
  = 200 /\
  status (response (updateDocument (Sample.env_ok 300) (Sample.after_share "view") req))
  = 403.
Proof.
  intros req. split.
  - apply (updateDocument_authorization (Sample.env_ok 300) (Sample.after_share "edit")
             req (Sample.shared_passport "edit")).
    + vm_compute. reflexivity.
    + vm_compute. reflexivity.
    + vm_compute. reflexivity.
    + right. exists {| user := "b0b000000000000000000000"; accessLevel := "edit"; sharedAt := 200 |}.
      simpl. auto.
  - destruct (updateDocument_authorization (Sample.env_ok 300)
                (Sample.after_share "view") req (Sample.shared_passport "view"))
      as (_ & Hno & _).
    + vm_compute. reflexivity.
    + vm_compute. reflexivity.
    + vm_compute. reflexivity.
    + rewrite Hno; [reflexivity|].
      intros [Heq | (share & [<- | []] & _ & Hl)]; discriminate.
Defined.

(** ** What modify and revoke do to the list *)

Lemma updateSharing_hit env st req d i :
  validate_updateSharing req = [] ->
  validate_document d = [] ->
  documents st !! params_id req = Some d ->
  owner d = User._id (req_user req) ->
  findIndex (fun share => user share === params_userId req) (sharedWith d) = Some i ->
  let d' := pre_save env
              (set_sharedWith d
                 (alter (set_accessLevel (str (body_accessLevel req))) i (sharedWith d))) in
  updateSharing env st req
  = reply (set_documents st (<[params_id req := d']> (documents st)))
          [DocumentUpdate (params_id req)] 200
          (with_data (Some "Sharing permissions updated")
                     (DataDocument (params_id req) d')).
Proof.
  intros Hval Hvalid Hd Hown Hi. unfold updateSharing, Document_findById.
  apply neqb_false in Hown. rewrite (passed _ Hval), Hd, Hown, Hi.
  apply save_and_reply_valid, set_sharedWith_valid; [exact Hvalid|].
  apply validate_shares_alter.
  - apply validate_updateSharing_level, Hval.
  - apply validate_document_nil in Hvalid. tauto.
Qed.

Lemma removeSharing_hit env st req d i :
  validate_document d = [] ->
  documents st !! params_id req = Some d ->
  owner d = User._id (req_user req) ->
  findIndex (fun share => user share === params_userId req) (sharedWith d) = Some i ->
  let d' := pre_save env (set_sharedWith d (splice1 i (sharedWith d))) in
  removeSharing env st req
  = reply (set_documents st (<[params_id req := d']> (documents st)))
          [DocumentUpdate (params_id req)] 200
          (with_data (Some "Sharing removed") (DataDocument (params_id req) d')).
Proof.
  intros Hvalid Hd Hown Hi. unfold removeSharing, Document_findById.
  apply neqb_false in Hown. rewrite Hd, Hown, Hi.
  apply save_and_reply_valid, set_sharedWith_valid; [exact Hvalid|].
  apply validate_shares_splice1. apply validate_document_nil in Hvalid. tauto.
Qed.

(** X8: on a reachable store, the owner's updateSharing for a user who
    holds an entry answers 200 and rewrites that user's entry to the level
    asked for, in place: same position, same sharedAt, every other entry
    and every other field but updatedAt untouched. *)
Theorem updateSharing_rewrites_level
  (isEmail : string -> bool) (env : Env) (st : Store) (req : Request) (d : Document) :
  reachable isEmail st ->
  validate_updateSharing req = [] ->
  documents st !! params_id req = Some d ->
  owner d = User._id (req_user req) ->
  In (params_userId req) (shared_users d) ->
  let out := updateSharing env st req in
  status (response out) = 200 /\
  exists d',
    documents (store out) !! params_id req = Some d' /\
    sharedWith d'
    = map (fun s => if user s === params_userId req
                    then {| user := user s; accessLevel := str (body_accessLevel req);
                            sharedAt := sharedAt s |}
                    else s) (sharedWith d) /\
    d' = pre_save env (set_sharedWith d (sharedWith d')).
Proof.
  intros Hreach Hval Hd Hown Hin out. subst out.
  pose proof (reachable_store_valid _ _ Hreach _ _ Hd) as Hvalid.
  destruct (reachable_well_shared _ _ Hreach _ _ Hd) as [_ Huniq].
  destruct (findIndex_user_Some _ _ Hin) as [i Hi].
  rewrite (updateSharing_hit env st req d i Hval Hvalid Hd Hown Hi).
  split; [reflexivity|]. eexists. split; [apply lookup_insert_eq|].
  cbn [pre_save set_sharedWith sharedWith].
  split; [|reflexivity].
  apply (alter_first_match _ _ _ _ Hi Huniq).
Qed.

Lemma updateSharing_rewrites_level_witness :
  let out := updateSharing (Sample.env_ok 300) (Sample.after_share "view")
               (Sample.with_share (Sample.request Sample.alice) "bob@x.com" "edit") in
  status (response out) = 200 /\
  exists d', documents (store out) !! "d0c100000000000000000000" = Some d' /\
    sharedWith d' = [{| user := "b0b000000000000000000000"; accessLevel := "edit"; sharedAt := 200 |}].
Proof.
  intros out.
  destruct (updateSharing_rewrites_level Sample.isEmail (Sample.env_ok 300)
              (Sample.after_share "view")
              (Sample.with_share (Sample.request Sample.alice) "bob@x.com" "edit")
              (Sample.shared_passport "view")) as (H200 & d' & Hd' & Hl & _).
  - apply sample_after_share_reachable.
  - vm_compute. reflexivity.
  - vm_compute. reflexivity.
  - reflexivity.
  - simpl. auto.
  - split; [exact H200|]. exists d'. split; [exact Hd'|]. rewrite Hl. reflexivity.
Defined.

(** X9: after the owner's successful updateSharing on a reachable store,
    the target's right to update the fields is the level just set: a valid
    updateDocument by the target answers 200 if the level is edit and 403
    if it is view, whatever the level was before. *)
Theorem updateSharing_decides_edit_right
  (isEmail : string -> bool) (env env' : Env) (st : Store) (req req' : Request)
  (d : Document) :
  reachable isEmail st ->
  validate_updateSharing req = [] ->
  documents st !! params_id req = Some d ->
  owner d = User._id (req_user req) ->
  In (params_userId req) (shared_users d) ->
  params_id req' = params_id req ->
  User._id (req_user req') = params_userId req ->
  validate_document_fields req' = [] ->
  validate_update (str (body_title req')) (str (body_description req'))
                  (str (body_documentType req')) = [] ->
  let st' := store (updateSharing env st req) in
  status (response (updateDocument env' st' req'))
  = if str (body_accessLevel req) === "edit" then 200 else 403.
Proof.
  intros Hreach Hval Hd Hown Hin Hid Huser Hval' Hschema st'. subst st'.
  pose proof (reachable_store_valid _ _ Hreach _ _ Hd) as Hvalid.
  destruct (reachable_well_shared _ _ Hreach _ _ Hd) as [Hnotowner Huniq].
  destruct (findIndex_user_Some _ _ Hin) as [i Hi].
  rewrite (updateSharing_hit env st req d i Hval Hvalid Hd Hown Hi).
  cbn [store reply].
  set (lvl := str (body_accessLevel req)).
  set (l' := alter (set_accessLevel lvl) i (sharedWith d)).
  set (d' := pre_save env (set_sharedWith d l')).
  set (st' := set_documents st (<[params_id req := d']> (documents st))).
  assert (Hd' : documents st' !! params_id req' = Some d').
  { rewrite Hid. apply lookup_insert_eq. }
  assert (Hl' : l' = map (fun s => if user s === params_userId req
                                   then set_accessLevel lvl s else s) (sharedWith d))
    by apply (alter_first_match _ _ _ _ Hi Huniq).
  assert (Hstranger : owner d' <> User._id (req_user req')).
  { cbn. rewrite Huser. intros Heq. apply Hnotowner. rewrite Heq. exact Hin. }
  destruct (lvl === "edit") eqn:Hlvl.
  - apply String.eqb_eq in Hlvl.
    apply (updateDocument_200 env' st' req' d' Hval' Hschema Hd'). right.
    apply in_map_iff in Hin as (s & Hs & Hsin).
    exists (set_accessLevel lvl s). cbn [d' pre_save set_sharedWith sharedWith].
    split; [|split; [cbn; congruence | exact Hlvl]].
    rewrite Hl'. apply in_map_iff. exists s. rewrite Hs, String.eqb_refl. auto.
  - apply String.eqb_neq in Hlvl.
    rewrite (updateDocument_403 env' st' req' d' Hval' Hd' Hstranger); [reflexivity|].
    cbn [d' pre_save set_sharedWith sharedWith]. rewrite Hl'.
    intros share Hshare Hu. apply in_map_iff in Hshare as (s & <- & Hsin).
    destruct (user s === params_userId req) eqn:E; [exact Hlvl|].
    apply String.eqb_neq in E. rewrite Huser in Hu. contradiction.
Qed.

Lemma updateSharing_decides_edit_right_witness :
  let bob_updates := Sample.with_fields (Sample.request Sample.bob)
                       "Passport (renewed)" "all pages" "Passport" in
  let modify lvl := Sample.with_share (Sample.request Sample.alice) "bob@x.com" lvl in
  status (response (updateDocument (Sample.env_ok 400)
                      (store (updateSharing (Sample.env_ok 300)
                                (Sample.after_share "view") (modify "edit")))
                      bob_updates)) = 200 /\
  status (response (updateDocument (Sample.env_ok 400)
                      (store (updateSharing (Sample.env_ok 300)
                                (Sample.after_share "edit") (modify "view")))
                      bob_updates)) = 403.
Proof.
  intros bob_updates modify. split.
  - apply (updateSharing_decides_edit_right Sample.isEmail (Sample.env_ok 300)
             (Sample.env_ok 400) (Sample.after_share "view") (modify "edit")
             bob_updates (Sample.shared_passport "view")).
    + apply sample_after_share_reachable.
    + vm_compute. reflexivity.
    + vm_compute. reflexivity.
    + reflexivity.
    + simpl. auto.
    + reflexivity.
    + reflexivity.
    + vm_compute. reflexivity.
    + vm_compute. reflexivity.
  - apply (updateSharing_decides_edit_right Sample.isEmail (Sample.env_ok 300)
             (Sample.env_ok 400) (Sample.after_share "edit") (modify "view")
             bob_updates (Sample.shared_passport "edit")).
    + apply sample_after_share_reachable.
    + vm_compute. reflexivity.
    + vm_compute. reflexivity.
    + reflexivity.
    + simpl. auto.
    + reflexivity.
    + reflexivity.
    + vm_compute. reflexivity.
    + vm_compute. reflexivity.
Defined.

(** X10: on a reachable store, the owner's removeSharing of a user who
    holds an entry answers 200 and leaves the list without any entry of
    that user, every other entry kept in order; from then on a valid
    updateDocument by that user is answered 403. *)
Theorem removeSharing_revokes
  (isEmail : string -> bool) (env env' : Env) (st : Store) (req req' : Request)
  (d : Document) :
  reachable isEmail st ->
  documents st !! params_id req = Some d ->
  owner d = User._id (req_user req) ->
  In (params_userId req) (shared_users d) ->
  let out := removeSharing env st req in
  status (response out) = 200 /\
  (exists d',
     documents (store out) !! params_id req = Some d' /\
     sharedWith d'
     = List.filter (fun s => negb (user s === params_userId req)) (sharedWith d) /\
     ~ In (params_userId req) (shared_users d') /\
     d' = pre_save env (set_sharedWith d (sharedWith d'))) /\
  (params_id req' = params_id req ->
   User._id (req_user req') = params_userId req ->
   validate_document_fields req' = [] ->
   updateDocument env' (store out) req'
   = reply (store out) [] 403 (failure "Not authorized to update this document")).
Proof.
  intros Hreach Hd Hown Hin out. subst out.
  pose proof (reachable_store_valid _ _ Hreach _ _ Hd) as Hvalid.
  destruct (reachable_well_shared _ _ Hreach _ _ Hd) as [Hnotowner Huniq].
  destruct (findIndex_user_Some _ _ Hin) as [i Hi].
  rewrite (removeSharing_hit env st req d i Hvalid Hd Hown Hi).
  cbn [store response reply status].
  pose proof (splice1_first_match _ _ _ Hi Huniq) as Hl'.
  set (d' := pre_save env (set_sharedWith d (splice1 i (sharedWith d)))) in *.
  assert (Hgone : ~ In (params_userId req) (shared_users d')).
  { unfold shared_users. cbn [d' pre_save set_sharedWith sharedWith]. rewrite Hl'.
    intros H. apply in_map_iff in H as (s & Hs & Hsin).
    apply filter_In in Hsin as [_ E]. rewrite Hs, String.eqb_refl in E. discriminate. }
  split; [reflexivity|]. split.
  - exists d'. split; [apply lookup_insert_eq|]. split; [exact Hl'|].
    split; [exact Hgone | reflexivity].
  - intros Hid Huser Hval'.
    apply (updateDocument_403 env' _ req' d' Hval').
    + rewrite Hid. apply lookup_insert_eq.
    + cbn. rewrite Huser. intros Heq. apply Hnotowner. rewrite Heq. exact Hin.
    + intros share Hshare Hu _. apply Hgone. rewrite <- Huser, <- Hu.
      apply in_map, Hshare.
Qed.

Lemma removeSharing_revokes_witness :
  let out := removeSharing (Sample.env_ok 300) (Sample.after_share "edit")
               (Sample.request Sample.alice) in
  status (response out) = 200 /\
  status (response (updateDocument (Sample.env_ok 400) (store out)
                      (Sample.with_fields (Sample.request Sample.bob)
                         "Passport (renewed)" "all pages" "Passport"))) = 403.
Proof.
  intros out.
  destruct (removeSharing_revokes Sample.isEmail (Sample.env_ok 300) (Sample.env_ok 400)
              (Sample.after_share "edit") (Sample.request Sample.alice)
              (Sample.with_fields (Sample.request Sample.bob)
                 "Passport (renewed)" "all pages" "Passport")
              (Sample.shared_passport "edit")) as (H200 & _ & H403).
  - apply sample_after_share_reachable.
  - vm_compute. reflexivity.
  - reflexivity.
  - simpl. auto.
  - split; [exact H200|]. subst out. rewrite H403; [reflexivity | reflexivity | reflexivity |].
    vm_compute. reflexivity.
Defined.

(** ** Grant, then revoke *)

Lemma findIndex_pushed (e : ShareEntry) (l : list ShareEntry) :
  ~ In (user e) (map user l) ->
  findIndex (fun share => user share === user e) (l ++ [e]) = Some (length l).
Proof.
  induction l as [|x l IH]; cbn [findIndex app length map]; intros H.
  - rewrite String.eqb_refl. reflexivity.
  - destruct (user x === user e) eqn:E.
    + apply String.eqb_eq in E. exfalso. apply H. left. exact E.
    + rewrite IH; [reflexivity|]. intros Hin. apply H. right. exact Hin.
Qed.

Lemma splice1_pushed {A} (e : A) (l : list A) : splice1 (length l) (l ++ [e]) = l.
Proof.
  unfold splice1. induction l as [|x l IH]; simpl; [reflexivity|].
  f_equal. exact IH.
Qed.

(** X11: a grant undone is as if it had not been: when shareDocument
    answered 200 and the owner then asks removeSharing for the user just
    added, the answer is 200 and the stored document is the one before
    the grant, up to updatedAt. *)
Theorem grant_then_revoke_restores
  (isEmail : string -> bool) (env env' : Env) (st : Store) (req req' : Request)
  (d : Document) (u : User.t) :
  documents st !! params_id req = Some d ->
  User_findOne st (str (body_email req)) = Some u ->
  let granted := shareDocument isEmail env st req in
  status (response granted) = 200 ->
  params_id req' = params_id req ->
  req_user req' = req_user req ->
  params_userId req' = User._id u ->
  let revoked := removeSharing env' (store granted) req' in
  status (response revoked) = 200 /\
  documents (store revoked) !! params_id req = Some (pre_save env' d) /\
  users (store revoked) = users st.
Proof.
  intros Hd Hu granted H200 Hid Huser Htarget revoked. subst granted revoked.
  destruct (shareDocument_200 _ _ _ _ H200)
    as (d0 & u0 & Hval & Hd0 & Hown & Hu0 & _ & Hnew & Hst).
  rewrite Hd in Hd0. injection Hd0 as <-. rewrite Hu in Hu0. injection Hu0 as <-.
  assert (Hsaved : validate_document
                     (set_sharedWith d
                        (sharedWith d ++
                         [{| user := User._id u; accessLevel := str (body_accessLevel req);
                             sharedAt := Date_now env |}])) = []).
  { revert H200. unfold shareDocument, Document_findById.
    rewrite (passed _ Hval), Hd. apply neqb_false in Hown. rewrite Hown, Hu.
    repeat case_scrutinee; simpl; try discriminate.
    unfold save_and_reply, Document_save.
    destruct (validate_document _); simpl; [reflexivity | discriminate]. }
  rewrite Hst.
  set (e := {| user := User._id u; accessLevel := str (body_accessLevel req);
               sharedAt := Date_now env |}) in *.
  set (d1 := pre_save env (set_sharedWith d (sharedWith d ++ [e]))).
  set (st1 := set_documents st (<[params_id req := d1]> (documents st))).
  assert (Hi : findIndex (fun share => user share === params_userId req')
                         (sharedWith d1) = Some (length (sharedWith d))).
  { rewrite Htarget. apply (findIndex_pushed e). exact Hnew. }
  rewrite (removeSharing_hit env' st1 req' d1 (length (sharedWith d))).
  - cbn [store response reply status]. split; [reflexivity|]. split; [|reflexivity].
    rewrite Hid. cbn [st1 set_documents documents]. rewrite lookup_insert_eq.
    f_equal. cbn [d1 pre_save set_sharedWith sharedWith].
    rewrite splice1_pushed. destruct d; reflexivity.
  - exact Hsaved.
  - rewrite Hid. apply lookup_insert_eq.
  - rewrite Huser. exact Hown.
  - exact Hi.
Qed.

Lemma grant_then_revoke_restores_witness :
  let granted := shareDocument Sample.isEmail (Sample.env_ok 200) Sample.after_upload
                   (Sample.share_request "view") in
  let revoked := removeSharing (Sample.env_ok 300) (store granted)
                   (Sample.request Sample.alice) in
  status (response revoked) = 200 /\
  documents (store revoked) !! "d0c100000000000000000000"
  = Some (pre_save (Sample.env_ok 300) Sample.passport) /\
  users (store revoked) = users Sample.after_upload.
Proof.
  apply (grant_then_revoke_restores Sample.isEmail (Sample.env_ok 200)
           (Sample.env_ok 300) Sample.after_upload (Sample.share_request "view")
           (Sample.request Sample.alice) Sample.passport (User_project Sample.bob)).
  - vm_compute. reflexivity.
  - vm_compute. reflexivity.
  - vm_compute. reflexivity.
  - reflexivity.
  - reflexivity.
  - reflexivity.
Defined.

(** ** A type the schema does not list *)

(** X12: a documentType outside the schema's list passes the route
    validators (they only ask for a non-empty value) and is refused by the
    schema.  uploadDocument has by then uploaded the file: it answers 500
    "Failed to upload file to cloud storage" with no record created and
    the cloudinary object left behind; updateDocument by the owner answers
    500 "Server error".  Neither changes the store. *)
Theorem unlisted_documentType_500
  (env : Env) (st : Store) (req : Request) (ty : string) :
  validate_document_fields req = [] ->
  body_documentType req = Some ty ->
  ~ In ty documentTypes ->
  (forall path result,
     file req = Some path ->
     cloudinary_uploader_upload env path = inr result ->
     let out := uploadDocument env st req in
     status (response out) = 500 /\
     message (json (response out)) = Some "Failed to upload file to cloud storage" /\
     store out = st /\
     effects out = [CloudinaryUpload path]) /\
  (forall d,
     documents st !! params_id req = Some d ->
     owner d = User._id (req_user req) ->
     let out := updateDocument env st req in
     status (response out) = 500 /\
     message (json (response out)) = Some "Server error" /\
     store out = st /\
     effects out = []).
Proof.
  intros Hval Hty Hnot.
  assert (Hbad : validate_documentType ty <> []).
  { unfold validate_documentType. destruct (ty === ""); [discriminate|].
    intros H. apply invalid_nil, existsb_eqb_In in H. contradiction. }
  split.
  - intros path result Hfile Hup out. subst out. unfold uploadDocument.
    rewrite (passed _ Hval), Hfile, Hup. unfold Document_create.
    destruct (validate_document _) eqn:E; [|simpl; auto].
    apply validate_document_nil in E as (_ & _ & E & _).
    cbn [documentType] in E. rewrite Hty in E. contradiction.
  - intros d Hd Hown out. subst out. unfold updateDocument, Document_findById.
    apply neqb_false in Hown. rewrite (passed _ Hval), Hd, Hown.
    unfold update_fields, Document_findByIdAndUpdate.
    destruct (validate_update _ _ _) eqn:E; [|simpl; auto].
    apply validate_update_nil in E as (_ & _ & E).
    rewrite Hty in E. contradiction.
Qed.

Lemma unlisted_documentType_500_witness :
  let req := Sample.with_file
               (Sample.with_fields (Sample.request Sample.alice) "Visa" "page 1" "Visa")
               "uploads/3.pdf" in
  effects (uploadDocument (Sample.env_ok 100) Sample.empty_store req)
  = [CloudinaryUpload "uploads/3.pdf"] /\
  status (response (updateDocument (Sample.env_ok 300) Sample.after_upload req)) = 500.
Proof.
  intros req.
  destruct (unlisted_documentType_500 (Sample.env_ok 100) Sample.empty_store req "Visa")
    as [Hup _].
  - vm_compute. reflexivity.
  - reflexivity.
  - vm_compute. intuition discriminate.
  - destruct (unlisted_documentType_500 (Sample.env_ok 300) Sample.after_upload req "Visa")
      as [_ Hput].
    + vm_compute. reflexivity.
    + reflexivity.
    + vm_compute. intuition discriminate.
    + split.
      * apply (Hup "uploads/3.pdf"
                 {| secure_url := "https://res.cloudinary.com/uploads/3.pdf";
                    public_id := "secure-doc-share/uploads/3.pdf" |});
          reflexivity.
      * apply (Hput Sample.passport); [vm_compute|]; reflexivity.
Defined.

(** * Properties of the reading handlers *)

#[local] Arguments existsb : simpl nomatch.

Lemma populate_id st id su : populate st id = Some su -> summary_id su = id.
Proof.
  unfold populate. destruct (List.find _ (users st)) as [u|] eqn:E; [|discriminate].
  intros [= <-]. apply find_some in E as [_ E]. apply String.eqb_eq in E. exact E.
Qed.

Lemma populate_of_findById st id u :
  User_findById st id = Some u -> populate st id = Some (summarize u).
Proof.
  unfold User_findById, populate.
  destruct (List.find _ (users st)) as [v|]; [|discriminate].
  intros [= <-]. reflexivity.
Qed.

(** The populated test of getDocument against the raw one of getSharedUsers. *)
Lemma isShared_populated st uid (l : list ShareEntry) :
  existsb (fun share => match populate st (user share) with
                        | Some su => summary_id su === uid
                        | None => false
                        end) l
  = existsb (fun share => user share === uid) l
    && is_stored st uid.
Proof.
  unfold is_stored.
  induction l as [|s l IH]; cbn [existsb]; [reflexivity|].
  rewrite IH. destruct (user s === uid) eqn:E.
  - apply String.eqb_eq in E. subst uid.
    destruct (populate st (user s)) as [su|] eqn:Hp.
    + rewrite (populate_id _ _ _ Hp), String.eqb_refl. reflexivity.
    + simpl. rewrite andb_false_r. reflexivity.
  - destruct (populate st (user s)) as [su|] eqn:Hp; [|reflexivity].
    rewrite (populate_id _ _ _ Hp), E. reflexivity.
Qed.

Lemma existsb_user_In uid (l : list ShareEntry) :
  existsb (fun share => user share === uid) l = true <-> In uid (map user l).
Proof.
  rewrite existsb_exists, in_map_iff. split.
  - intros (s & Hin & E). apply String.eqb_eq in E. eauto.
  - intros (s & E & Hin). exists s. rewrite E, String.eqb_refl. auto.
Qed.

Lemma getDocument_access_aux (st : Store) (req : Request) (d : Document)
  (own : UserSummary) :
  let uid := User._id (req_user req) in
  documents st !! params_id req = Some d ->
  populate st (owner d) = Some own ->
  (owner d = uid \/ (In uid (shared_users d) /\ populate st uid <> None) ->
   getDocument st req
   = {| answer_status := 200;
        answer_json := JDocument (view st (params_id req) d (owner d === uid)) |}) /\
  (~ (owner d = uid \/ (In uid (shared_users d) /\ populate st uid <> None)) ->
   getDocument st req
   = {| answer_status := 403;
        answer_json := JFailure (failure "Not authorized to access this document") |}).
Proof.
  intros uid Hd Hown. unfold getDocument, Document_findById. rewrite Hd, Hown.
  rewrite (populate_id _ _ _ Hown), isShared_populated. fold uid.
  split.
  + intros [Heq | [Hin Hexists]].
    * rewrite Heq, String.eqb_refl. reflexivity.
    * apply existsb_user_In in Hin. rewrite Hin. unfold is_stored.
      destruct (populate st uid); [|contradiction].
      simpl. rewrite andb_false_r. reflexivity.
  + intros Hnot.
    destruct (owner d === uid) eqn:E.
    { apply String.eqb_eq in E. exfalso. apply Hnot. auto. }
    destruct (existsb _ (sharedWith d)) eqn:Es; [|reflexivity].
    unfold is_stored.
    destruct (populate st uid) eqn:Hp; [|reflexivity].
    exfalso. apply Hnot. right. split; [apply existsb_user_In, Es | discriminate].
Qed.



(** X14: getSharedUsers and getDocument admit the same requesters: for a
    requester who is a stored user, the two answer with the same status
    on every document. *)
Theorem getSharedUsers_admits_as_getDocument (st : Store) (req : Request) :
  populate st (User._id (req_user req)) <> None ->
  answer_status (getSharedUsers st req) = answer_status (getDocument st req).
Proof.
  intros Hme. unfold getSharedUsers, getDocument, Document_findById.
  destruct (documents st !! params_id req) as [d|];
    [|destruct (isObjectId (params_id req)); reflexivity].
  destruct (populate st (owner d)) as [own|]; [|reflexivity].
  rewrite isShared_populated. unfold is_stored.
  destruct (populate st (User._id (req_user req))); [|contradiction].
  rewrite andb_true_r.
  destruct (negb _ && negb _); reflexivity.
Qed.

Lemma getSharedUsers_admits_as_getDocument_witness :
  answer_status (getSharedUsers (Sample.after_share "view") (Sample.request Sample.bob))
  = answer_status (getDocument (Sample.after_share "view") (Sample.request Sample.bob)).
Proof.
  apply getSharedUsers_admits_as_getDocument. discriminate.
Defined.

Lemma sharedUsers_entries st (l : list ShareEntry) :
  map entry_of (sharedUsers st l)
  = List.filter (fun share => is_stored st (user share)) l.
Proof.
  unfold is_stored.
  induction l as [|s l IH]; cbn [sharedUsers List.filter]; [reflexivity|].
  destruct (populate st (user s)) as [su|] eqn:Hp; [|exact IH].
  cbn [map]. rewrite IH. f_equal.
  unfold entry_of. cbn. rewrite (populate_id _ _ _ Hp). destruct s; reflexivity.
Qed.

(** X15: when getSharedUsers answers 200, its array is the share list of
    the document in order, with level and date, less the entries whose
    user is no longer stored; each element carries the id, name and email
    of the stored user, and the count is the length of the array. *)
Theorem getSharedUsers_lists_entries (st : Store) (req : Request) (d : Document) :
  documents st !! params_id req = Some d ->
  answer_status (getSharedUsers st req) = 200 ->
  exists l,
    answer_json (getSharedUsers st req) = JSharedUsers (length l) l /\
    map entry_of l
    = List.filter (fun share => is_stored st (user share)) (sharedWith d) /\
    (forall e, In e l -> populate st (summary_id (shared_user e)) = Some (shared_user e)) /\
    ((forall share, In share (sharedWith d) -> populate st (user share) <> None) ->
     map entry_of l = sharedWith d).
Proof.
  intros Hd. unfold getSharedUsers, Document_findById. rewrite Hd.
  destruct (populate st (owner d)) as [own|]; [|discriminate].
  destruct (negb _ && negb _); [discriminate|]. intros _.
  exists (sharedUsers st (sharedWith d)). split; [reflexivity|].
  split; [apply sharedUsers_entries|]. split.
  - generalize (sharedWith d). intros l e. induction l as [|s l IH];
      cbn [sharedUsers]; [intros []|].
    destruct (populate st (user s)) as [su|] eqn:Hp; [|exact IH].
    intros [<- | Hin]; [|auto]. cbn. rewrite (populate_id _ _ _ Hp). exact Hp.
  - intros Hall. rewrite sharedUsers_entries.
    apply forallb_filter_id, forallb_forall. intros share Hin.
    specialize (Hall share Hin). unfold is_stored.
    destruct (populate st (user share)); congruence.
Qed.

Lemma getSharedUsers_lists_entries_witness :
  exists l,
    answer_json (getSharedUsers (Sample.after_share "view") (Sample.request Sample.alice))
    = JSharedUsers (length l) l /\
    map entry_of l = [{| user := "b0b000000000000000000000"; accessLevel := "view"; sharedAt := 200 |}].
Proof.
  destruct (getSharedUsers_lists_entries (Sample.after_share "view")
              (Sample.request Sample.alice) (Sample.shared_passport "view"))
    as (l & Hjson & _ & _ & Hall).
  - vm_compute. reflexivity.
  - vm_compute. reflexivity.
  - exists l. split; [exact Hjson|]. apply Hall.
    intros share [<- | []]. discriminate.
Defined.

Lemma Document_find_In (p : Document -> bool) (st : Store) id d :
  In (id, d) (Document_find p st) <-> documents st !! id = Some d /\ p d = true.
Proof.
  unfold Document_find. rewrite filter_In, <- list_elem_of_In, elem_of_map_to_list.
  reflexivity.
Qed.

(** X16: getMyDocuments returns exactly the documents the requester owns,
    flagged isOwner, and getSharedDocuments exactly those whose share list
    names the requester, flagged not isOwner; each count is the length of
    its array.  On a reachable store the second flag is true to the data:
    no document of the shared list is owned by the requester, so no
    document is in both lists. *)
Theorem document_lists (isEmail : string -> bool) (st : Store) (req : Request) :
  let uid := User._id (req_user req) in
  exists mine shared,
    getMyDocuments st req
    = {| answer_status := 200; answer_json := JDocuments (length mine) mine |} /\
    getSharedDocuments st req
    = {| answer_status := 200; answer_json := JDocuments (length shared) shared |} /\
    (forall v, In v mine <->
       documents st !! view_id v = Some (view_document v) /\
       owner (view_document v) = uid /\
       v = view st (view_id v) (view_document v) true) /\
    (forall v, In v shared <->
       documents st !! view_id v = Some (view_document v) /\
       In uid (shared_users (view_document v)) /\
       v = view st (view_id v) (view_document v) false) /\
    (reachable isEmail st ->
     forall v, In v shared -> owner (view_document v) <> uid /\
       forall v', In v' mine -> view_id v' <> view_id v).
Proof.
  intros uid. unfold getMyDocuments, getSharedDocuments. fold uid.
  set (own := Document_find (fun d => owner d === uid) st).
  set (sh := Document_find
               (fun d => existsb (fun share => user share === uid) (sharedWith d)) st).
  exists (map (fun kd => view st (fst kd) (snd kd) true) own),
         (map (fun kd => view st (fst kd) (snd kd) false) sh).
  rewrite !length_map.
  assert (Hmine : forall v, In v (map (fun kd => view st (fst kd) (snd kd) true) own) <->
       documents st !! view_id v = Some (view_document v) /\
       owner (view_document v) = uid /\
       v = view st (view_id v) (view_document v) true).
  { intros v. rewrite in_map_iff. split.
    - intros ([id d] & <- & Hin). apply Document_find_In in Hin as [Hd E].
      apply String.eqb_eq in E. cbn. auto.
    - intros (Hd & Ho & Hv). exists (view_id v, view_document v). split; [auto|].
      apply Document_find_In. split; [exact Hd|]. apply String.eqb_eq, Ho. }
  assert (Hshared : forall v,
       In v (map (fun kd => view st (fst kd) (snd kd) false) sh) <->
       documents st !! view_id v = Some (view_document v) /\
       In uid (shared_users (view_document v)) /\
       v = view st (view_id v) (view_document v) false).
  { intros v. rewrite in_map_iff. split.
    - intros ([id d] & <- & Hin). apply Document_find_In in Hin as [Hd E].
      apply existsb_user_In in E. cbn. auto.
    - intros (Hd & Ho & Hv). exists (view_id v, view_document v). split; [auto|].
      apply Document_find_In. split; [exact Hd|]. apply existsb_user_In, Ho. }
  split; [reflexivity|]. split; [reflexivity|].
  split; [exact Hmine|]. split; [exact Hshared|].
  intros Hreach v Hv. apply Hshared in Hv as (Hd & Hin & _). split.
  - intros Heq. apply (reachable_well_shared _ _ Hreach _ _ Hd). rewrite Heq. exact Hin.
  - intros v' Hv' Hid. apply Hmine in Hv' as (Hd' & Ho' & _).
    rewrite Hid, Hd in Hd'. injection Hd' as Hsame.
    apply (reachable_well_shared _ _ Hreach _ _ Hd). rewrite <- Hsame in Ho'.
    rewrite Ho'. exact Hin.
Qed.

Lemma document_lists_witness :
  exists mine shared,
    answer_json (getMyDocuments (Sample.after_share "view") (Sample.request Sample.bob))
    = JDocuments 0 mine /\
    answer_json (getSharedDocuments (Sample.after_share "view") (Sample.request Sample.bob))
    = JDocuments 1 shared /\
    forall v, In v shared -> owner (view_document v) <> "b0b000000000000000000000".
Proof.
  destruct (document_lists Sample.isEmail (Sample.after_share "view")
              (Sample.request Sample.bob)) as (mine & shared & Hm & Hs & _ & _ & Hflag).
  exists mine, shared.
  assert (Hlm : length mine = 0%nat).
  { apply (f_equal answer_json) in Hm. vm_compute in Hm. destruct mine; [reflexivity|].
    discriminate Hm. }
  assert (Hls : length shared = 1%nat).
  { apply (f_equal answer_json) in Hs. vm_compute in Hs.
    destruct shared as [|? [|? ?]]; try discriminate Hs. reflexivity. }
  rewrite Hm, Hs. cbn [answer_json]. rewrite Hlm, Hls.
  repeat split.
  intros v Hv. apply (Hflag (sample_after_share_reachable "view") v Hv).
Defined.

(** X17: a grant gives the target read access.  When shareDocument answers
    200 for a document whose owner is a stored user, getDocument by the
    target was refused with 403 before and is answered 200 after, with the
    isOwner flag false. *)
Theorem grant_gives_read_access
  (isEmail : string -> bool) (env : Env) (st : Store) (req req' : Request)
  (d : Document) (u : User.t) :
  documents st !! params_id req = Some d ->
  populate st (owner d) <> None ->
  User_findOne st (str (body_email req)) = Some u ->
  status (response (shareDocument isEmail env st req)) = 200 ->
  params_id req' = params_id req ->
  User._id (req_user req') = User._id u ->
  answer_status (getDocument st req') = 403 /\
  exists d',
    documents (store (shareDocument isEmail env st req)) !! params_id req = Some d' /\
    getDocument (store (shareDocument isEmail env st req)) req'
    = {| answer_status := 200;
         answer_json :=
           JDocument (view (store (shareDocument isEmail env st req))
                           (params_id req) d' false) |}.
Proof.
  intros Hd Howner Hu H200 Hid Huser.
  destruct (shareDocument_200 _ _ _ _ H200)
    as (d0 & u0 & _ & Hd0 & Hown & Hu0 & Hself & Hnew & Hst).
  rewrite Hd in Hd0. injection Hd0 as <-. rewrite Hu in Hu0. injection Hu0 as <-.
  destruct (populate st (owner d)) as [own|] eqn:Hp; [|contradiction].
  assert (Hstored : populate st (User._id u) <> None).
  { destruct (User_findOne_project _ _ _ Hu) as (v & Hfind & -> & _).
    unfold populate. cbn.
    destruct (List.find (fun x => User._id x === User._id v) (users st)) eqn:E;
      [discriminate|].
    apply find_some in Hfind as [Hin _]. apply (find_none _ _ E) in Hin.
    rewrite String.eqb_refl in Hin. discriminate. }
  split.
  - destruct (getDocument_access_aux st req' d own) as [_ Hno].
    + rewrite Hid. exact Hd.
    + exact Hp.
    + rewrite Hno; [reflexivity|]. rewrite Huser.
      intros [Heq | [Hin _]]; [|contradiction].
      apply Hself. rewrite <- Heq. exact Hown.
  - rewrite Hst. eexists. split; [apply lookup_insert_eq|].
    set (d' := pre_save env _).
    set (st' := set_documents st _).
    destruct (getDocument_access_aux st' req' d' own) as [Hyes _].
    + rewrite Hid. apply lookup_insert_eq.
    + exact Hp.
    + rewrite Hid in Hyes. rewrite Hyes.
      * do 2 f_equal. f_equal. cbn [d' pre_save set_sharedWith owner].
        rewrite Huser. apply String.eqb_neq. intros Heq. apply Hself.
        rewrite <- Heq. exact Hown.
      * right. rewrite Huser. split; [|exact Hstored].
        unfold shared_users. cbn [d' pre_save set_sharedWith sharedWith].
        rewrite map_app, in_app_iff. right. simpl. auto.
Qed.

Lemma grant_gives_read_access_witness :
  answer_status (getDocument Sample.after_upload (Sample.request Sample.bob)) = 403 /\
  exists d',
    getDocument (Sample.after_share "view") (Sample.request Sample.bob)
    = {| answer_status := 200;
         answer_json := JDocument (view (Sample.after_share "view") "d0c100000000000000000000" d' false) |}.
Proof.
  destruct (grant_gives_read_access Sample.isEmail (Sample.env_ok 200)
              Sample.after_upload (Sample.share_request "view")
              (Sample.request Sample.bob) Sample.passport (User_project Sample.bob))
    as (H403 & d' & _ & H200).
  - vm_compute. reflexivity.
  - discriminate.
  - vm_compute. reflexivity.
  - vm_compute. reflexivity.
  - reflexivity.
  - reflexivity.
  - split; [exact H403|]. exists d'. exact H200.
Defined.

(** * Properties of the auth controllers *)

(** X18: login never writes: the store is left as it was and nothing
    is performed outside.  For a request that passes the validators, an
    email nobody registered and a wrong password for a verified user are
    answered by the same response, 401 "Invalid credentials"; an unverified
    user is told 401 "Please verify your email before logging in" whatever
    the password. *)
Theorem login_reveals_little
  (isEmail : string -> bool) (jwt_sign : ObjectId -> Z -> string)
  (bcrypt_compare : string -> string -> bool)
  (env : Env) (st : Store) (req : Request) :
  let out := login isEmail jwt_sign bcrypt_compare env st req in
  let invalid_credentials := {| status := 401; json := failure "Invalid credentials" |} in
  store out = st /\ effects out = [] /\
  (validate_login isEmail req = [] ->
   (User_findOne_select_password st (str (body_email req)) = None ->
    response out = invalid_credentials) /\
   (forall u hash,
      User_findOne_select_password st (str (body_email req)) = Some u ->
      User.isVerified u = true ->
      User.password u = Some hash ->
      bcrypt_compare (str (body_password req)) hash = false ->
      response out = invalid_credentials) /\
   (forall u,
      User_findOne_select_password st (str (body_email req)) = Some u ->
      User.isVerified u = false ->
      response out
      = {| status := 401; json := failure "Please verify your email before logging in" |})).
Proof.
  intros out invalid_credentials. subst out invalid_credentials.
  split; [|split].
  - unfold login. repeat case_scrutinee; reflexivity.
  - unfold login. repeat case_scrutinee; reflexivity.
  - intros Hval. unfold login. rewrite (passed _ Hval). split; [|split].
    + intros ->. reflexivity.
    + intros u hash -> Hver Hpw Hno. rewrite Hver. unfold matchPassword.
      rewrite Hpw. cbn [option_map]. rewrite Hno. reflexivity.
    + intros u -> Hver. rewrite Hver. reflexivity.
Qed.

Lemma login_reveals_little_witness :
  let login' := login Sample.isEmail Sample.jwt_sign Sample.bcrypt_compare
                  (Sample.env_ok 500) Sample.empty_store in
  response (login' (Sample.with_password (Sample.request Sample.alice)
                      "nobody@x.com" "wonderland"))
  = response (login' (Sample.with_password (Sample.request Sample.alice)
                        "alice@x.com" "looking-glass")) /\
  status (response (login' (Sample.with_password (Sample.request Sample.carol)
                              "carol@x.com" "singing"))) = 401.
Proof.
  intros login'. subst login'. split.
  - destruct (login_reveals_little Sample.isEmail Sample.jwt_sign Sample.bcrypt_compare
                (Sample.env_ok 500) Sample.empty_store
                (Sample.with_password (Sample.request Sample.alice)
                   "nobody@x.com" "wonderland")) as (_ & _ & H1).
    destruct (H1 ltac:(vm_compute; reflexivity)) as (Hnone & _).
    rewrite (Hnone eq_refl).
    destruct (login_reveals_little Sample.isEmail Sample.jwt_sign Sample.bcrypt_compare
                (Sample.env_ok 500) Sample.empty_store
                (Sample.with_password (Sample.request Sample.alice)
                   "alice@x.com" "looking-glass")) as (_ & _ & H2).
    destruct (H2 ltac:(vm_compute; reflexivity)) as (_ & Hwrong & _).
    rewrite (Hwrong Sample.alice "$2a$07wonderland"); reflexivity.
  - destruct (login_reveals_little Sample.isEmail Sample.jwt_sign Sample.bcrypt_compare
                (Sample.env_ok 500) Sample.empty_store
                (Sample.with_password (Sample.request Sample.carol)
                   "carol@x.com" "singing")) as (_ & _ & H3).
    destruct (H3 ltac:(vm_compute; reflexivity)) as (_ & _ & Hunverified).
    rewrite (Hunverified Sample.carol); reflexivity.
Defined.

(** ** register *)

Lemma find_email_app_new (e : string) (l : list User.t) (u : User.t) :
  List.find (fun x => User.email x === e) l = None ->
  User.email u = e ->
  List.find (fun x => User.email x === e) (l ++ [u])%list = Some u.
Proof.
  intros Hnone Hmail. induction l as [|x l IH]; cbn [app List.find] in *.
  - rewrite Hmail, String.eqb_refl. reflexivity.
  - destruct (User.email x === e); [discriminate|]. apply IH, Hnone.
Qed.

Lemma User_findOne_None st e :
  User_findOne st e = None <-> List.find (fun x => User.email x === e) (users st) = None.
Proof.
  unfold User_findOne. destruct (List.find _ (users st)); simpl; split; congruence.
Qed.

Lemma save_fresh (id : ObjectId) (l : list User.t) (u u' : User.t) :
  List.find (fun x => User._id x === id) l = None ->
  User._id u = id ->
  map (fun v => if User._id v === id then User_merge v u' else v) (l ++ [u])%list
  = (l ++ [User_merge u u'])%list.
Proof.
  intros Hfresh Hid. rewrite map_app. cbn [map]. rewrite Hid, String.eqb_refl.
  f_equal. rewrite <- (map_id l) at 2. apply map_ext_in. intros v Hv.
  apply (find_none _ _ Hfresh) in Hv. rewrite Hv. reflexivity.
Qed.

Lemma register_new isEmail bcrypt_hash env aenv st name req :
  validate_register isEmail name req = [] ->
  User_findOne st (str (body_email req)) = None ->
  List.find (fun u => User._id u === new_user_id aenv) (users st) = None ->
  register isEmail bcrypt_hash env aenv st name req
  = (if sendOTPEmail aenv (str (body_email req)) (str name) (random_otp aenv)
     then {| status := 201;
             json := succeeded "Registration successful. Please verify your email with the OTP sent to your email address." |}
     else {| status := 500; json := failure "Failed to send verification email" |},
     set_users st (users st ++ [registered bcrypt_hash env aenv name req])).
Proof.
  intros Hval Hfree Hfresh. unfold register, User_create.
  rewrite (passed _ Hval), Hfree, Hfresh. cbn [generateOTP].
  unfold User_save. cbn [users set_users].
  rewrite (save_fresh (new_user_id aenv) (users st) _ _ Hfresh) by reflexivity.
  unfold set_users. cbn [documents users].
  destruct (sendOTPEmail aenv _ _ _); reflexivity.
Qed.

(** X19: register refuses an email already stored with 400 "Email already
    registered" and writes nothing.  For a new email it stores the
    identity unverified, with the hash of the password and the pending
    code, and leaves the documents alone; the answer is 201 when the mail
    went out and 500 "Failed to send verification email" when it did not,
    but the identity is stored in both cases, so that registering the same
    email again is refused. *)
Theorem register_outcomes
  (isEmail : string -> bool) (bcrypt_hash : string -> string)
  (env : Env) (aenv : AuthEnv) (st : Store) (name : option string) (req : Request) :
  validate_register isEmail name req = [] ->
  let out := register isEmail bcrypt_hash env aenv st name req in
  (User_findOne st (str (body_email req)) <> None ->
   out = ({| status := 400; json := failure "Email already registered" |}, st)) /\
  (User_findOne st (str (body_email req)) = None ->
   List.find (fun u => User._id u === new_user_id aenv) (users st) = None ->
   status (fst out)
   = (if sendOTPEmail aenv (str (body_email req)) (str name) (random_otp aenv)
      then 201 else 500) /\
   users (snd out) = (users st ++ [registered bcrypt_hash env aenv name req])%list /\
   documents (snd out) = documents st /\
   forall env' aenv' name',
     validate_register isEmail name' req = [] ->
     register isEmail bcrypt_hash env' aenv' (snd out) name' req
     = ({| status := 400; json := failure "Email already registered" |}, snd out)).
Proof.
  intros Hval out. subst out. split.
  - intros Hsome. unfold register. rewrite (passed _ Hval).
    destruct (User_findOne st _); [reflexivity | contradiction].
  - intros Hfree Hfresh. rewrite (register_new _ _ _ _ _ _ _ Hval Hfree Hfresh).
    cbn [fst snd]. split; [destruct (sendOTPEmail aenv _ _ _); reflexivity|].
    split; [reflexivity|]. split; [reflexivity|].
    intros env' aenv' name' Hval'. unfold register. rewrite (passed _ Hval').
    unfold User_findOne. cbn [users set_users].
    rewrite (find_email_app_new (str (body_email req)) (users st)
               (registered bcrypt_hash env aenv name req));
      [reflexivity | apply User_findOne_None, Hfree | reflexivity].
Qed.

Lemma register_outcomes_witness :
  status (fst (register Sample.isEmail SampleAuth.bcrypt_hash (Sample.env_ok 1000)
                 (SampleAuth.aenv false) Sample.empty_store (Some "Dave")
                 SampleAuth.register_request)) = 500 /\
  length (users (SampleAuth.after_register false)) = 4%nat /\
  status (fst (register Sample.isEmail SampleAuth.bcrypt_hash (Sample.env_ok 2000)
                 (SampleAuth.aenv true) (SampleAuth.after_register false) (Some "Dave")
                 SampleAuth.register_request)) = 400 /\
  status (fst (register Sample.isEmail SampleAuth.bcrypt_hash (Sample.env_ok 1000)
                 (SampleAuth.aenv true) Sample.empty_store (Some "Al")
                 (Sample.with_password (Sample.request Sample.carol)
                    "alice@x.com" "hunter22"))) = 400.
Proof.
  destruct (register_outcomes Sample.isEmail SampleAuth.bcrypt_hash (Sample.env_ok 1000)
              (SampleAuth.aenv false) Sample.empty_store (Some "Dave")
              SampleAuth.register_request) as [_ Hnew].
  { vm_compute. reflexivity. }
  destruct Hnew as (Hstatus & Husers & _ & Hagain);
    [vm_compute; reflexivity | vm_compute; reflexivity |].
  split; [exact Hstatus|]. split.
  { unfold SampleAuth.after_register. rewrite Husers. reflexivity. }
  split.
  { unfold SampleAuth.after_register. rewrite Hagain; [reflexivity|].
    vm_compute. reflexivity. }
  destruct (register_outcomes Sample.isEmail SampleAuth.bcrypt_hash (Sample.env_ok 1000)
              (SampleAuth.aenv true) Sample.empty_store (Some "Al")
              (Sample.with_password (Sample.request Sample.carol)
                 "alice@x.com" "hunter22")) as [Hdup _].
  { vm_compute. reflexivity. }
  rewrite Hdup; [reflexivity|]. vm_compute. discriminate.
Defined.

(** ** From registration to the first login *)

Lemma login_accepts isEmail jwt_sign bcrypt_compare env st req u hash :
  validate_login isEmail req = [] ->
  User_findOne_select_password st (str (body_email req)) = Some u ->
  User.isVerified u = true ->
  User.password u = Some hash ->
  response (login isEmail jwt_sign bcrypt_compare env st req)
  = if bcrypt_compare (str (body_password req)) hash
    then sendTokenResponse jwt_sign env u 200
    else {| status := 401; json := failure "Invalid credentials" |}.
Proof.
  intros Hval Hu Hver Hpw. unfold login, matchPassword.
  rewrite (passed _ Hval), Hu, Hver, Hpw. cbn [option_map negb].
  destruct (bcrypt_compare _ hash); reflexivity.
Qed.

Lemma login_unverified isEmail jwt_sign bcrypt_compare env st req u :
  validate_login isEmail req = [] ->
  User_findOne_select_password st (str (body_email req)) = Some u ->
  User.isVerified u = false ->
  response (login isEmail jwt_sign bcrypt_compare env st req)
  = {| status := 401; json := failure "Please verify your email before logging in" |}.
Proof.
  intros Hval Hu Hver. unfold login. rewrite (passed _ Hval), Hu, Hver. reflexivity.
Qed.

(** X20: the way in.  After register stored a new identity (whether or not
    the mail went out), login with the registered password is refused with
    401 "Please verify your email before logging in"; verifyOTP with the
    code that was drawn, not after its expiry, answers 200; and after that
    the same login answers 200, provided bcrypt accepts the password
    against its own hash. *)
Theorem register_verify_login
  (isEmail : string -> bool) (jwt_sign : ObjectId -> Z -> string)
  (bcrypt_compare : string -> string -> bool) (bcrypt_hash : string -> string)
  (env env1 env2 env3 : Env) (aenv : AuthEnv) (st : Store)
  (name : option string) (req : Request) (pw : string) :
  validate_register isEmail name req = [] ->
  User_findOne st (str (body_email req)) = None ->
  List.find (fun u => User._id u === new_user_id aenv) (users st) = None ->
  body_password req = Some pw ->
  body_otp req = Some (random_otp aenv) ->
  String.length (random_otp aenv) = 6%nat ->
  Date_now env2 <= Date_now env + otp_expire_ms aenv ->
  bcrypt_compare pw (bcrypt_hash pw) = true ->
  let st1 := snd (register isEmail bcrypt_hash env aenv st name req) in
  let verified := verifyOTP isEmail jwt_sign env2 st1 req in
  response (login isEmail jwt_sign bcrypt_compare env1 st1 req)
  = {| status := 401; json := failure "Please verify your email before logging in" |} /\
  status (response verified) = 200 /\
  status (response (login isEmail jwt_sign bcrypt_compare env3 (store verified) req)) = 200.
Proof.
  intros Hval Hfree Hfresh Hpw Hotp Hlen Hnow Hbcrypt st1 verified.
  subst verified st1. rewrite (register_new _ _ _ _ _ _ _ Hval Hfree Hfresh).
  cbn [snd].
  set (u := registered bcrypt_hash env aenv name req).
  set (st1 := set_users st (users st ++ [u])).
  assert (Hmail : check_isEmail isEmail (body_email req) = true).
  { unfold validate_register in Hval. apply app_eq_nil in Hval as [_ Hval].
    apply app_eq_nil in Hval as [Hval _]. apply check_nil in Hval. exact Hval. }
  assert (Hvlogin : validate_login isEmail req = []).
  { unfold validate_login. rewrite Hmail, Hpw. reflexivity. }
  assert (Hvotp : validate_verifyOTP isEmail req = []).
  { unfold validate_verifyOTP, notEmpty, isLength. rewrite Hmail, Hotp.
    cbn [str default id]. rewrite Hlen. destruct (random_otp aenv); [discriminate Hlen | reflexivity]. }
  assert (Hfind : List.find (fun x => User.email x === str (body_email req)) (users st1)
                  = Some u).
  { apply find_email_app_new; [apply User_findOne_None, Hfree | reflexivity]. }
  split; [|split].
  - apply (login_unverified _ _ _ _ _ _ u Hvlogin); [exact Hfind | reflexivity].
  - rewrite (verifyOTP_accepts isEmail jwt_sign env2 st1 req (User_project u)
               {| code := random_otp aenv; expiry := Date_now env + otp_expire_ms aenv |}).
    + reflexivity.
    + exact Hvotp.
    + unfold User_findOne. rewrite Hfind. reflexivity.
    + reflexivity.
    + unfold pendingCode. cbn. destruct (random_otp aenv === "") eqn:E; [|reflexivity].
      apply String.eqb_eq in E. rewrite E in Hlen. discriminate Hlen.
    + cbn. rewrite Hotp. reflexivity.
    + exact Hnow.
  - rewrite (verifyOTP_accepts isEmail jwt_sign env2 st1 req (User_project u)
               {| code := random_otp aenv; expiry := Date_now env + otp_expire_ms aenv |}).
    + cbn [store]. unfold User_save. cbn [users st1 set_users].
      rewrite (save_fresh (new_user_id aenv) (users st) u _ Hfresh) by reflexivity.
      set (v := User_merge u (set_verified (User_project u))).
      rewrite (login_accepts isEmail jwt_sign bcrypt_compare env3 _ req v
                 (bcrypt_hash pw) Hvlogin).
      * rewrite Hpw. cbn [str default id]. rewrite Hbcrypt. reflexivity.
      * unfold User_findOne_select_password. cbn [users set_users].
        apply find_email_app_new; [apply User_findOne_None, Hfree | reflexivity].
      * reflexivity.
      * cbn. rewrite Hpw. reflexivity.
    + exact Hvotp.
    + unfold User_findOne. rewrite Hfind. reflexivity.
    + reflexivity.
    + unfold pendingCode. cbn. destruct (random_otp aenv === "") eqn:E; [|reflexivity].
      apply String.eqb_eq in E. rewrite E in Hlen. discriminate Hlen.
    + cbn. rewrite Hotp. reflexivity.
    + exact Hnow.
Qed.

Lemma register_verify_login_witness :
  let req := SampleAuth.dave_verifies "654321" in
  let st1 := snd (register Sample.isEmail SampleAuth.bcrypt_hash (Sample.env_ok 1000)
                    (SampleAuth.aenv false) Sample.empty_store (Some "Dave") req) in
  let verified := verifyOTP Sample.isEmail Sample.jwt_sign (Sample.env_ok 5000) st1 req in
  status (response (login Sample.isEmail Sample.jwt_sign Sample.bcrypt_compare
                      (Sample.env_ok 2000) st1 req)) = 401 /\
  status (response verified) = 200 /\
  status (response (login Sample.isEmail Sample.jwt_sign Sample.bcrypt_compare
                      (Sample.env_ok 6000) (store verified) req)) = 200.
Proof.
  intros req st1 verified.
  destruct (register_verify_login Sample.isEmail Sample.jwt_sign Sample.bcrypt_compare
              SampleAuth.bcrypt_hash (Sample.env_ok 1000) (Sample.env_ok 2000)
              (Sample.env_ok 5000) (Sample.env_ok 6000) (SampleAuth.aenv false)
              Sample.empty_store (Some "Dave") req "hunter22") as (H1 & H2 & H3).
  - vm_compute. reflexivity.
  - vm_compute. reflexivity.
  - vm_compute. reflexivity.
  - reflexivity.
  - reflexivity.
  - reflexivity.
  - simpl. lia.
  - vm_compute. reflexivity.
  - subst st1 verified. rewrite H1. auto.
Defined.

(** ** resendOTP *)

Lemma verifyOTP_rejects_mismatch isEmail jwt_sign env st req u pending :
  validate_verifyOTP isEmail req = [] ->
  User_findOne st (str (body_email req)) = Some u ->
  User.isVerified u = false ->
  pendingCode u = Some pending ->
  code pending <> str (body_otp req) ->
  Date_now env <= expiry pending ->
  verifyOTP isEmail jwt_sign env st req = reply st [] 400 (failure "Invalid OTP").
Proof.
  intros Hval Hu Hver Hpending Hcode Hnow. unfold verifyOTP.
  rewrite (passed _ Hval), Hu, Hver. unfold pendingCode in Hpending.
  destruct (User.otp u) as [o|]; [|discriminate].
  destruct (code o === ""); [discriminate|]. injection Hpending as ->.
  apply Z.ltb_ge in Hnow. apply String.eqb_neq in Hcode.
  rewrite Hnow, Hcode. reflexivity.
Qed.

Lemma resendOTP_new isEmail env aenv st req u :
  validate_resendOTP isEmail req = [] ->
  User_findOne st (str (body_email req)) = Some u ->
  User.isVerified u = false ->
  snd (resendOTP isEmail env aenv st req)
  = User_save st (snd (generateOTP env aenv u)) /\
  status (fst (resendOTP isEmail env aenv st req))
  = if sendOTPEmail aenv (str (body_email req)) (User.name u) (random_otp aenv)
    then 200 else 500.
Proof.
  intros Hval Hu Hver. unfold resendOTP. rewrite (passed _ Hval), Hu, Hver.
  cbn [generateOTP User.name]. destruct (sendOTPEmail aenv _ _ _); auto.
Qed.

(** X21: resendOTP for an unverified identity overwrites the pending code:
    from then on, until the new expiry, verifyOTP accepts the code just
    drawn and answers 400 "Invalid OTP" to any other, the earlier code
    included, whatever that code's own expiry was.  This holds whether or
    not the mail went out. *)
Theorem resendOTP_replaces_code
  (isEmail : string -> bool) (jwt_sign : ObjectId -> Z -> string)
  (env env' : Env) (aenv : AuthEnv) (st : Store) (req : Request) (u : User.t) :
  validate_verifyOTP isEmail req = [] ->
  User_findOne st (str (body_email req)) = Some u ->
  User.isVerified u = false ->
  random_otp aenv <> "" ->
  Date_now env' <= Date_now env + otp_expire_ms aenv ->
  let st' := snd (resendOTP isEmail env aenv st req) in
  let out := verifyOTP isEmail jwt_sign env' st' req in
  (str (body_otp req) = random_otp aenv -> status (response out) = 200) /\
  (str (body_otp req) <> random_otp aenv ->
   out = reply st' [] 400 (failure "Invalid OTP")).
Proof.
  intros Hval Hu Hver Hcode Hnow st' out. subst out st'.
  assert (Hvresend : validate_resendOTP isEmail req = []).
  { unfold validate_verifyOTP in Hval. apply app_eq_nil in Hval as [Hval _].
    exact Hval. }
  destruct (resendOTP_new isEmail env aenv st req u Hvresend Hu Hver) as [-> _].
  destruct (User_findOne_project _ _ _ Hu) as (v & Hfind & -> & Hmail).
  set (u' := snd (generateOTP env aenv (User_project v))).
  destruct (find_email_saved (str (body_email req)) u' (users st) v Hfind)
    as (w & Hw & Hwver & Hwotp); [reflexivity | exact Hmail |].
  set (pending := {| code := random_otp aenv;
                     expiry := Date_now env + otp_expire_ms aenv |}).
  assert (Hfound : User_findOne (User_save st u') (str (body_email req))
                   = Some (User_project w)).
  { unfold User_findOne, User_save, set_users. cbn [users]. rewrite Hw. reflexivity. }
  assert (Hpending : pendingCode (User_project w) = Some pending).
  { unfold pendingCode. cbn [User_project User.otp]. rewrite Hwotp. cbn.
    apply String.eqb_neq in Hcode. rewrite Hcode. reflexivity. }
  assert (Hunverified : User.isVerified (User_project w) = false).
  { cbn [User_project User.isVerified]. rewrite Hwver. exact Hver. }
  split.
  - intros Heq.
    rewrite (verifyOTP_accepts isEmail jwt_sign env' _ req (User_project w) pending);
      auto.
  - intros Hne.
    apply (verifyOTP_rejects_mismatch isEmail jwt_sign env' _ req (User_project w) pending);
      auto.
Qed.

Lemma resendOTP_replaces_code_witness :
  let st' := snd (resendOTP Sample.isEmail (Sample.env_ok 900) (SampleAuth.aenv true)
                    Sample.empty_store Sample.verify_request) in
  verifyOTP Sample.isEmail Sample.jwt_sign (Sample.env_ok 950) st' Sample.verify_request
  = reply st' [] 400 (failure "Invalid OTP") /\
  status (response (verifyOTP Sample.isEmail Sample.jwt_sign (Sample.env_ok 950) st'
                      (Sample.with_otp Sample.verify_request "carol@x.com" "654321")))
  = 200.
Proof.
  intros st'. split.
  - apply (resendOTP_replaces_code Sample.isEmail Sample.jwt_sign (Sample.env_ok 900)
             (Sample.env_ok 950) (SampleAuth.aenv true) Sample.empty_store
             Sample.verify_request (User_project Sample.carol)).
    + vm_compute. reflexivity.
    + vm_compute. reflexivity.
    + reflexivity.
    + discriminate.
    + simpl. lia.
    + discriminate.
  - apply (resendOTP_replaces_code Sample.isEmail Sample.jwt_sign (Sample.env_ok 900)
             (Sample.env_ok 950) (SampleAuth.aenv true) Sample.empty_store
             (Sample.with_otp Sample.verify_request "carol@x.com" "654321")
             (User_project Sample.carol)).
    + vm_compute. reflexivity.
    + vm_compute. reflexivity.
    + reflexivity.
    + discriminate.
    + simpl. lia.
    + reflexivity.
Defined.

(** ** updatePassword *)

Lemma find_email_saved_password (e : string) (u : User.t) (l : list User.t)
  (v : User.t) (hash : string) :
  List.find (fun x => User.email x === e) l = Some v ->
  User._id u = User._id v ->
  User.email u = e ->
  User.password u = Some hash ->
  exists w,
    List.find (fun x => User.email x === e)
      (map (fun x => if User._id x === User._id u then User_merge x u else x) l)
    = Some w /\
    User.isVerified w = User.isVerified u /\ User.password w = Some hash.
Proof.
  intros Hfind Hid Hmail Hpw. induction l as [|x l IH]; cbn [List.find map] in *;
    [discriminate|].
  destruct (User._id x === User._id u) eqn:Hx.
  - cbn [User_merge User.email]. rewrite Hmail, String.eqb_refl.
    eexists. split; [reflexivity|]. cbn. rewrite Hpw. auto.
  - destruct (User.email x === e) eqn:Hxe.
    + injection Hfind as ->. rewrite Hid, String.eqb_refl in Hx. discriminate.
    + apply IH, Hfind.
Qed.

(** X22: updatePassword writes only when it answers 200.  A wrong current
    password is answered 401 and a new password that bcrypt matches to the
    stored hash 400, both leaving the store as it was.  Otherwise the
    answer is 200 and the stored hash is that of the new password: a later
    login of this user succeeds exactly when bcrypt matches the entered
    password to the new hash; the old hash plays no part any more. *)
Theorem updatePassword_outcomes
  (isEmail : string -> bool) (jwt_sign : ObjectId -> Z -> string)
  (bcrypt_compare : string -> string -> bool) (bcrypt_hash : string -> string)
  (env : Env) (st : Store) (currentPassword newPassword : option string)
  (req req' : Request) (usr : User.t) (hash : string) :
  validate_updatePassword currentPassword newPassword = [] ->
  List.find (fun u => User._id u === User._id (req_user req)) (users st) = Some usr ->
  User.password usr = Some hash ->
  let out := updatePassword bcrypt_compare bcrypt_hash st currentPassword newPassword req in
  (bcrypt_compare (str currentPassword) hash = false ->
   out = ({| status := 401; json := failure "Current password is incorrect" |}, st)) /\
  (bcrypt_compare (str currentPassword) hash = true ->
   bcrypt_compare (str newPassword) hash = true ->
   out = ({| status := 400;
             json := failure "New password must be different from current password" |},
          st)) /\
  (bcrypt_compare (str currentPassword) hash = true ->
   bcrypt_compare (str newPassword) hash = false ->
   status (fst out) = 200 /\
   documents (snd out) = documents st /\
   (validate_login isEmail req' = [] ->
    List.find (fun u => User.email u === str (body_email req')) (users st) = Some usr ->
    User.isVerified usr = true ->
    status (response (login isEmail jwt_sign bcrypt_compare env (snd out) req'))
    = if bcrypt_compare (str (body_password req')) (bcrypt_hash (str newPassword))
      then 200 else 401)).
Proof.
  intros Hval Hfind Hpw out. subst out. unfold updatePassword, matchPassword.
  rewrite Hval, Hfind, Hpw. cbn [option_map default id].
  split; [|split].
  - intros ->. reflexivity.
  - intros -> ->. reflexivity.
  - intros -> ->. cbn [fst snd]. split; [reflexivity|]. split; [reflexivity|].
    intros Hvlogin Hmail Hver.
    set (u' := set_password usr (bcrypt_hash (str newPassword))).
    destruct (find_email_saved_password (str (body_email req')) u' (users st) usr
                (bcrypt_hash (str newPassword)) Hmail)
      as (w & Hw & Hwver & Hwpw); [reflexivity | | reflexivity |].
    { apply find_some in Hmail as [_ E]. apply String.eqb_eq in E. exact E. }
    rewrite (login_accepts isEmail jwt_sign bcrypt_compare env _ req' w
               (bcrypt_hash (str newPassword)) Hvlogin).
    + destruct (bcrypt_compare _ _); reflexivity.
    + unfold User_findOne_select_password, User_save, set_users. cbn [users].
      exact Hw.
    + rewrite Hwver. exact Hver.
    + exact Hwpw.
Qed.

Lemma updatePassword_outcomes_witness :
  let change := updatePassword Sample.bcrypt_compare SampleAuth.bcrypt_hash
                  Sample.empty_store (Some "wonderland") (Some "looking-glass")
                  (Sample.request Sample.alice) in
  let login' pw := login Sample.isEmail Sample.jwt_sign Sample.bcrypt_compare
                     (Sample.env_ok 500) (snd change)
                     (Sample.with_password (Sample.request Sample.alice)
                                           "alice@x.com" pw) in
  status (fst change) = 200 /\
  status (response (login' "looking-glass")) = 200 /\
  status (response (login' "wonderland")) = 401.
Proof.
  intros change login'. subst change login'.
  pose proof (fun req' =>
    updatePassword_outcomes Sample.isEmail Sample.jwt_sign Sample.bcrypt_compare
      SampleAuth.bcrypt_hash (Sample.env_ok 500) Sample.empty_store (Some "wonderland")
      (Some "looking-glass") (Sample.request Sample.alice) req' Sample.alice
      "$2a$07wonderland" eq_refl eq_refl eq_refl) as H.
  cbv zeta in H.
  split; [|split].
  - apply (H (Sample.request Sample.alice)); reflexivity.
  - destruct (H (Sample.with_password (Sample.request Sample.alice)
                   "alice@x.com" "looking-glass")) as (_ & _ & H3).
    destruct H3 as (_ & _ & Hlogin); [reflexivity | reflexivity |].
    rewrite Hlogin; [reflexivity | vm_compute; reflexivity | reflexivity | reflexivity].
  - destruct (H (Sample.with_password (Sample.request Sample.alice)
                   "alice@x.com" "wonderland")) as (_ & _ & H3).
    destruct H3 as (_ & _ & Hlogin); [reflexivity | reflexivity |].
    rewrite Hlogin; [reflexivity | vm_compute; reflexivity | reflexivity | reflexivity].
Defined.

(** * Properties of the middleware and the routers *)



(** ** The token *)

Lemma split_no_space (s : string) : no_space s = true -> split " " s = [s].
Proof.
  induction s as [|c s IH]; cbn [no_space split]; [reflexivity|].
  intros H. apply andb_true_iff in H as [Hc Hs]. apply negb_true_iff in Hc.
  rewrite Hc, (IH Hs). reflexivity.
Qed.

Lemma bearer_token_Bearer req (tok : string) :
  no_space tok = true ->
  bearer_token (with_authorization req (Some ("Bearer " ++ tok))) = Some tok.
Proof.
  intros H. unfold bearer_token. cbn [with_authorization authorization].
  change (startsWith ("Bearer " ++ tok) "Bearer") with true. cbv iota.
  change (split " " ("Bearer " ++ tok)) with ("Bearer" :: split " " tok).
  rewrite (split_no_space _ H). reflexivity.
Qed.

Lemma findById_saved (id : ObjectId) (u : User.t) (l : list User.t) (v : User.t) :
  In v l -> User._id v = id ->
  exists w,
    List.find (fun x => User._id x === id)
      (map (fun x => if User._id x === id then User_merge x u else x) l)
    = Some w /\
    User._id w = id /\ User.isVerified w = User.isVerified u /\
    User.email w = User.email u.
Proof.
  intros Hin Hid. induction l as [|x l IH]; [destruct Hin|].
  cbn [map List.find]. destruct (User._id x === id) eqn:E.
  - cbn [User_merge User._id]. rewrite E. eexists. split; [reflexivity|].
    apply String.eqb_eq in E. cbn. auto.
  - rewrite E. destruct Hin as [-> | Hin]; [|auto].
    rewrite Hid, String.eqb_refl in E. discriminate.
Qed.

Lemma protect_passes jwt_verify env st req tok id u :
  bearer_token req = Some tok -> tok <> "" ->
  jwt_verify tok (Date_now env) = Some id ->
  User_findById st id = Some u ->
  User.isVerified u = true ->
  protect jwt_verify env st req = inr u.
Proof.
  intros Htok Hne Hjwt Hu Hver. unfold protect. rewrite Htok.
  destruct tok; [contradiction|]. rewrite Hjwt, Hu, Hver. reflexivity.
Qed.

(** X24: the token verifyOTP hands out opens the protected routes.  When
    verifyOTP answers 200, a request carrying "Bearer " and the token of
    the body passes protect on the resulting store, and the identity
    attached is verified and has the email that was verified; this for
    any token without a space that jwt.verify accepts at the time of the
    request, returning the id it was signed for. *)
Theorem verified_token_passes_protect
  (isEmail : string -> bool) (jwt_sign : ObjectId -> Z -> string)
  (jwt_verify : string -> Z -> option ObjectId)
  (env env' : Env) (st : Store) (req req' : Request) (tok : string) :
  status (response (verifyOTP isEmail jwt_sign env st req)) = 200 ->
  token (json (response (verifyOTP isEmail jwt_sign env st req))) = Some tok ->
  tok <> "" ->
  no_space tok = true ->
  (forall id, jwt_sign id (Date_now env) = tok ->
              jwt_verify tok (Date_now env') = Some id) ->
  exists usr,
    protect jwt_verify env' (store (verifyOTP isEmail jwt_sign env st req))
            (with_authorization req' (Some ("Bearer " ++ tok)))
    = inr usr /\
    User.isVerified usr = true /\
    User.email usr = str (body_email req) /\
    User.password usr = None.
Proof.
  intros H200 Htok Hne Hspace Hjwt.
  revert H200 Htok. unfold verifyOTP.
  destruct (negb (isEmpty (validate_verifyOTP isEmail req))); [discriminate|].
  destruct (User_findOne st (str (body_email req))) as [u|] eqn:Hu; [|discriminate].
  repeat case_scrutinee; cbn [response reply status]; try discriminate.
  intros _. cbn [store sendTokenResponse json token getSignedJwtToken].
  intros [= Hsigned].
  destruct (User_findOne_project _ _ _ Hu) as (v & Hfind & -> & Hmail).
  apply find_some in Hfind as [Hin _].
  destruct (findById_saved (User._id v) (set_verified (User_project v)) (users st) v
              Hin eq_refl) as (w & Hw & Hid & Hver & Hwmail).
  exists (User_project w).
  cbn [set_verified User_project User._id] in *.
  split; [|split; [|split]].
  - apply (protect_passes jwt_verify env' _ _ tok (User._id v));
      [apply bearer_token_Bearer, Hspace | exact Hne | apply Hjwt, Hsigned | | ].
    + unfold User_findById, User_save, set_users. cbn [users].
      cbn [set_verified User_project User._id]. rewrite Hw. reflexivity.
    + cbn. rewrite Hver. reflexivity.
  - cbn. rewrite Hver. reflexivity.
  - cbn. rewrite Hwmail. exact Hmail.
  - reflexivity.
Qed.

Lemma verified_token_passes_protect_witness :
  let verified := verifyOTP Sample.isEmail Sample.jwt_sign (Sample.env_ok 500)
                    Sample.empty_store Sample.verify_request in
  exists usr,
    protect Sample.jwt_verify (Sample.env_ok 600) (store verified)
            (with_authorization (Sample.request Sample.alice) (Some "Bearer jwt.ca4010000000000000000000"))
    = inr usr /\
    User.isVerified usr = true /\ User.email usr = "carol@x.com".
Proof.
  intros verified.
  destruct (verified_token_passes_protect Sample.isEmail Sample.jwt_sign
              Sample.jwt_verify (Sample.env_ok 500) (Sample.env_ok 600)
              Sample.empty_store Sample.verify_request (Sample.request Sample.alice)
              "jwt.ca4010000000000000000000") as (usr & Hpass & Hver & Hmail & _).
  - vm_compute. reflexivity.
  - vm_compute. reflexivity.
  - discriminate.
  - reflexivity.
  - intros id H. vm_compute in H. injection H as ->. reflexivity.
  - exists usr. auto.
Defined.

(** ** Behind protect *)

Lemma User_findById_id st id u : User_findById st id = Some u -> User._id u = id.
Proof.
  unfold User_findById. destruct (List.find _ (users st)) as [v|] eqn:E; [|discriminate].
  intros [= <-]. apply find_some in E as [_ E]. apply String.eqb_eq in E. exact E.
Qed.

Lemma protect_inr jwt_verify env st req usr :
  protect jwt_verify env st req = inr usr ->
  exists tok id,
    bearer_token req = Some tok /\ tok <> "" /\
    jwt_verify tok (Date_now env) = Some id /\
    User_findById st id = Some usr /\
    User._id usr = id /\ User.isVerified usr = true /\ User.password usr = None.
Proof.
  unfold protect. destruct (bearer_token req) as [[|c tok]|]; try discriminate.
  destruct (jwt_verify _ _) as [id|] eqn:Hjwt; [|discriminate].
  destruct (User_findById st id) as [u|] eqn:Hu; [|discriminate].
  destruct (User.isVerified u) eqn:Hver; [|discriminate].
  cbn [negb]. intros [= <-]. exists (String c tok), id.
  repeat split; auto; try discriminate.
  - apply (User_findById_id _ _ _ Hu).
  - unfold User_findById in Hu. destruct (List.find _ (users st)); [|discriminate].
    injection Hu as <-. reflexivity.
Qed.

Lemma protect_inl jwt_verify env st req res :
  protect jwt_verify env st req = inl res -> status res = 401.
Proof.
  unfold protect. repeat case_scrutinee; intros [= <-]; reflexivity.
Qed.

(** X25: the documents router acts only for the bearer of a valid token.
    Whenever a request changes the store or causes an effect outside, its
    token was accepted by jwt.verify, the id in it finds a verified stored
    user, and the controller ran with that user as requester.  A document
    created through the router is owned by the id in the token.  When
    multer reported an error the upload changes nothing and is answered
    401 or 400. *)
Theorem documents_router_acts_for_bearer
  (isEmail : string -> bool) (jwt_verify : string -> Z -> option ObjectId)
  (r : Route) (upload_err : option UploadError) (env : Env) (st : Store)
  (req : Request) :
  let out := documents_router isEmail jwt_verify r upload_err env st req in
  (store out <> st \/ effects out <> [] ->
   exists tok id usr,
     bearer_token req = Some tok /\
     jwt_verify tok (Date_now env) = Some id /\
     User_findById st id = Some usr /\ User.isVerified usr = true /\
     out = handle isEmail r env st (attach_user req usr)) /\
  (r = POST_documents -> status (response out) = 201 ->
   exists tok id docid d,
     bearer_token req = Some tok /\
     jwt_verify tok (Date_now env) = Some id /\
     documents st !! docid = None /\
     documents (store out) !! docid = Some d /\
     owner d = id /\ sharedWith d = []) /\
  (r = POST_documents -> upload_err <> None ->
   store out = st /\ effects out = [] /\
   (status (response out) = 401 \/ status (response out) = 400)).
Proof.
  intros out. subst out. unfold documents_router.
  destruct (protect jwt_verify env st req) as [res|usr] eqn:Hp.
  - apply protect_inl in Hp. cbn [store effects response]. split; [|split].
    + intros [H|H]; contradiction.
    + intros _ H. rewrite Hp in H. discriminate.
    + auto.
  - destruct (protect_inr _ _ _ _ _ Hp) as (tok & id & Htok & _ & Hjwt & Hu & Hid & Hver & _).
    split; [|split].
    + intros Hchanged. exists tok, id, usr.
      repeat split; auto.
      destruct r; try reflexivity.
      destruct (handleFileUploadError upload_err); [|reflexivity].
      cbn [store effects] in Hchanged. destruct Hchanged; contradiction.
    + intros -> H201.
      destruct (handleFileUploadError upload_err) as [res|] eqn:Herr.
      { exfalso. cbn [response] in H201. destruct upload_err as [[code msg|msg]|];
          cbn [handleFileUploadError] in Herr; [| |discriminate];
          repeat (revert Herr; case_scrutinee; intros Herr);
          injection Herr as <-; discriminate. }
      cbn [handle] in *.
      destruct (uploadDocument_created _ _ _ H201)
        as (docid & d & _ & Hnew & Hd & Hown & Hnil).
      exists tok, id, docid, d. cbn [attach_user req_user] in Hown.
      rewrite Hid in Hown. auto 10.
    + intros -> Herr. destruct upload_err as [[code msg|msg]|]; [| |contradiction];
        cbn [handleFileUploadError]; repeat case_scrutinee; cbn; auto.
Qed.

Lemma documents_router_acts_for_bearer_witness :
  let out := documents_router Sample.isEmail Sample.jwt_verify POST_documents None
               (Sample.env_ok 100) Sample.empty_store
               (Sample.with_authorization Sample.upload_request
                                          (Some "Bearer jwt.b0b000000000000000000000")) in
  exists d, documents (store out) !! "d0c100000000000000000000" = Some d /\ owner d = "b0b000000000000000000000".
Proof.
  intros out.
  destruct (documents_router_acts_for_bearer Sample.isEmail Sample.jwt_verify
              POST_documents None (Sample.env_ok 100) Sample.empty_store
              (Sample.with_authorization Sample.upload_request (Some "Bearer jwt.b0b000000000000000000000")))
    as (_ & Hcreated & _).
  destruct (Hcreated eq_refl) as (tok & id & docid & d & Htok & Hjwt & _ & Hd & Hown & _).
  - vm_compute. reflexivity.
  - injection Htok as <-. injection Hjwt as <-.
    subst out.
    assert (Hdocid : docid = "d0c100000000000000000000").
    { destruct (String.eqb_spec docid "d0c100000000000000000000") as [E|E]; [exact E|].
      exfalso. revert Hd.
      change (documents_router Sample.isEmail Sample.jwt_verify POST_documents None
                (Sample.env_ok 100) Sample.empty_store
                (Sample.with_authorization Sample.upload_request (Some "Bearer jwt.b0b000000000000000000000")))
        with (handle Sample.isEmail POST_documents (Sample.env_ok 100) Sample.empty_store
                (attach_user (Sample.with_authorization Sample.upload_request
                                (Some "Bearer jwt.b0b000000000000000000000")) (User_project Sample.bob))).
      destruct (handle_writes_one_document_aux Sample.isEmail POST_documents
                  (Sample.env_ok 100) Sample.empty_store
                  (attach_user (Sample.with_authorization Sample.upload_request
                                  (Some "Bearer jwt.b0b000000000000000000000")) (User_project Sample.bob)))
        as [_ Hframe].
      rewrite (Hframe docid) by exact E. discriminate. }
    subst docid. exists d. auto.
Defined.

(** X26: behind protect, GET /me never answers 500: the answer is the 401 of
    protect, or 200 with the verified identity the token's id finds in the
    users collection, delivered without the password hash.  The lookup
    getMe repeats cannot come back empty. *)
Theorem auth_router_me_answers
  (jwt_verify : string -> Z -> option ObjectId) (env : Env) (st : Store) (req : Request) :
  let ans := auth_router_me jwt_verify env st req in
  (exists res, protect jwt_verify env st req = inl res /\
               answer_status ans = 401 /\ answer_json ans = JFailure (json res)) \/
  (exists tok id usr,
     bearer_token req = Some tok /\
     jwt_verify tok (Date_now env) = Some id /\
     User_findById st id = Some usr /\
     ans = {| answer_status := 200; answer_json := JUser usr |} /\
     User._id usr = id /\ User.isVerified usr = true /\ User.password usr = None).
Proof.
  intros ans. subst ans. unfold auth_router_me.
  destruct (protect jwt_verify env st req) as [res|usr] eqn:Hp.
  - left. exists res. rewrite (protect_inl _ _ _ _ _ Hp). auto.
  - right.
    destruct (protect_inr _ _ _ _ _ Hp) as (tok & id & Htok & _ & Hjwt & Hu & Hid & Hver & Hpw).
    exists tok, id, usr. unfold getMe. cbn [attach_user req_user].
    rewrite Hid, Hu. auto 10.
Qed.

(** X27: behind protect the two ways of testing for a share coincide.  For
    a request protect lets through, GET /:id on a document whose owner is a
    stored user answers 200 exactly when the id in the token is the owner's
    or is named in the share list, and 403 otherwise: the populated user
    getDocument compares is always there for the requester. *)
Theorem documents_router_get_admits
  (jwt_verify : string -> Z -> option ObjectId) (env : Env) (st : Store) (req : Request)
  (usr : User.t) (d : Document) :
  protect jwt_verify env st req = inr usr ->
  documents st !! params_id req = Some d ->
  populate st (owner d) <> None ->
  answer_status (documents_router_get jwt_verify env st req)
  = if (owner d === User._id usr)
       || existsb (fun share => user share === User._id usr) (sharedWith d)
    then 200 else 403.
Proof.
  intros Hp Hd Howner. unfold documents_router_get. rewrite Hp.
  destruct (protect_inr _ _ _ _ _ Hp) as (tok & id & _ & _ & _ & Hu & Hid & _ & _).
  apply populate_of_findById in Hu. rewrite <- Hid in Hu.
  destruct (populate st (owner d)) as [own|] eqn:Hown; [|contradiction].
  destruct (getDocument_access_aux st (attach_user req usr) d own Hd Hown) as [Hyes Hno].
  cbn [attach_user req_user] in Hyes, Hno.
  destruct (owner d === User._id usr) eqn:E.
  - apply String.eqb_eq in E. rewrite Hyes; auto.
  - destruct (existsb _ (sharedWith d)) eqn:Es.
    + apply existsb_user_In in Es. rewrite Hyes; [reflexivity|].
      right. split; [exact Es|]. rewrite Hu. discriminate.
    + rewrite Hno; [reflexivity|]. apply String.eqb_neq in E.
      intros [Heq | [Hin _]]; [contradiction|].
      apply existsb_user_In in Hin. rewrite Hin in Es. discriminate.
Qed.

Lemma documents_router_get_admits_witness :
  answer_status (documents_router_get Sample.jwt_verify (Sample.env_ok 300)
                   (Sample.after_share "view") (Sample.request Sample.bob)) = 200.
Proof.
  apply (documents_router_get_admits Sample.jwt_verify (Sample.env_ok 300)
           (Sample.after_share "view") (Sample.request Sample.bob)
           (User_project Sample.bob) (Sample.shared_passport "view")).
  - vm_compute. reflexivity.
  - vm_compute. reflexivity.
  - discriminate.
Defined.
